(** * NotifyBuddy: reminder store, alarm naming and lifecycle handlers

    A shallow embedding of the reminder core of the extension:

    - [Storage]        shared/storage.js  (validate, normalize, save, delete,
                       status update over the array kept under one storage key)
    - [Alarms]         shared/alarms.js   (alarm naming, scheduling, cancelling)
    - [ServiceWorker]  background/service-worker.js (alarm-name parsing, record
                       matching, the onAlarm listener and its own status update)
    - [Options]        options/options.js (dismiss and undo-dismiss handlers)
    - [Utils]          shared/utils.js    (relative time, id generation, date check)
    - [Dashboard]      options/options.js (add, edit, delete, statistics, sorting)
    - [Popup]          popup/popup.js     (form check, record creation, submit)
    - [Timed]          the handlers that read the clock more than once, with
                       one reading per read

    Modelling conventions.

    - A JavaScript string is a [string]: one [ascii] per code unit, so only
      code units below 256 are represented.
    - A JavaScript number that holds a timestamp is an integer [Z]; a field
      that may be missing is an [option], and [None] also stands for the
      [NaN] that [Number(undefined)] gives.
    - [async] functions run to completion one after the other, so they are
      functions in a state-and-exception monad over the browser state
      (storage area, alarms, notifications, page globals, clock).
    - [Date.now()] returns the clock of the state.  A function that reads
      it once is stated at that reading.  The handlers that read it several
      times, with awaits in between, are first written at one reading and
      then, in [Timed], with the reading of each read given; the two agree
      when all readings coincide, and what depends on two reads is stated
      of the latter.
    - The host APIs themselves ([chrome.storage], [chrome.alarms]) are taken
      to succeed; [chrome.notifications.create] may reject, as recorded in
      the state. *)

From Stdlib Require Import String Ascii ZArith List Bool Lia.
Import ListNotations.
Local Open Scope string_scope.
Local Open Scope Z_scope.

(* ================================================================== *)
(** ** JavaScript string and number primitives used by the sources     *)
(* ================================================================== *)

Module JS.

(** Code unit of a character, as a [Z]. *)
Definition code (c : ascii) : Z := Z.of_N (N_of_ascii c).

(** White space and line terminators stripped by [trim] and skipped by
    [parseInt]: TAB, LF, VT, FF, CR, SPACE and NBSP (the ones below 256). *)
Definition is_whitespace (c : ascii) : bool :=
  let n := code c in
  ((9 <=? n) && (n <=? 13)) || (n =? 32) || (n =? 160).

Definition is_digit (c : ascii) : bool :=
  let n := code c in (48 <=? n) && (n <=? 57).

Definition digit_val (c : ascii) : Z := code c - 48.

Definition is_empty (s : string) : bool :=
  match s with EmptyString => true | String _ _ => false end.

(** [!s] for a string: only the empty string is falsy. *)
Definition truthy_str (s : string) : bool := negb (is_empty s).

(** [!n] for a number: zero and NaN ([None]) are falsy. *)
Definition truthy_num (n : option Z) : bool :=
  match n with Some z => negb (z =? 0) | None => false end.

(** [s.length] *)
Definition length (s : string) : Z := Z.of_nat (String.length s).

(** [s.startsWith(p)] *)
Definition startsWith (s p : string) : bool := String.prefix p s.

(** [s.lastIndexOf(c)] for a one-character needle; [-1] when absent. *)
Fixpoint lastIndexOf (c : ascii) (s : string) : Z :=
  match s with
  | EmptyString => -1
  | String a rest =>
      let i := lastIndexOf c rest in
      if 0 <=? i then i + 1
      else if Ascii.eqb a c then 0 else -1
  end.

(** [s.substring(start, end)]: both indices are clamped to [0, length] and
    swapped when [start > end]. *)
Definition clamp (s : string) (i : Z) : Z := Z.min (Z.max i 0) (length s).

Definition substring (s : string) (start end_ : Z) : string :=
  let a := clamp s start in
  let b := clamp s end_ in
  let lo := Z.min a b in
  let hi := Z.max a b in
  String.substring (Z.to_nat lo) (Z.to_nat (hi - lo)) s.

(** [s.substring(start)] *)
Definition substring_from (s : string) (start : Z) : string :=
  substring s start (length s).

Fixpoint trimStart (s : string) : string :=
  match s with
  | EmptyString => EmptyString
  | String c rest => if is_whitespace c then trimStart rest else s
  end.

Fixpoint trimEnd (s : string) : string :=
  match s with
  | EmptyString => EmptyString
  | String c rest =>
      let rest' := trimEnd rest in
      if is_whitespace c && is_empty rest' then EmptyString
      else String c rest'
  end.

(** [s.trim()] *)
Definition trim (s : string) : string := trimEnd (trimStart s).

(** Value of the longest prefix of decimal digits, most significant first. *)
Fixpoint parse_digits (s : string) (acc : Z) : Z :=
  match s with
  | EmptyString => acc
  | String c rest =>
      if is_digit c then parse_digits rest (acc * 10 + digit_val c) else acc
  end.

(** [parseInt(s, 10)]: leading white space is skipped, one sign is accepted,
    then the longest run of decimal digits is read and whatever follows is
    ignored; with no digit at all the result is NaN ([None]). *)
Definition parseInt (s : string) : option Z :=
  let t := trimStart s in
  let '(sign, body) :=
    match t with
    | String c r =>
        if Ascii.eqb c "-" then (-1, r)
        else if Ascii.eqb c "+" then (1, r)
        else (1, t)
    | EmptyString => (1, t)
    end in
  match body with
  | String c _ => if is_digit c then Some (sign * parse_digits body 0) else None
  | EmptyString => None
  end.

Definition digit_char (d : Z) : ascii := ascii_of_N (Z.to_N (48 + d)).

(** Decimal digits of a non-negative integer, prepended to [acc]; the fuel
    bounds the number of digits. *)
Fixpoint digits (fuel : nat) (n : Z) (acc : string) : string :=
  match fuel with
  | O => acc
  | S f =>
      let acc' := String (digit_char (n mod 10)) acc in
      if n <? 10 then acc' else digits f (n / 10) acc'
  end.

Definition digits_fuel (n : Z) : nat := S (Z.to_nat (Z.log2 n)).

(** [String(n)] for an integer-valued number (plain decimal notation, which
    is what JavaScript prints below 1e21). *)
Definition string_of_Z (n : Z) : string :=
  if n <? 0 then String "-" (digits (digits_fuel (- n)) (- n) "")
  else digits (digits_fuel n) n "".

(** [Number.MAX_SAFE_INTEGER]: up to here every integer is a number of its
    own, printed and parsed digit for digit. *)
Definition MAX_SAFE_INTEGER : Z := 9007199254740991.

(** [String(v)] for a numeric field that may be missing. *)
Definition string_of_num (v : option Z) : string :=
  match v with
  | Some n => string_of_Z n
  | None => "undefined"
  end.

End JS.

(* ================================================================== *)
(** ** Data model                                                      *)
(* ================================================================== *)

(** A reminder record as the popup and the dashboard build it.  [id] and
    [text] are strings (a missing one behaves like the empty string in every
    check the sources make); the numeric fields and [status] may be missing;
    [alarmName] is the one extra field the callers attach, carried along by
    the object spread in [normalizeReminder]. *)
Record reminder : Type := mkReminder {
  id : string;
  text : string;
  scheduledTime : option Z;
  createdAt : option Z;
  status : option string;
  alarmName : option string
}.

(** [reminder.status = s] *)
Definition set_status (r : reminder) (s : string) : reminder :=
  mkReminder (id r) (text r) (scheduledTime r) (createdAt r) (Some s) (alarmName r).

(** [reminder.alarmName = n] *)
Definition set_alarmName (r : reminder) (n : string) : reminder :=
  mkReminder (id r) (text r) (scheduledTime r) (createdAt r) (status r) (Some n).

(** [String(r.id) === String(i)] *)
Definition same_id (i : string) (r : reminder) : bool := String.eqb (id r) i.

(** [Array.prototype.findIndex]: index of the first match, [-1] when none. *)
Fixpoint findIndex {A : Type} (p : A -> bool) (l : list A) : Z :=
  match l with
  | [] => -1
  | x :: rest =>
      if p x then 0
      else let i := findIndex p rest in if 0 <=? i then i + 1 else -1
  end.

(** [arr[i] = x] for an index inside the array (every index the sources
    assign to comes from [findIndex] on the same array); storing at
    [arr.length] grows the array by one. *)
Fixpoint array_set {A : Type} (l : list A) (i : nat) (x : A) : list A :=
  match l, i with
  | [], _ => [x]
  | _ :: rest, O => x :: rest
  | y :: rest, S j => y :: array_set rest j x
  end.

(** Mutation of the object returned by [find]: the array holds that very
    object, so the array sees the change at the first matching position. *)
Fixpoint mutate_first {A : Type} (p : A -> bool) (f : A -> A) (l : list A) : list A :=
  match l with
  | [] => []
  | x :: rest => if p x then f x :: rest else x :: mutate_first p f rest
  end.

(** [arr.includes(s)] on an array of strings. *)
Definition includes (l : list string) (s : string) : bool :=
  existsb (String.eqb s) l.

Definition validStatuses : list string := ["active"; "completed"; "dismissed"].

(* ================================================================== *)
(** ** Browser state and the monad of the handlers                     *)
(* ================================================================== *)

Record state : Type := mkState {
  clock : Z;                                  (* what Date.now() returns *)
  storage : option (list reminder);           (* chrome.storage.local under
                                                 STORAGE_KEY; None when absent
                                                 or not an array *)
  alarms : list (string * Z);                 (* chrome.alarms: name, when *)
  notifications : list (string * string);     (* shown: id, message *)
  permission_denied : bool;                   (* getPermissionLevel() === denied *)
  create_rejects : string -> bool;            (* notifications.create fails for id *)
  reminders : list reminder;                  (* options page: let reminders *)
  lastDismissedReminder : option reminder;    (* options page: pending undo *)
  messages : list (string * string)           (* options page: toasts shown *)
}.

Definition with_storage (s : state) (v : option (list reminder)) : state :=
  mkState (clock s) v (alarms s) (notifications s) (permission_denied s)
          (create_rejects s) (reminders s) (lastDismissedReminder s) (messages s).

Definition with_alarms (s : state) (v : list (string * Z)) : state :=
  mkState (clock s) (storage s) v (notifications s) (permission_denied s)
          (create_rejects s) (reminders s) (lastDismissedReminder s) (messages s).

Definition with_notifications (s : state) (v : list (string * string)) : state :=
  mkState (clock s) (storage s) (alarms s) v (permission_denied s)
          (create_rejects s) (reminders s) (lastDismissedReminder s) (messages s).

Definition with_reminders (s : state) (v : list reminder) : state :=
  mkState (clock s) (storage s) (alarms s) (notifications s) (permission_denied s)
          (create_rejects s) v (lastDismissedReminder s) (messages s).

Definition with_lastDismissed (s : state) (v : option reminder) : state :=
  mkState (clock s) (storage s) (alarms s) (notifications s) (permission_denied s)
          (create_rejects s) (reminders s) v (messages s).

Definition with_messages (s : state) (v : list (string * string)) : state :=
  mkState (clock s) (storage s) (alarms s) (notifications s) (permission_denied s)
          (create_rejects s) (reminders s) (lastDismissedReminder s) v.

Definition with_clock (s : state) (v : Z) : state :=
  mkState v (storage s) (alarms s) (notifications s) (permission_denied s)
          (create_rejects s) (reminders s) (lastDismissedReminder s) (messages s).

(** The array [getAllReminders] decodes from the storage area. *)
Definition stored (s : state) : list reminder :=
  match storage s with Some l => l | None => [] end.

(** The ids of a collection, in order. *)
Definition ids (l : list reminder) : list string := map id l.

(** Outcome of an [async] function: a value, or a thrown [Error] with its
    message. *)
Inductive result (A : Type) : Type :=
| Ok (a : A)
| Throw (msg : string).
Arguments Ok {A} a.
Arguments Throw {A} msg.

Definition M (A : Type) : Type := state -> result A * state.

Definition ret {A : Type} (a : A) : M A := fun s => (Ok a, s).

Definition bind {A B : Type} (m : M A) (k : A -> M B) : M B :=
  fun s =>
    match m s with
    | (Ok a, s') => k a s'
    | (Throw e, s') => (Throw e, s')
    end.

Definition throw {A : Type} (msg : string) : M A := fun s => (Throw msg, s).

(** [try { m } catch (error) { h error }]: what [m] did to the state before
    throwing stays done. *)
Definition try_catch {A : Type} (m : M A) (h : string -> M A) : M A :=
  fun s =>
    match m s with
    | (Ok a, s') => (Ok a, s')
    | (Throw e, s') => h e s'
    end.

Declare Scope js_scope.
Delimit Scope js_scope with js.
Notation "x <- m ;; k" := (bind m (fun x => k))
  (at level 61, m at next level, right associativity) : js_scope.
Notation "m ;; k" := (bind m (fun _ => k))
  (at level 61, right associativity) : js_scope.
Local Open Scope js_scope.

(** Host primitives.  [Date.now()] gives the clock of the state; time
    passes between two reads by [clock_reaches], defined with the handlers
    under a moving clock. *)
Definition date_now : M Z := fun s => (Ok (clock s), s).

Definition storage_get : M (option (list reminder)) := fun s => (Ok (storage s), s).

Definition storage_set (l : list reminder) : M unit :=
  fun s => (Ok tt, with_storage s (Some l)).

Definition name_is (n : string) (a : string * Z) : bool := String.eqb (fst a) n.

(** [chrome.alarms.create(name, {when})]: an alarm of the same name is
    replaced. *)
Definition alarms_create (name : string) (when : Z) : M unit :=
  fun s => (Ok tt, with_alarms s
     ((name, when) :: filter (fun a => negb (name_is name a)) (alarms s))).

(** [chrome.alarms.clear(name)] *)
Definition alarms_clear (name : string) : M unit :=
  fun s => (Ok tt, with_alarms s (filter (fun a => negb (name_is name a)) (alarms s))).

Definition get_permission_denied : M bool := fun s => (Ok (permission_denied s), s).

(** [chrome.notifications.create(id, {message})] *)
Definition notifications_create (nid message : string) : M unit :=
  fun s =>
    if create_rejects s nid then (Throw "notification rejected", s)
    else (Ok tt, with_notifications s (notifications s ++ [(nid, message)])).

(* ================================================================== *)
(** ** shared/storage.js                                               *)
(* ================================================================== *)

Module Storage.

(** [getAllReminders]: the stored array, or [[]] when the key holds no
    array or the read fails. *)
Definition getAllReminders : M (list reminder) :=
  try_catch
    (v <- storage_get ;;
     ret (match v with Some l => l | None => [] end))
    (fun _ => ret []).

(** [getReminder(id)]: first record with that id, or [null]. *)
Definition getReminder (i : string) : M (option reminder) :=
  if negb (JS.truthy_str i) then ret None
  else
    rs <- getAllReminders ;;
    ret (find (same_id i) rs).

(** [Number(v) || d] *)
Definition num_or (v : option Z) (d : Z) : Z :=
  match v with
  | Some z => if JS.truthy_num v then z else d
  | None => d
  end.

(** [s || d] for a string field that may be missing. *)
Definition str_or (v : option string) (d : string) : string :=
  match v with
  | Some s => if JS.truthy_str s then s else d
  | None => d
  end.

(** [normalizeReminder] with the value [Date.now()] would return. *)
Definition normalize (now : Z) (r : reminder) : reminder :=
  mkReminder (id r) (text r)
             (Some (num_or (scheduledTime r) 0))
             (Some (num_or (createdAt r) now))
             (Some (str_or (status r) "active"))
             (alarmName r).

Definition normalizeReminder (r : reminder) : M reminder :=
  now <- date_now ;;
  ret (normalize now r).

(** [scheduledTime <= Date.now()] on a number that may be NaN. *)
Definition num_leb (v : option Z) (now : Z) : bool :=
  match v with Some z => z <=? now | None => false end.

(** [reminder.status && !validStatuses.includes(reminder.status)] *)
Definition bad_status (v : option string) : bool :=
  match v with
  | Some s => JS.truthy_str s && negb (includes validStatuses s)
  | None => false
  end.

(** The checks of [validateReminder] in source order, with [now] the value
    of [Date.now()]: the message of the error thrown, or [None] when the
    record passes (the argument is a record, so the first check, that it is
    an object, always passes). *)
Definition validation_error (now : Z) (r : reminder) : option string :=
  if negb (JS.truthy_str (id r)) then
    Some "Reminder must have a valid ID"
  else if negb (JS.truthy_str (text r))
          || (JS.length (JS.trim (text r)) =? 0) then
    Some "Reminder text cannot be empty"
  else if negb (JS.truthy_num (scheduledTime r))
          || num_leb (scheduledTime r) now then
    Some "Reminder must be scheduled for a future time"
  else if bad_status (status r) then
    Some ("Invalid status: " ++ str_or (status r) "")
  else None.

Definition validateReminder (r : reminder) : M unit :=
  now <- date_now ;;
  match validation_error now r with
  | Some msg => throw msg
  | None => ret tt
  end.

(** [saveReminder]: validate, normalize, then replace the first record of
    the same id or push, and write the whole array back. *)
Definition saveReminder (r : reminder) : M unit :=
  try_catch
    (validateReminder r ;;
     normalizedReminder <- normalizeReminder r ;;
     rs <- getAllReminders ;;
     let existingIndex := findIndex (same_id (id normalizedReminder)) rs in
     storage_set
       (if 0 <=? existingIndex
        then array_set rs (Z.to_nat existingIndex) normalizedReminder
        else rs ++ [normalizedReminder]))
    (fun e => throw e).

(** [deleteReminder(id)] *)
Definition deleteReminder (i : string) : M unit :=
  if negb (JS.truthy_str i) then ret tt
  else
    try_catch
      (rs <- getAllReminders ;;
       storage_set (filter (fun r => negb (same_id i r)) rs))
      (fun e => throw e).

(** [updateReminderStatus(id, status)] of the shared store: the fetched
    record is changed and handed to [saveReminder]. *)
Definition updateReminderStatus (i st : string) : M unit :=
  if negb (JS.truthy_str i) || negb (JS.truthy_str st) then ret tt
  else if negb (includes validStatuses st) then
    throw ("Invalid status: " ++ st)
  else
    try_catch
      (found <- getReminder i ;;
       match found with
       | Some r => saveReminder (set_status r st)
       | None => ret tt
       end)
      (fun e => throw e).

End Storage.

(* ================================================================== *)
(** ** shared/alarms.js                                                *)
(* ================================================================== *)

Module Alarms.

(** [`reminder-${id}-${scheduledTime}`] *)
Definition alarm_name (i : string) (t : option Z) : string :=
  "reminder-" ++ i ++ "-" ++ JS.string_of_num t.

Definition createAlarmName (r : reminder) : string :=
  alarm_name (id r) (scheduledTime r).

Definition scheduleReminder (r : reminder) : M unit :=
  if negb (JS.truthy_str (id r)) || negb (JS.truthy_num (scheduledTime r)) then
    throw "Invalid reminder object"
  else
    let alarmName := createAlarmName r in
    now <- date_now ;;
    match scheduledTime r with
    | Some when =>
        if when <=? now then throw "Cannot schedule alarm for past time"
        else try_catch (alarms_create alarmName when) (fun e => throw e)
    | None => throw "Invalid reminder object"
    end.

Definition cancelReminderById (i : string) (t : option Z) : M unit :=
  if negb (JS.truthy_str i) || negb (JS.truthy_num t) then ret tt
  else alarms_clear (alarm_name i t).

End Alarms.

(* ================================================================== *)
(** ** background/service-worker.js                                    *)
(* ================================================================== *)

Module ServiceWorker.

Definition getAllReminders : M (list reminder) :=
  try_catch
    (v <- storage_get ;;
     ret (match v with Some l => l | None => [] end))
    (fun _ => ret []).

(** The worker's own [updateReminderStatus]: the found object is mutated
    inside the array it was read from and the array is written back; any
    error is logged and swallowed. *)
Definition updateReminderStatus (i st : string) : M unit :=
  try_catch
    (rs <- getAllReminders ;;
     match find (same_id i) rs with
     | Some r =>
         let reminder := set_status r st in
         let rs1 := mutate_first (same_id i) (fun x => set_status x st) rs in
         let index := findIndex (same_id i) rs1 in
         if 0 <=? index
         then storage_set (array_set rs1 (Z.to_nat index) reminder)
         else ret tt
     | None => ret tt
     end)
    (fun _ => ret tt).

(** [parseAlarmName]: [None] is the [null] result. *)
Definition parseAlarmName (alarmName : string) : option (string * Z) :=
  if negb (JS.truthy_str alarmName) || negb (JS.startsWith alarmName "reminder-")
  then None
  else
    let lastDashIndex := JS.lastIndexOf "-" alarmName in
    if (lastDashIndex =? -1) || (lastDashIndex <=? 8) then None
    else
      let timeString := JS.substring_from alarmName (lastDashIndex + 1) in
      match JS.parseInt timeString with
      | None => None
      | Some scheduledTime =>
          if scheduledTime <=? 0 then None
          else
            let reminderId := JS.trim (JS.substring alarmName 8 lastDashIndex) in
            if negb (JS.truthy_str reminderId) || (JS.length reminderId =? 0)
            then None
            else Some (reminderId, scheduledTime)
      end.

(** [Math.abs(Number(r.scheduledTime) - Number(scheduledTime)) < 1000] *)
Definition near (alarmTime : Z) (r : reminder) : bool :=
  match scheduledTime r with
  | Some rTime => Z.abs (rTime - alarmTime) <? 1000
  | None => false
  end.

(** [findReminder]: exact id first, then the first record whose time is
    within one second of the alarm's. *)
Definition findReminder (rs : list reminder) (reminderId : string)
           (alarmTime : Z) : option reminder :=
  match find (same_id reminderId) rs with
  | Some r => Some r
  | None => find (near alarmTime) rs
  end.

(** [showNotification]: nothing when permission is denied; on a failed
    display one more attempt under the fallback id. *)
Definition showNotification (r : reminder) : M unit :=
  let notificationId := "reminder-" ++ id r in
  try_catch
    (denied <- get_permission_denied ;;
     if denied then ret tt
     else notifications_create notificationId (text r))
    (fun _ =>
       try_catch
         (notifications_create ("fallback-" ++ notificationId) (text r))
         (fun _ => ret tt)).

Definition is_active (r : reminder) : bool :=
  match status r with
  | Some s => String.eqb s "active"
  | None => false
  end.

(** The [chrome.alarms.onAlarm] listener, applied to [alarm.name]. *)
Definition onAlarm (name : string) : M unit :=
  if negb (JS.truthy_str name) || negb (JS.startsWith name "reminder-") then ret tt
  else
    try_catch
      (match parseAlarmName name with
       | None => ret tt
       | Some (reminderId, alarmTime) =>
           rs <- getAllReminders ;;
           if Z.of_nat (List.length rs) =? 0 then ret tt
           else
             match findReminder rs reminderId alarmTime with
             | None => ret tt
             | Some r =>
                 if negb (is_active r) then ret tt
                 else
                   showNotification r ;;
                   updateReminderStatus (id r) "completed"
             end
       end)
      (fun _ => ret tt).

End ServiceWorker.

(* ================================================================== *)
(** ** options/options.js: dismiss and undo                            *)
(* ================================================================== *)

Module Options.

(** The page's [showNotification(message, type)] toast. *)
Definition showNotification (message type : string) : M unit :=
  fun s => (Ok tt, with_messages s (messages s ++ [(message, type)])).

Definition showNotificationWithUndo (message : string) : M unit :=
  showNotification message "undo".

(** [loadReminders]: the page's list is re-read from storage (rendering is
    left out). *)
Definition loadReminders : M unit :=
  rs <- Storage.getAllReminders ;;
  fun s => (Ok tt, with_reminders s rs).

Definition set_lastDismissed (v : option reminder) : M unit :=
  fun s => (Ok tt, with_lastDismissed s v).

Definition get_lastDismissed : M (option reminder) :=
  fun s => (Ok (lastDismissedReminder s), s).

Definition get_reminders : M (list reminder) :=
  fun s => (Ok (reminders s), s).

(** The callback of the five-second [undoTimeout]. *)
Definition undoTimeoutFires : M unit := set_lastDismissed None.

(** [reminder.scheduledTime > Date.now()] *)
Definition num_gtb (v : option Z) (now : Z) : bool :=
  match v with Some z => now <? z | None => false end.

(** [handleDismiss(id)]: the record is looked up in the page's list, a copy
    is kept for undo, the alarm is cleared and the stored status updated.
    The timer armed at the end is [undoTimeoutFires]. *)
Definition handleDismiss (i : string) : M unit :=
  rs <- get_reminders ;;
  match find (same_id i) rs with
  | None => showNotification "Reminder not found" "error"
  | Some r =>
      try_catch
        (set_lastDismissed (Some r) ;;
         Alarms.cancelReminderById (id r) (scheduledTime r) ;;
         Storage.updateReminderStatus i "dismissed" ;;
         showNotificationWithUndo "Reminder dismissed" ;;
         loadReminders)
        (fun _ => showNotification "Unable to dismiss reminder" "error")
  end.

(** [handleUndoDismiss()]: status back to active first, then the alarm
    again if the time is still ahead; any error ends in the failure toast. *)
Definition handleUndoDismiss : M unit :=
  last <- get_lastDismissed ;;
  match last with
  | None => ret tt
  | Some r =>
      try_catch
        (Storage.updateReminderStatus (id r) "active" ;;
         now <- date_now ;;
         (if num_gtb (scheduledTime r) now then
            let r' := set_alarmName r (Alarms.createAlarmName r) in
            set_lastDismissed (Some r') ;;
            Alarms.scheduleReminder r'
          else ret tt) ;;
         set_lastDismissed None ;;
         showNotification "Reminder restored" "success" ;;
         loadReminders)
        (fun _ => showNotification "Unable to restore reminder" "error")
  end.

End Options.

(* ================================================================== *)
(** ** shared/utils.js                                                 *)
(* ================================================================== *)

Module Utils.

(** [String(n)] for a number: [None] is NaN here. *)
Definition string_of_number (v : option Z) : string :=
  match v with
  | Some n => JS.string_of_Z n
  | None => "NaN"
  end.

(** [`${n} ${unit}${n > 1 ? "s" : ""}`] *)
Definition count_of (n : Z) (unit : string) : string :=
  JS.string_of_Z n ++ " " ++ unit ++ (if 1 <? n then "s" else "").

(** [getRelativeTime(timestamp)] for an integer timestamp; [Math.floor] of
    a quotient of non-negative integers is [Z.div]. *)
Definition getRelativeTime (timestamp : Z) : M string :=
  now <- date_now ;;
  let diff := timestamp - now in
  let absDiff := Z.abs diff in
  let minutes := absDiff / (1000 * 60) in
  let hours := minutes / 60 in
  let days := hours / 24 in
  ret (if diff <? 0 then
         if 0 <? days then count_of days "day" ++ " ago"
         else if 0 <? hours then count_of hours "hour" ++ " ago"
         else count_of minutes "minute" ++ " ago"
       else
         if 0 <? days then "in " ++ count_of days "day"
         else if 0 <? hours then "in " ++ count_of hours "hour"
         else "in " ++ count_of minutes "minute").

(** [generateReminderId()]: [suffix] is what
    [Math.random().toString(36).substring(2, 11)] gives. *)
Definition generateReminderId (suffix : string) : M string :=
  now <- date_now ;;
  ret ("reminder-" ++ JS.string_of_Z now ++ "-" ++ suffix).

(** [Math.round(d / (1000 * 60))] for an integer [d]: the nearest integer,
    halves upwards. *)
Definition round_minutes (d : Z) : Z := (d + 30000) / 60000.

(** [validateFutureDateTime(dateTimeString)]: [None] is [{valid: true}],
    [Some error] is [{valid: false, error}].  [selectedTime] is what
    [new Date(dateTimeString).getTime()] gives, NaN ([None]) for a string
    that is no date. *)
Definition validateFutureDateTime (dateTimeString : string)
           (selectedTime : option Z) : M (option string) :=
  if negb (JS.truthy_str dateTimeString) then
    ret (Some "Please select when you'd like to be reminded")
  else
    now <- date_now ;;
    match selectedTime with
    | Some t =>
        if t <=? now then
          let diffMinutes := round_minutes (now - t) in
          ret (Some ("Please select a date and time in the future. The selected time is "
                     ++ JS.string_of_Z diffMinutes ++ " minute"
                     ++ (if negb (diffMinutes =? 1) then "s" else "")
                     ++ " in the past."))
        else ret None
    | None => ret None
    end.

End Utils.

(* ================================================================== *)
(** ** options/options.js: add, edit, delete, statistics, sorting      *)
(* ================================================================== *)

Module Dashboard.

(** [error.message || fallback] *)
Definition message_or (e fallback : string) : string :=
  if JS.truthy_str e then e else fallback.

(** [handleDelete(id, scheduledTime)]; [confirmed] is the answer to the
    [confirm] dialog. *)
Definition handleDelete (i : string) (t : option Z) (confirmed : bool) : M unit :=
  if negb confirmed then ret tt
  else
    try_catch
      (Alarms.cancelReminderById i t ;;
       Storage.deleteReminder i ;;
       Options.showNotification "Reminder deleted" "success" ;;
       Options.loadReminders)
      (fun e => Options.showNotification
                  (message_or e "Unable to delete reminder. Please try again.") "error").

(** The record [handleAddReminder] and the popup build. *)
Definition new_reminder (i text : string) (selectedTime : option Z) (now : Z) : reminder :=
  mkReminder i text selectedTime (Some now) (Some "active")
             (Some ("reminder-" ++ i ++ "-" ++ Utils.string_of_number selectedTime)).

(** [handleAddReminder(e)].  [form] holds the values of the text and the
    datetime inputs, [None] when a form element is missing; [selectedTime]
    is what [new Date(dateTime).getTime()] gives; [suffix] is the random
    part of the new id. *)
Definition handleAddReminder (form : option (string * string))
           (selectedTime : option Z) (suffix : string) : M unit :=
  match form with
  | None => Options.showNotification "Form elements not found" "error"
  | Some (textValue, dateTime) =>
      let text := JS.trim textValue in
      if negb (JS.truthy_str text) then
        Options.showNotification
          "Please enter what you'd like to be reminded about" "error"
      else
        validation <- Utils.validateFutureDateTime dateTime selectedTime ;;
        match validation with
        | Some error => Options.showNotification error "error"
        | None =>
            try_catch
              (reminderId <- Utils.generateReminderId suffix ;;
               now <- date_now ;;
               let r := new_reminder reminderId text selectedTime now in
               Storage.saveReminder r ;;
               Alarms.scheduleReminder r ;;
               Options.showNotification "Reminder created successfully!" "success" ;;
               Options.loadReminders)
              (fun e => Options.showNotification
                          (message_or e "Unable to create reminder. Please try again.")
                          "error")
        end
  end.

(** The three assignments of [saveEdit] on the record found in the page's
    list. *)
Definition edited (r : reminder) (text : string) (selectedTime : option Z) : reminder :=
  mkReminder (id r) text selectedTime (createdAt r) (status r)
             (Some ("reminder-" ++ id r ++ "-" ++ Utils.string_of_number selectedTime)).

Definition set_reminders (v : list reminder) : M unit :=
  fun s => (Ok tt, with_reminders s v).

(** [saveEdit(id)].  [fields] holds the values of the two edit inputs,
    [None] when one is missing; [selectedTime] is what
    [new Date(dateTime).getTime()] gives.  The record edited is the object
    held by the page's list, which therefore sees the assignments. *)
Definition saveEdit (i : string) (fields : option (string * string))
           (selectedTime : option Z) : M unit :=
  match fields with
  | None => Options.showNotification "Unable to find reminder fields" "error"
  | Some (textValue, dateTime) =>
      let text := JS.trim textValue in
      if negb (JS.truthy_str text) then
        Options.showNotification
          "Please enter what you'd like to be reminded about" "error"
      else
        validation <- Utils.validateFutureDateTime dateTime selectedTime ;;
        match validation with
        | Some error => Options.showNotification error "error"
        | None =>
            rs <- Options.get_reminders ;;
            match find (same_id i) rs with
            | None => Options.showNotification "Reminder not found" "error"
            | Some r =>
                try_catch
                  (Alarms.cancelReminderById (id r) (scheduledTime r) ;;
                   let r' := edited r text selectedTime in
                   set_reminders
                     (mutate_first (same_id i) (fun x => edited x text selectedTime) rs) ;;
                   Storage.saveReminder r' ;;
                   Alarms.scheduleReminder r' ;;
                   Options.showNotification "Reminder updated successfully!" "success" ;;
                   Options.loadReminders)
                  (fun e => Options.showNotification
                              (message_or e "Unable to update reminder. Please try again.")
                              "error")
            end
        end
  end.

(** [r.status === st] *)
Definition has_status (st : string) (r : reminder) : bool :=
  match status r with
  | Some x => String.eqb x st
  | None => false
  end.

(** The three counts [updateStats] displays: active, completed, dismissed. *)
Definition updateStats (rs : list reminder) : Z * Z * Z :=
  (Z.of_nat (List.length (filter (has_status "active") rs)),
   Z.of_nat (List.length (filter (has_status "completed") rs)),
   Z.of_nat (List.length (filter (has_status "dismissed") rs))).

(** [s.split("-")]: the pieces between the hyphens, at least one. *)
Fixpoint split_dash (s : string) : list string :=
  match s with
  | EmptyString => [EmptyString]
  | String c rest =>
      match split_dash rest with
      | p :: ps => if Ascii.eqb c "-" then EmptyString :: p :: ps else String c p :: ps
      | [] => [String c EmptyString]
      end
  end.

(** [toLowerCase] on one code unit below 256: A-Z and the accented
    capitals of Latin-1 move up by 32. *)
Definition lower_char (c : ascii) : ascii :=
  let n := JS.code c in
  if ((65 <=? n) && (n <=? 90)) || ((192 <=? n) && (n <=? 222) && negb (n =? 215))
  then ascii_of_N (Z.to_N (n + 32))
  else c.

Fixpoint toLowerCase (s : string) : string :=
  match s with
  | EmptyString => EmptyString
  | String c rest => String (lower_char c) (toLowerCase rest)
  end.

(** [a < b] on strings: code unit by code unit, a proper prefix first. *)
Fixpoint str_ltb (a b : string) : bool :=
  match a, b with
  | _, EmptyString => false
  | EmptyString, String _ _ => true
  | String x a', String y b' =>
      if JS.code x <? JS.code y then true
      else if JS.code y <? JS.code x then false
      else str_ltb a' b'
  end.

(** What [aValue] and [bValue] can hold. *)
Inductive sort_value : Type :=
| VNumber (v : option Z)
| VString (s : string)
| VUndefined.

(** [aValue < bValue]: false as soon as NaN or undefined is involved. *)
Definition value_ltb (a b : sort_value) : bool :=
  match a, b with
  | VNumber (Some x), VNumber (Some y) => x <? y
  | VString x, VString y => str_ltb x y
  | _, _ => false
  end.

(** The [switch (field)] of the comparator; [None] is the [default] case. *)
Definition sort_value_of (field : string) (r : reminder) : option sort_value :=
  if String.eqb field "scheduledTime" then Some (VNumber (scheduledTime r))
  else if String.eqb field "createdAt" then Some (VNumber (createdAt r))
  else if String.eqb field "text" then Some (VString (toLowerCase (text r)))
  else if String.eqb field "status" then
    Some (match status r with Some st => VString st | None => VUndefined end)
  else None.

(** [direction === "asc"], with [None] for a missing second piece. *)
Definition is_asc (direction : option string) : bool :=
  match direction with
  | Some d => String.eqb d "asc"
  | None => false
  end.

(** The comparator handed to [sort]. *)
Definition comparator (field : string) (direction : option string)
           (a b : reminder) : Z :=
  match sort_value_of field a, sort_value_of field b with
  | Some aValue, Some bValue =>
      if value_ltb aValue bValue then (if is_asc direction then -1 else 1)
      else if value_ltb bValue aValue then (if is_asc direction then 1 else -1)
      else 0
  | _, _ => 0
  end.

(** [Array.prototype.sort(cmp)] is a stable sort; on a comparator that is
    a consistent ordering all stable sorts agree, and this is the one by
    insertion. *)
Fixpoint insert_by (cmp : reminder -> reminder -> Z) (x : reminder)
         (l : list reminder) : list reminder :=
  match l with
  | [] => [x]
  | y :: rest => if cmp y x <? 0 then y :: insert_by cmp x rest else x :: y :: rest
  end.

Fixpoint sort_by (cmp : reminder -> reminder -> Z) (l : list reminder) : list reminder :=
  match l with
  | [] => []
  | x :: rest => insert_by cmp x (sort_by cmp rest)
  end.

(** [sortReminders(remindersList, sortOption)] *)
Definition sortReminders (remindersList : list reminder) (sortOption : string)
  : list reminder :=
  match split_dash sortOption with
  | field :: direction :: _ => sort_by (comparator field (Some direction)) remindersList
  | [field] => sort_by (comparator field None) remindersList
  | [] => remindersList
  end.

End Dashboard.

(* ================================================================== *)
(** ** popup/popup.js                                                  *)
(* ================================================================== *)

Module Popup.





End Popup.

(* ================================================================== *)
(** ** The handlers under a moving clock                               *)
(* ================================================================== *)

(** [Date.now()] is evaluated afresh at every call, and between two calls
    a handler awaits the store or the alarms, so two reads of one run need
    not agree.  [clock_reaches c] is the passage of time up to the next
    read: from then on [Date.now()] gives [c]. *)
Definition clock_reaches (c : Z) : M unit := fun s => (Ok tt, with_clock s c).

(** The handlers that read the clock more than once, statement for
    statement as above, with the reading of every read after the first
    given: [c_x] is what [Date.now()] returns at the read named [x], and
    the first read of a run is [clock s].  [validateReminder] and
    [normalizeReminder] are called back to back at the start of
    [saveReminder] and share the reading [c_save]. *)
Module Timed.

(** [await saveReminder(reminder); await scheduleReminder(reminder);], the
    sequence of the popup, of [handleAddReminder] and of [saveEdit];
    [clock s] is the reading of the save. *)
Definition create (r : reminder) (c_schedule : Z) : M unit :=
  Storage.saveReminder r ;;
  clock_reaches c_schedule ;;
  Alarms.scheduleReminder r.

(** [handleUndoDismiss()]: [clock s] is the reading of [validateReminder]
    inside the status update, [c_guard] that of line 586, [c_schedule] that
    of [scheduleReminder]. *)
Definition handleUndoDismiss (c_guard c_schedule : Z) : M unit :=
  last <- Options.get_lastDismissed ;;
  match last with
  | None => ret tt
  | Some r =>
      try_catch
        (Storage.updateReminderStatus (id r) "active" ;;
         clock_reaches c_guard ;;
         now <- date_now ;;
         (if Options.num_gtb (scheduledTime r) now then
            let r' := set_alarmName r (Alarms.createAlarmName r) in
            Options.set_lastDismissed (Some r') ;;
            clock_reaches c_schedule ;;
            Alarms.scheduleReminder r'
          else ret tt) ;;
         Options.set_lastDismissed None ;;
         Options.showNotification "Reminder restored" "success" ;;
         Options.loadReminders)
        (fun _ => Options.showNotification "Unable to restore reminder" "error")
  end.

(** [handleAddReminder(e)]: [clock s] is the reading of
    [validateFutureDateTime], [c_id] that of [generateReminderId],
    [c_created] that of the [createdAt] field, [c_save] that of
    [saveReminder], [c_schedule] that of [scheduleReminder]. *)
Definition handleAddReminder (form : option (string * string))
           (selectedTime : option Z) (suffix : string)
           (c_id c_created c_save c_schedule : Z) : M unit :=
  match form with
  | None => Options.showNotification "Form elements not found" "error"
  | Some (textValue, dateTime) =>
      let text := JS.trim textValue in
      if negb (JS.truthy_str text) then
        Options.showNotification
          "Please enter what you'd like to be reminded about" "error"
      else
        validation <- Utils.validateFutureDateTime dateTime selectedTime ;;
        match validation with
        | Some error => Options.showNotification error "error"
        | None =>
            try_catch
              (clock_reaches c_id ;;
               reminderId <- Utils.generateReminderId suffix ;;
               clock_reaches c_created ;;
               now <- date_now ;;
               let r := Dashboard.new_reminder reminderId text selectedTime now in
               clock_reaches c_save ;;
               Storage.saveReminder r ;;
               clock_reaches c_schedule ;;
               Alarms.scheduleReminder r ;;
               Options.showNotification "Reminder created successfully!" "success" ;;
               Options.loadReminders)
              (fun e => Options.showNotification
                          (Dashboard.message_or e
                             "Unable to create reminder. Please try again.")
                          "error")
        end
  end.

(** [saveEdit(id)]: [clock s] is the reading of [validateFutureDateTime],
    [c_save] that of [saveReminder], [c_schedule] that of
    [scheduleReminder]. *)
Definition saveEdit (i : string) (fields : option (string * string))
           (selectedTime : option Z) (c_save c_schedule : Z) : M unit :=
  match fields with
  | None => Options.showNotification "Unable to find reminder fields" "error"
  | Some (textValue, dateTime) =>
      let text := JS.trim textValue in
      if negb (JS.truthy_str text) then
        Options.showNotification
          "Please enter what you'd like to be reminded about" "error"
      else
        validation <- Utils.validateFutureDateTime dateTime selectedTime ;;
        match validation with
        | Some error => Options.showNotification error "error"
        | None =>
            rs <- Options.get_reminders ;;
            match find (same_id i) rs with
            | None => Options.showNotification "Reminder not found" "error"
            | Some r =>
                try_catch
                  (Alarms.cancelReminderById (id r) (scheduledTime r) ;;
                   let r' := Dashboard.edited r text selectedTime in
                   Dashboard.set_reminders
                     (mutate_first (same_id i)
                        (fun x => Dashboard.edited x text selectedTime) rs) ;;
                   clock_reaches c_save ;;
                   Storage.saveReminder r' ;;
                   clock_reaches c_schedule ;;
                   Alarms.scheduleReminder r' ;;
                   Options.showNotification "Reminder updated successfully!" "success" ;;
                   Options.loadReminders)
                  (fun e => Options.showNotification
                              (Dashboard.message_or e
                                 "Unable to update reminder. Please try again.")
                              "error")
            end
        end
  end.

End Timed.

(* ================================================================== *)
(** ** Vocabulary of the statements                                    *)
(* ================================================================== *)

(** What a save that passes validation writes. *)
Definition upsert (x : reminder) (l : list reminder) : list reminder :=
  let i := findIndex (same_id (id x)) l in
  if 0 <=? i then array_set l (Z.to_nat i) x else l ++ [x].

(** Every code unit of [s] satisfies [p]. *)
Fixpoint all_chars (p : ascii -> bool) (s : string) : bool :=
  match s with
  | EmptyString => true
  | String c rest => p c && all_chars p rest
  end.

Definition all_digits (s : string) : bool := all_chars JS.is_digit s.

Definition no_dash (s : string) : bool :=
  all_chars (fun c => negb (Ascii.eqb c "-")) s.

(** [s] is empty or begins with something other than a decimal digit. *)
Definition stops_digits (s : string) : bool :=
  match s with
  | EmptyString => true
  | String c _ => negb (JS.is_digit c)
  end.

(** The three mutating operations of the shared store. *)
Inductive store_op : Type :=
| Save (r : reminder)
| Remove (i : string)
| SetStatus (i st : string).

Definition run_op (o : store_op) : M unit :=
  match o with
  | Save r => Storage.saveReminder r
  | Remove i => Storage.deleteReminder i
  | SetStatus i st => Storage.updateReminderStatus i st
  end.

(** Normalization as the specification words it: the numeric fields as
    numbers, a missing status replaced by active, every other field kept.
    Used only to compare with [Storage.normalize]. *)
Definition normalized_as_specified (r : reminder) : reminder :=
  mkReminder (id r) (text r) (scheduledTime r) (createdAt r)
             (Some (match status r with Some st => st | None => "active" end))
             (alarmName r).

(** What every record written by the store looks like: an id, a text that
    is not blank, a time, a creation time and one of the three statuses. *)
Definition stored_ok (r : reminder) : Prop :=
  id r <> ""%string /\
  JS.trim (text r) <> ""%string /\
  (exists t, scheduledTime r = Some t /\ t <> 0) /\
  (exists c, createdAt r = Some c) /\
  (exists st, status r = Some st /\ In st validStatuses).

(** The names of the registered alarms. *)
Definition alarm_names (s : state) : list string := map fst (alarms s).

(** The alarms other than the one called [n]. *)
Definition alarms_without (n : string) (l : list (string * Z)) : list (string * Z) :=
  filter (fun a => negb (name_is n a)) l.

(** The first code unit of [s] is a hyphen. *)
Definition starts_with_dash (s : string) : bool :=
  match s with
  | String c _ => Ascii.eqb c "-"
  | EmptyString => false
  end.

(** The time of a record, in ascending order, for the sorted view. *)
Definition time_le (a b : reminder) : Prop :=
  match scheduledTime a, scheduledTime b with
  | Some x, Some y => x <= y
  | _, _ => False
  end.

(** The state in which a handler of the dashboard ends after a success:
    its message shown and the page's list read again. *)
Definition page_done (s : state) (message type : string) : state :=
  with_reminders (with_messages s (messages s ++ [(message, type)])) (stored s).

(** The state in which it ends after a failure: the message only. *)
Definition page_failed (s : state) (message : string) : state :=
  with_messages s (messages s ++ [(message, "error"%string)]).

(** The record the add form builds, at clock [now]. *)
Definition added (now : Z) (textValue suffix : string) (sel : option Z) : reminder :=
  Dashboard.new_reminder ("reminder-" ++ JS.string_of_Z now ++ "-" ++ suffix)%string
                         (JS.trim textValue) sel now.

(** The record the add form builds when the id is generated at [c_id] and
    the [createdAt] field is read at [c_created]. *)
Definition added_at (c_id c_created : Z) (textValue suffix : string) (sel : option Z)
  : reminder :=
  Dashboard.new_reminder ("reminder-" ++ JS.string_of_Z c_id ++ "-" ++ suffix)%string
                         (JS.trim textValue) sel c_created.

(** The order the sorted view is in: ascending or descending time. *)
Definition time_ordered (asc : bool) (a b : reminder) : Prop :=
  if asc then time_le a b else time_le b a.

(** *** Sample data *)

Definition no_rejects : string -> bool := fun _ => false.

(** A browser holding [rs] at time [now], nothing scheduled or shown. *)
Definition browser (now : Z) (rs : list reminder) : state :=
  mkState now (Some rs) [] [] false no_rejects rs None [].

Definition oven : reminder :=
  mkReminder "a" "Check oven" (Some 1000) (Some 1) (Some "active") None.

Definition oven_done : reminder :=
  mkReminder "a" "Check oven" (Some 1000) (Some 1) (Some "completed") None.

Definition early_dismissed : reminder :=
  mkReminder "a" "Call back" (Some 5000) (Some 1) (Some "dismissed") None.

Definition late_active : reminder :=
  mkReminder "b" "Stand up" (Some 5000) (Some 2) (Some "active") None.

(** A record built without [createdAt] and [status]. *)
Definition bare : reminder :=
  mkReminder "c" "Tea" (Some 9000) None None (Some "reminder-c-9000").

(** The dashboard a moment before [oven] is due, its alarm pending. *)
Definition dashboard_998 : state :=
  with_alarms (browser 998 [oven]) [("reminder-a-1000"%string, 1000)].

(** [oven] dismissed at 998 ... *)
Definition dismissed_998 : state := snd (Options.handleDismiss "a" dashboard_998).

(** ... and the undo button pressed four milliseconds later, after the
    scheduled time but well inside the five-second window. *)
Definition undo_pressed_1002 : state := with_clock dismissed_998 1002.

Local Open Scope list_scope.

(* ================================================================== *)
(** ** Arrays: find, findIndex and assignment                          *)
(* ================================================================== *)

Section ArrayFacts.

Context {A : Type}.
Variable p : A -> bool.

Lemma find_first_split (l : list A) (r : A) :
  find p l = Some r ->
  exists pre post,
    l = pre ++ r :: post /\ p r = true /\ (forall x, In x pre -> p x = false).
Proof.
  induction l as [|x l IH]; simpl; [discriminate|].
  destruct (p x) eqn:Hx.
  - intros [= ->]. exists [], l. repeat split; auto. intros y [].
  - intros H. destruct (IH H) as (pre & post & -> & Hr & Hpre).
    exists (x :: pre), post. repeat split; auto.
    intros y [<-|Hy]; auto.
Qed.

Lemma find_at_first (pre post : list A) (r : A) :
  p r = true -> (forall x, In x pre -> p x = false) ->
  find p (pre ++ r :: post) = Some r.
Proof.
  intros Hr. induction pre as [|x pre IH]; simpl; intros Hpre.
  - now rewrite Hr.
  - rewrite (Hpre x (or_introl eq_refl)). apply IH. intros y Hy. apply Hpre. now right.
Qed.

Lemma find_none_app (l : list A) (x : A) :
  find p l = None -> find p (l ++ [x]) = if p x then Some x else None.
Proof.
  induction l as [|y l IH]; simpl; [reflexivity|].
  destruct (p y); [discriminate|exact IH].
Qed.

Lemma findIndex_at_first (pre post : list A) (r : A) :
  p r = true -> (forall x, In x pre -> p x = false) ->
  findIndex p (pre ++ r :: post) = Z.of_nat (List.length pre).
Proof.
  intros Hr. induction pre as [|x pre IH]; intros Hpre.
  - simpl. now rewrite Hr.
  - cbn [app findIndex List.length]. rewrite (Hpre x (or_introl eq_refl)).
    rewrite IH by (intros y Hy; apply Hpre; now right).
    destruct (0 <=? Z.of_nat (List.length pre)) eqn:E; lia.
Qed.

Lemma findIndex_none (l : list A) :
  find p l = None -> findIndex p l = -1.
Proof.
  induction l as [|x l IH]; simpl; [reflexivity|].
  destruct (p x); [discriminate|]. intros H. now rewrite (IH H).
Qed.

Lemma array_set_at (pre post : list A) (r x : A) :
  array_set (pre ++ r :: post) (List.length pre) x = pre ++ x :: post.
Proof. induction pre as [|y pre IH]; simpl; [reflexivity|now rewrite IH]. Qed.

Lemma mutate_first_at (f : A -> A) (pre post : list A) (r : A) :
  p r = true -> (forall x, In x pre -> p x = false) ->
  mutate_first p f (pre ++ r :: post) = pre ++ f r :: post.
Proof.
  intros Hr. induction pre as [|x pre IH]; simpl; intros Hpre.
  - now rewrite Hr.
  - rewrite (Hpre x (or_introl eq_refl)). f_equal. apply IH.
    intros y Hy. apply Hpre. now right.
Qed.

End ArrayFacts.

Lemma same_id_true (i : string) (r : reminder) : same_id i r = true <-> id r = i.
Proof. unfold same_id. apply String.eqb_eq. Qed.

Lemma same_id_false (i : string) (r : reminder) : same_id i r = false <-> id r <> i.
Proof. unfold same_id. apply String.eqb_neq. Qed.

Lemma find_id_in (i : string) (l : list reminder) :
  In i (ids l) -> exists r, find (same_id i) l = Some r.
Proof.
  induction l as [|x l IH]; simpl; [intros []|].
  destruct (same_id i x) eqn:E.
  - intros _. now exists x.
  - intros [H|H]; [apply same_id_false in E; contradiction|auto].
Qed.

Lemma find_id_none (i : string) (l : list reminder) :
  ~ In i (ids l) -> find (same_id i) l = None.
Proof.
  induction l as [|x l IH]; simpl; [reflexivity|]. intros H.
  destruct (same_id i x) eqn:E.
  - apply same_id_true in E. tauto.
  - apply IH. tauto.
Qed.

Lemma ids_replace (pre post : list reminder) (r x : reminder) :
  id x = id r -> ids (pre ++ x :: post) = ids (pre ++ r :: post).
Proof. intros H. unfold ids. rewrite !map_app. simpl. now rewrite H. Qed.

(* ================================================================== *)
(** ** Running the store primitives                                    *)
(* ================================================================== *)

Lemma storage_getAll (s : state) :
  Storage.getAllReminders s = (Ok (stored s), s).
Proof. reflexivity. Qed.

Lemma worker_getAll (s : state) :
  ServiceWorker.getAllReminders s = (Ok (stored s), s).
Proof. reflexivity. Qed.

Lemma stored_with_storage (s : state) (l : list reminder) :
  stored (with_storage s (Some l)) = l.
Proof. reflexivity. Qed.

Lemma validate_run (r : reminder) (s : state) :
  Storage.validateReminder r s =
  match Storage.validation_error (clock s) r with
  | Some msg => (Throw msg, s)
  | None => (Ok tt, s)
  end.
Proof.
  unfold Storage.validateReminder, bind, date_now.
  destruct (Storage.validation_error (clock s) r); reflexivity.
Qed.

Lemma save_run (r : reminder) (s : state) :
  Storage.saveReminder r s =
  match Storage.validation_error (clock s) r with
  | Some msg => (Throw msg, s)
  | None =>
      (Ok tt, with_storage s (Some (upsert (Storage.normalize (clock s) r) (stored s))))
  end.
Proof.
  unfold Storage.saveReminder, try_catch, bind. rewrite validate_run.
  destruct (Storage.validation_error (clock s) r); reflexivity.
Qed.

Lemma upsert_present (x old : reminder) (pre post : list reminder) :
  id old = id x -> (forall y, In y pre -> id y <> id x) ->
  upsert x (pre ++ old :: post) = pre ++ x :: post.
Proof.
  intros Hold Hpre. unfold upsert.
  rewrite findIndex_at_first.
  - assert (E : (0 <=? Z.of_nat (List.length pre)) = true) by (apply Z.leb_le; lia).
    rewrite E, Nat2Z.id. apply array_set_at.
  - now apply same_id_true.
  - intros y Hy. apply same_id_false. auto.
Qed.

Lemma upsert_absent (x : reminder) (l : list reminder) :
  ~ In (id x) (ids l) -> upsert x l = l ++ [x].
Proof.
  intros H. unfold upsert. now rewrite (findIndex_none _ _ (find_id_none _ _ H)).
Qed.

Lemma nodup_ids_prefix (pre post : list reminder) (r : reminder) :
  NoDup (ids (pre ++ r :: post)) -> forall y, In y pre -> id y <> id r.
Proof.
  unfold ids. rewrite map_app. simpl. intros H y Hy E.
  apply NoDup_remove_2 in H. apply H. apply in_or_app. left.
  rewrite <- E. now apply in_map.
Qed.

Lemma upsert_cases (x : reminder) (l : list reminder) :
  (exists pre old post,
      l = pre ++ old :: post /\ id old = id x /\
      (forall y, In y pre -> id y <> id x) /\ upsert x l = pre ++ x :: post)
  \/ (~ In (id x) (ids l) /\ upsert x l = l ++ [x]).
Proof.
  destruct (find (same_id (id x)) l) as [old|] eqn:F.
  - left. destruct (find_first_split _ _ _ F) as (pre & post & -> & Ho & Hpre).
    apply same_id_true in Ho.
    assert (Hpre' : forall y, In y pre -> id y <> id x)
      by (intros y Hy; apply same_id_false; auto).
    exists pre, old, post. repeat split; auto. now apply upsert_present.
  - right. assert (H : ~ In (id x) (ids l)).
    { intros Hin. destruct (find_id_in _ _ Hin) as [r Hr]. congruence. }
    split; [exact H|now apply upsert_absent].
Qed.

Lemma upsert_nodup (x : reminder) (l : list reminder) :
  NoDup (ids l) -> NoDup (ids (upsert x l)).
Proof.
  intros H. destruct (upsert_cases x l) as [(pre & old & post & -> & Ho & _ & ->)|[Hn ->]].
  - now rewrite (ids_replace pre post old x (eq_sym Ho)).
  - unfold ids in *. rewrite map_app. simpl.
    apply NoDup_app; [exact H|repeat constructor; intros []|].
    intros a Ha [<-|[]]. contradiction.
Qed.

Lemma upsert_find (x : reminder) (l : list reminder) :
  find (same_id (id x)) (upsert x l) = Some x.
Proof.
  assert (Hx : same_id (id x) x = true) by now apply same_id_true.
  destruct (upsert_cases x l) as [(pre & old & post & -> & _ & Hpre & ->)|[Hn ->]].
  - apply find_at_first; auto. intros y Hy. apply same_id_false. auto.
  - rewrite find_none_app by now apply find_id_none. now rewrite Hx.
Qed.

Lemma filter_ids_nodup (f : reminder -> bool) (l : list reminder) :
  NoDup (ids l) -> NoDup (ids (filter f l)).
Proof.
  unfold ids. induction l as [|x l IH]; simpl; intros H; [constructor|].
  inversion H as [|? ? Hx Hl]; subst. destruct (f x); simpl; auto.
  constructor; auto. intros Hin. apply Hx.
  apply in_map_iff in Hin. destruct Hin as (y & Hy & Hin).
  apply filter_In in Hin. rewrite <- Hy. apply in_map. tauto.
Qed.

Lemma delete_run (i : string) (s : state) :
  Storage.deleteReminder i s =
  if negb (JS.truthy_str i) then (Ok tt, s)
  else (Ok tt, with_storage s (Some (filter (fun r => negb (same_id i r)) (stored s)))).
Proof.
  unfold Storage.deleteReminder. destruct (negb (JS.truthy_str i)); reflexivity.
Qed.

Lemma getReminder_run (i : string) (s : state) :
  Storage.getReminder i s =
  if negb (JS.truthy_str i) then (Ok None, s)
  else (Ok (find (same_id i) (stored s)), s).
Proof.
  unfold Storage.getReminder. destruct (negb (JS.truthy_str i)); reflexivity.
Qed.

Lemma update_run (i st : string) (s : state) :
  Storage.updateReminderStatus i st s =
  if negb (JS.truthy_str i) || negb (JS.truthy_str st) then (Ok tt, s)
  else if negb (includes validStatuses st) then (Throw ("Invalid status: " ++ st)%string, s)
  else match find (same_id i) (stored s) with
       | Some r => Storage.saveReminder (set_status r st) s
       | None => (Ok tt, s)
       end.
Proof.
  unfold Storage.updateReminderStatus.
  destruct (negb (JS.truthy_str i) || negb (JS.truthy_str st)) eqn:E1; [reflexivity|].
  destruct (negb (includes validStatuses st)) eqn:E2; [reflexivity|].
  apply orb_false_elim in E1. destruct E1 as [Hi _].
  unfold try_catch, bind. rewrite getReminder_run, Hi.
  destruct (find (same_id i) (stored s)) as [r|]; [|reflexivity].
  destruct (Storage.saveReminder (set_status r st) s) as [[|msg] s']; reflexivity.
Qed.

Lemma valid_status_facts (st : string) :
  In st validStatuses -> JS.truthy_str st = true /\ includes validStatuses st = true.
Proof.
  simpl. intros [<-|[<-|[<-|[]]]]; split; reflexivity.
Qed.

(** A failed save leaves the whole state as it was. *)
Lemma saveReminder_throw_unchanged (r : reminder) (s s' : state) (msg : string) :
  Storage.saveReminder r s = (Throw msg, s') -> s' = s.
Proof.
  rewrite save_run. destruct (Storage.validation_error (clock s) r); congruence.
Qed.

(* ================================================================== *)
(** ** Validation                                                      *)
(* ================================================================== *)

Lemma validation_passes_inv (now : Z) (r : reminder) :
  Storage.validation_error now r = None ->
  JS.truthy_str (id r) = true /\
  (negb (JS.truthy_str (text r)) || (JS.length (JS.trim (text r)) =? 0)) = false /\
  (exists t, scheduledTime r = Some t /\ t <> 0 /\ now < t) /\
  Storage.bad_status (status r) = false.
Proof.
  unfold Storage.validation_error.
  destruct (JS.truthy_str (id r)); simpl; [|discriminate].
  destruct (negb (JS.truthy_str (text r)) || (JS.length (JS.trim (text r)) =? 0));
    [discriminate|].
  destruct (scheduledTime r) as [t|]; simpl; [|discriminate].
  destruct (t =? 0) eqn:E0; simpl; [discriminate|].
  destruct (t <=? now) eqn:E1; [discriminate|].
  destruct (Storage.bad_status (status r)); [discriminate|].
  intros _. repeat split; auto. exists t. repeat split.
  - now apply Z.eqb_neq.
  - now apply Z.leb_gt.
Qed.

Lemma validation_passes_intro (now : Z) (r : reminder) (t : Z) :
  JS.truthy_str (id r) = true ->
  (negb (JS.truthy_str (text r)) || (JS.length (JS.trim (text r)) =? 0)) = false ->
  scheduledTime r = Some t -> t <> 0 -> now < t ->
  Storage.bad_status (status r) = false ->
  Storage.validation_error now r = None.
Proof.
  intros Hid Htext Ht H0 Hnow Hst. unfold Storage.validation_error.
  rewrite Hid, Htext, Ht, Hst. simpl.
  apply Z.eqb_neq in H0. apply Z.leb_gt in Hnow. now rewrite H0, Hnow.
Qed.

Lemma validation_set_status (now : Z) (r : reminder) (st : string) :
  Storage.validation_error now r = None -> In st validStatuses ->
  Storage.validation_error now (set_status r st) = None.
Proof.
  intros H Hst. destruct (validation_passes_inv _ _ H) as (Hid & Htext & (t & Ht & H0 & Hnow) & _).
  apply (validation_passes_intro now (set_status r st) t); auto.
  destruct (valid_status_facts st Hst) as [_ Hin].
  unfold Storage.bad_status, set_status. cbn [status]. rewrite Hin. apply andb_false_r.
Qed.

(* ================================================================== *)
(** ** The shared store                                                *)
(* ================================================================== *)

(** C6. A record whose scheduledTime is at or before the current time, or
    whose text is empty after trimming, is rejected by [saveReminder] with
    an error, and the state (the stored collection included) is exactly
    what it was: validation runs before any write. *)
Theorem saveReminder_rejects_without_writing (s : state) (r : reminder) :
  (exists t, scheduledTime r = Some t /\ t <= clock s) \/ JS.trim (text r) = ""%string ->
  exists msg, Storage.saveReminder r s = (Throw msg, s).
Proof.
  intros H. rewrite save_run.
  destruct (Storage.validation_error (clock s) r) as [msg|] eqn:E; [now exists msg|].
  exfalso. destruct (validation_passes_inv _ _ E) as (_ & Htext & (t & Ht & _ & Hnow) & _).
  destruct H as [(t' & Ht' & Hle)|Hempty].
  - rewrite Ht in Ht'. injection Ht' as <-. lia.
  - rewrite Hempty in Htext. simpl in Htext. now rewrite orb_true_r in Htext.
Qed.

Lemma saveReminder_rejects_without_writing_witness :
  exists msg,
    Storage.saveReminder (mkReminder "d" "   " (Some 500) None None None)
                         (browser 2000 [oven]) = (Throw msg, browser 2000 [oven]).
Proof.
  apply (saveReminder_rejects_without_writing
           (browser 2000 [oven]) (mkReminder "d" "   " (Some 500) None None None)).
  left. exists 500. split; [reflexivity|simpl; lia].
Defined.

(** C8. One record per id is kept by every operation of the shared store
    (save, remove, setStatus), whether it succeeds or fails.  A save that
    passes validation replaces the record of the same id where it stands,
    and appends only when the id is absent; remove leaves no record with
    the given (non-empty) id. *)
Theorem store_ops_keep_one_record_per_id (s : state) :
  NoDup (ids (stored s)) ->
  (forall o, NoDup (ids (stored (snd (run_op o s))))) /\
  (forall r pre old post,
      Storage.validation_error (clock s) r = None ->
      stored s = pre ++ old :: post -> id old = id r ->
      stored (snd (Storage.saveReminder r s))
      = pre ++ Storage.normalize (clock s) r :: post) /\
  (forall r,
      Storage.validation_error (clock s) r = None ->
      ~ In (id r) (ids (stored s)) ->
      stored (snd (Storage.saveReminder r s))
      = stored s ++ [Storage.normalize (clock s) r]) /\
  (forall i, i <> ""%string ->
      stored (snd (Storage.deleteReminder i s))
      = filter (fun r => negb (same_id i r)) (stored s) /\
      ~ In i (ids (stored (snd (Storage.deleteReminder i s))))).
Proof.
  intros Hnd.
  assert (Hsave : forall r, NoDup (ids (stored (snd (Storage.saveReminder r s))))).
  { intros r. rewrite save_run.
    destruct (Storage.validation_error (clock s) r); simpl; [exact Hnd|].
    rewrite stored_with_storage. now apply upsert_nodup. }
  split; [|split; [|split]].
  - intros [r|i|i st]; simpl.
    + apply Hsave.
    + rewrite delete_run. destruct (negb (JS.truthy_str i)); simpl; [exact Hnd|].
      rewrite stored_with_storage. now apply filter_ids_nodup.
    + rewrite update_run.
      destruct (negb (JS.truthy_str i) || negb (JS.truthy_str st)); [exact Hnd|].
      destruct (negb (includes validStatuses st)); [exact Hnd|].
      destruct (find (same_id i) (stored s)); [apply Hsave|exact Hnd].
  - intros r pre old post Hv Hs Hid. rewrite save_run, Hv. simpl.
    rewrite stored_with_storage, Hs. apply upsert_present; [exact Hid|].
    intros y Hy. simpl. rewrite <- Hid. rewrite Hs in Hnd.
    now apply (nodup_ids_prefix pre post old).
  - intros r Hv Hn. rewrite save_run, Hv. simpl.
    rewrite stored_with_storage. now apply upsert_absent.
  - intros i Hi. rewrite delete_run.
    assert (Ht : negb (JS.truthy_str i) = false) by (destruct i; [contradiction|reflexivity]).
    rewrite Ht. simpl. rewrite stored_with_storage. split; [reflexivity|].
    unfold ids. intros Hin. apply in_map_iff in Hin. destruct Hin as (y & Hy & Hin).
    apply filter_In in Hin. destruct Hin as [_ Hf].
    apply negb_true_iff, same_id_false in Hf. contradiction.
Qed.

Lemma store_ops_keep_one_record_per_id_witness :
  NoDup (ids (stored (snd (run_op (SetStatus "b" "completed")
                                  (browser 100 [early_dismissed; late_active]))))).
Proof.
  apply (store_ops_keep_one_record_per_id (browser 100 [early_dismissed; late_active])).
  simpl. repeat constructor; simpl; intuition discriminate.
Defined.

Lemma save_then_getReminder_normalized_aux (s : state) (r : reminder) :
  Storage.validation_error (clock s) r = None ->
  let s' := with_storage s (Some (upsert (Storage.normalize (clock s) r) (stored s))) in
  Storage.saveReminder r s = (Ok tt, s') /\
  Storage.getReminder (id r) s' = (Ok (Some (Storage.normalize (clock s) r)), s').
Proof.
  intros Hv s'. destruct (validation_passes_inv _ _ Hv) as (Hid & _).
  split; [rewrite save_run, Hv; reflexivity|].
  rewrite getReminder_run, Hid. simpl negb. cbv iota.
  unfold s'. rewrite stored_with_storage.
  change (id r) with (id (Storage.normalize (clock s) r)) at 1.
  now rewrite upsert_find.
Qed.

(** C7 as stated fails: a record saved without [createdAt] comes back with
    the time of the save in that field, which is not the input with the
    field coerced to a number. *)
Lemma save_then_get_differs_from_specified :
  Storage.validation_error (clock (browser 100 [oven])) bare = None /\
  fst (Storage.getReminder (id bare)
         (snd (Storage.saveReminder bare (browser 100 [oven]))))
  = Ok (Some (Storage.normalize 100 bare)) /\
  createdAt (Storage.normalize 100 bare) = Some 100 /\
  createdAt (normalized_as_specified bare) = None /\
  fst (Storage.getReminder (id bare)
         (snd (Storage.saveReminder bare (browser 100 [oven]))))
  <> Ok (Some (normalized_as_specified bare)).
Proof.
  repeat split; try reflexivity. vm_compute. discriminate.
Qed.

(** C7 (amended). For every record passing validation, save followed by
    [getReminder] of its id returns the normalized record: id, text and
    the extra field unchanged, scheduledTime the number given, createdAt
    the number given or, when that is missing or zero, the time of the
    save, and status the one given or active when missing or empty. *)
Theorem save_then_getReminder_normalized (s : state) (r : reminder) :
  Storage.validation_error (clock s) r = None ->
  exists s',
    Storage.saveReminder r s = (Ok tt, s') /\
    Storage.getReminder (id r) s' = (Ok (Some (Storage.normalize (clock s) r)), s') /\
    let n := Storage.normalize (clock s) r in
    id n = id r /\ text n = text r /\ alarmName n = alarmName r /\
    scheduledTime n = scheduledTime r /\
    createdAt n = Some (match createdAt r with
                        | Some c => if c =? 0 then clock s else c
                        | None => clock s
                        end) /\
    status n = Some (match status r with
                     | Some st => if JS.is_empty st then "active"%string else st
                     | None => "active"%string
                     end).
Proof.
  intros Hv. destruct (validation_passes_inv _ _ Hv) as (Hid & _ & (t & Ht & H0 & _) & _).
  destruct (save_then_getReminder_normalized_aux s r Hv) as [Hs Hg].
  eexists. split; [exact Hs|]. split; [exact Hg|].
  - simpl. repeat split.
    + rewrite Ht. simpl. apply Z.eqb_neq in H0. now rewrite H0.
    + destruct (createdAt r) as [c|]; simpl; [|reflexivity]. now destruct (c =? 0).
    + destruct (status r) as [st|]; simpl; [|reflexivity]. now destruct st.
Qed.

Lemma save_then_getReminder_normalized_witness :
  exists s',
    Storage.saveReminder bare (browser 100 [oven]) = (Ok tt, s') /\
    Storage.getReminder "c" s' = (Ok (Some (Storage.normalize 100 bare)), s') /\
    createdAt (Storage.normalize 100 bare) = Some 100.
Proof.
  destruct (save_then_getReminder_normalized (browser 100 [oven]) bare eq_refl)
    as (s' & Hs & Hg & _ & _ & _ & _ & Hc & _).
  exists s'. split; [exact Hs|]. split; [exact Hg|exact Hc].
Defined.

(** C2 (what the code does where the claim expects success). The update
    of the shared store hands the changed record to [saveReminder], whose
    validation wants a time in the future: so for an id that is present,
    with a record whose scheduledTime has been reached, the update raises
    for every status, and the state, stored status included, stays what it
    was. *)
Theorem updateReminderStatus_time_passed (s : state) (i st : string) (r : reminder) (t : Z) :
  In st validStatuses ->
  i <> ""%string ->
  find (same_id i) (stored s) = Some r ->
  scheduledTime r = Some t ->
  t <= clock s ->
  exists msg, Storage.updateReminderStatus i st s = (Throw msg, s).
Proof.
  intros Hst Hi Hf Ht Hle. destruct (valid_status_facts st Hst) as [Hts Hinc].
  assert (Ei : JS.truthy_str i = true) by (destruct i; [contradiction|reflexivity]).
  rewrite update_run, Ei, Hts, Hinc, Hf. simpl orb. cbv iota. simpl negb. cbv iota.
  rewrite save_run.
  destruct (Storage.validation_error (clock s) (set_status r st)) as [msg|] eqn:Ev;
    [now exists msg|].
  exfalso. destruct (validation_passes_inv _ _ Ev) as (_ & _ & (t' & Ht' & _ & Hnow) & _).
  simpl in Ht'. rewrite Ht in Ht'. injection Ht' as <-. lia.
Qed.

(** An overdue reminder, still active, that the dashboard offers to
    dismiss. *)
Lemma updateReminderStatus_time_passed_witness :
  In "a"%string (ids (stored (browser 2000 [oven]))) /\
  exists msg,
    Storage.updateReminderStatus "a" "dismissed" (browser 2000 [oven])
    = (Throw msg, browser 2000 [oven]).
Proof.
  split; [left; reflexivity|].
  apply (updateReminderStatus_time_passed (browser 2000 [oven]) "a" "dismissed" oven 1000).
  - right. right. left. reflexivity.
  - discriminate.
  - reflexivity.
  - reflexivity.
  - simpl. lia.
Defined.

(** Where the update of the shared store does succeed: for every status
    among active, completed and dismissed, when the first stored record with
    the given id passes the validation of save at the time of the call, the
    update succeeds and the stored record with that id then has the given
    status; when the id is absent, the state is left as it was and nothing
    is raised. *)
Lemma updateReminderStatus_valid_or_absent (s : state) (i st : string) :
  In st validStatuses ->
  (forall r,
      find (same_id i) (stored s) = Some r ->
      Storage.validation_error (clock s) r = None ->
      exists s' r',
        Storage.updateReminderStatus i st s = (Ok tt, s') /\
        Storage.getReminder i s' = (Ok (Some r'), s') /\
        status r' = Some st /\
        r' = Storage.normalize (clock s) (set_status r st)) /\
  (~ In i (ids (stored s)) -> Storage.updateReminderStatus i st s = (Ok tt, s)).
Proof.
  intros Hst. destruct (valid_status_facts st Hst) as [Hts Hinc]. split.
  - intros r Hf Hv.
    assert (Hr : id r = i).
    { destruct (find_first_split _ _ _ Hf) as (? & ? & _ & H & _). now apply same_id_true. }
    destruct (validation_passes_inv _ _ Hv) as (Hid & _).
    pose proof (validation_set_status _ _ _ Hv Hst) as Hv'.
    destruct (save_then_getReminder_normalized_aux s (set_status r st) Hv') as [Hs Hg].
    exists (with_storage s (Some (upsert (Storage.normalize (clock s) (set_status r st)) (stored s)))),
           (Storage.normalize (clock s) (set_status r st)).
    rewrite update_run, <- Hr, Hid, Hts, Hinc, Hr, Hf. simpl negb. cbv iota. simpl orb. cbv iota.
    repeat split; auto.
    + rewrite <- Hr. exact Hg.
    + simpl. now destruct st.
  - intros Hn. rewrite update_run, Hts, Hinc, (find_id_none _ _ Hn).
    now destruct (negb (JS.truthy_str i)).
Qed.

Lemma updateReminderStatus_valid_or_absent_example :
  (exists s' r',
      Storage.updateReminderStatus "a" "dismissed" (browser 998 [oven]) = (Ok tt, s') /\
      Storage.getReminder "a" s' = (Ok (Some r'), s') /\
      status r' = Some "dismissed"%string) /\
  Storage.updateReminderStatus "zz" "dismissed" (browser 998 [oven])
  = (Ok tt, browser 998 [oven]).
Proof.
  assert (Hst : In "dismissed"%string validStatuses) by (right; right; left; reflexivity).
  destruct (updateReminderStatus_valid_or_absent (browser 998 [oven]) "a" "dismissed" Hst)
    as [Hp _].
  destruct (updateReminderStatus_valid_or_absent (browser 998 [oven]) "zz" "dismissed" Hst)
    as [_ Ha].
  split.
  - destruct (Hp oven eq_refl eq_refl) as (s' & r' & H1 & H2 & H3 & _).
    exists s', r'. split; [exact H1|]. split; [exact H2|exact H3].
  - apply Ha. simpl. intuition discriminate.
Defined.

(* ================================================================== *)
(** ** The service worker                                              *)
(* ================================================================== *)

Lemma worker_update_run (i st : string) (s : state) :
  ServiceWorker.updateReminderStatus i st s =
  match find (same_id i) (stored s) with
  | Some r =>
      let rs1 := mutate_first (same_id i) (fun x => set_status x st) (stored s) in
      let index := findIndex (same_id i) rs1 in
      if 0 <=? index
      then (Ok tt, with_storage s (Some (array_set rs1 (Z.to_nat index) (set_status r st))))
      else (Ok tt, s)
  | None => (Ok tt, s)
  end.
Proof.
  unfold ServiceWorker.updateReminderStatus, try_catch, bind.
  rewrite worker_getAll.
  destruct (find (same_id i) (stored s)) as [r|]; [|reflexivity].
  cbv zeta.
  destruct (0 <=? findIndex (same_id i)
                    (mutate_first (same_id i) (fun x => set_status x st) (stored s)));
    reflexivity.
Qed.

Lemma worker_update_at (i st : string) (s : state) (pre post : list reminder) (r : reminder) :
  stored s = pre ++ r :: post -> id r = i -> (forall x, In x pre -> id x <> i) ->
  ServiceWorker.updateReminderStatus i st s
  = (Ok tt, with_storage s (Some (pre ++ set_status r st :: post))).
Proof.
  intros Hs Hr Hpre.
  assert (Hr' : same_id i r = true) by now apply same_id_true.
  assert (Hpre' : forall x, In x pre -> same_id i x = false)
    by (intros x Hx; apply same_id_false; auto).
  rewrite worker_update_run, Hs, (find_at_first _ pre post r Hr' Hpre'). cbv zeta.
  rewrite (mutate_first_at _ _ pre post r Hr' Hpre').
  rewrite (findIndex_at_first _ pre post (set_status r st)); [|exact Hr'|exact Hpre'].
  assert (E : (0 <=? Z.of_nat (List.length pre)) = true) by (apply Z.leb_le; lia).
  now rewrite E, Nat2Z.id, array_set_at.
Qed.

(** C9. The worker's own status update never raises, whatever the id; and
    for an id present in the collection it rewrites the collection with the
    first record of that id changed in its status field only, every other
    field of it and every other record as before.  Nothing is validated, so
    the time of the record plays no part. *)
Theorem worker_updateReminderStatus_frame (s : state) (i st : string) :
  fst (ServiceWorker.updateReminderStatus i st s) = Ok tt /\
  (In i (ids (stored s)) ->
   exists pre r post,
     stored s = pre ++ r :: post /\ id r = i /\ (forall x, In x pre -> id x <> i) /\
     ServiceWorker.updateReminderStatus i st s
     = (Ok tt, with_storage s (Some (pre ++ set_status r st :: post))) /\
     status (set_status r st) = Some st /\
     id (set_status r st) = id r /\ text (set_status r st) = text r /\
     scheduledTime (set_status r st) = scheduledTime r /\
     createdAt (set_status r st) = createdAt r /\
     alarmName (set_status r st) = alarmName r).
Proof.
  split.
  - rewrite worker_update_run.
    destruct (find (same_id i) (stored s)); [|reflexivity]. cbv zeta.
    now destruct (0 <=? _).
  - intros Hin. destruct (find_id_in _ _ Hin) as [r Hf].
    destruct (find_first_split _ _ _ Hf) as (pre & post & Hs & Hr & Hpre).
    apply same_id_true in Hr.
    assert (Hpre' : forall x, In x pre -> id x <> i)
      by (intros x Hx; apply same_id_false; auto).
    exists pre, r, post. split; [exact Hs|]. split; [exact Hr|]. split; [exact Hpre'|].
    split; [now apply worker_update_at|]. repeat split.
Qed.

(** The same past-due record on which the shared store's update raises. *)
Lemma worker_updateReminderStatus_frame_witness :
  exists pre r post,
    stored (browser 2000 [late_active; oven]) = pre ++ r :: post /\ id r = "a"%string /\
    ServiceWorker.updateReminderStatus "a" "completed" (browser 2000 [late_active; oven])
    = (Ok tt, with_storage (browser 2000 [late_active; oven])
                           (Some (pre ++ set_status r "completed" :: post))).
Proof.
  destruct (worker_updateReminderStatus_frame
              (browser 2000 [late_active; oven]) "a" "completed") as [_ H].
  destruct H as (pre & r & post & H1 & H2 & _ & H4 & _).
  - simpl. right. left. reflexivity.
  - exists pre, r, post. split; [exact H1|]. split; [exact H2|exact H4].
Defined.

Lemma findReminder_run (rs : list reminder) (rid : string) (t : Z) :
  ServiceWorker.findReminder rs rid t =
  match find (same_id rid) rs with
  | Some r => Some r
  | None => find (ServiceWorker.near t) rs
  end.
Proof. reflexivity. Qed.

Lemma parse_some_prefix (name rid : string) (t : Z) :
  ServiceWorker.parseAlarmName name = Some (rid, t) ->
  (negb (JS.truthy_str name) || negb (JS.startsWith name "reminder-")) = false.
Proof.
  unfold ServiceWorker.parseAlarmName.
  destruct (negb (JS.truthy_str name) || negb (JS.startsWith name "reminder-"));
    [discriminate|reflexivity].
Qed.

(** What the listener does once the name parses and a record is matched. *)
Lemma onAlarm_matched (s : state) (name rid : string) (t : Z) (r : reminder) :
  ServiceWorker.parseAlarmName name = Some (rid, t) ->
  ServiceWorker.findReminder (stored s) rid t = Some r ->
  ServiceWorker.onAlarm name s =
  if negb (ServiceWorker.is_active r) then (Ok tt, s)
  else
    let s1 := snd (ServiceWorker.showNotification r s) in
    ServiceWorker.updateReminderStatus (id r) "completed" s1.
Proof.
  intros Hp Hf. unfold ServiceWorker.onAlarm.
  rewrite (parse_some_prefix _ _ _ Hp), Hp.
  unfold try_catch at 1. unfold bind at 1. rewrite worker_getAll.
  destruct (stored s) as [|x l] eqn:Hs.
  { rewrite findReminder_run in Hf. simpl in Hf. discriminate. }
  assert (E : (Z.of_nat (List.length (x :: l)) =? 0) = false)
    by (apply Z.eqb_neq; simpl List.length; lia).
  rewrite E, Hf.
  destruct (negb (ServiceWorker.is_active r)); [reflexivity|].
  unfold bind.
  assert (Hn : fst (ServiceWorker.showNotification r s) = Ok tt).
  { unfold ServiceWorker.showNotification, try_catch, bind, get_permission_denied,
      notifications_create, ret.
    destruct (permission_denied s); [reflexivity|].
    destruct (create_rejects s ("reminder-" ++ id r)%string); [|reflexivity].
    now destruct (create_rejects s _). }
  destruct (ServiceWorker.showNotification r s) as [[[]|msg] s1]; simpl in Hn;
    [|discriminate].
  cbv zeta. simpl snd.
  pose proof (worker_update_run (id r) "completed" s1) as Hu.
  destruct (ServiceWorker.updateReminderStatus (id r) "completed" s1) as [[[]|m] s2] eqn:Eu;
    [reflexivity|].
  exfalso. destruct (find (same_id (id r)) (stored s1)); [|discriminate].
  cbv zeta in Hu. destruct (0 <=? _) in Hu; discriminate.
Qed.

(** C4. When the fired name parses and the record it resolves to is
    completed or dismissed, the listener shows nothing and changes nothing:
    the whole state, stored collection and notifications included, is the
    one before the event. *)
Theorem onAlarm_inactive_no_effect (s : state) (name rid : string) (t : Z) (r : reminder) :
  ServiceWorker.parseAlarmName name = Some (rid, t) ->
  ServiceWorker.findReminder (stored s) rid t = Some r ->
  status r = Some "completed"%string \/ status r = Some "dismissed"%string ->
  ServiceWorker.onAlarm name s = (Ok tt, s).
Proof.
  intros Hp Hf Hst. rewrite (onAlarm_matched s name rid t r Hp Hf).
  assert (Ha : ServiceWorker.is_active r = false).
  { unfold ServiceWorker.is_active. destruct Hst as [-> | ->]; reflexivity. }
  now rewrite Ha.
Qed.

Lemma onAlarm_inactive_no_effect_witness :
  ServiceWorker.onAlarm "reminder-a-1000" (browser 1001 [oven_done; late_active])
  = (Ok tt, browser 1001 [oven_done; late_active]).
Proof.
  apply (onAlarm_inactive_no_effect (browser 1001 [oven_done; late_active])
           "reminder-a-1000" "-a" 1000 oven_done).
  - reflexivity.
  - reflexivity.
  - left. reflexivity.
Defined.

Lemma showNotification_run (r : reminder) (s : state) :
  ServiceWorker.showNotification r s =
  (Ok tt,
   if permission_denied s then s
   else if create_rejects s ("reminder-" ++ id r)%string then
     if create_rejects s ("fallback-" ++ ("reminder-" ++ id r))%string then s
     else with_notifications s
            (notifications s ++ [(("fallback-" ++ ("reminder-" ++ id r))%string, text r)])
   else with_notifications s
          (notifications s ++ [(("reminder-" ++ id r)%string, text r)])).
Proof.
  unfold ServiceWorker.showNotification, try_catch, bind, get_permission_denied,
    notifications_create, ret.
  destruct (permission_denied s); [reflexivity|].
  destruct (create_rejects s ("reminder-" ++ id r)%string); [|reflexivity].
  now destruct (create_rejects s _).
Qed.

Lemma showNotification_storage (r : reminder) (s : state) :
  storage (snd (ServiceWorker.showNotification r s)) = storage s.
Proof.
  rewrite showNotification_run. simpl.
  destruct (permission_denied s); [reflexivity|].
  destruct (create_rejects s _); [|reflexivity].
  now destruct (create_rejects s _).
Qed.

(** C5 as stated fails: no record has the parsed id, exactly one active
    record lies within a second of the encoded time, and yet the fallback
    settles on the dismissed record stored before it, so that nothing is
    shown and nothing changes. *)
Lemma onAlarm_fallback_picks_inactive_neighbour :
  let s := browser 5000 [early_dismissed; late_active] in
  ServiceWorker.parseAlarmName "reminder-b-5000" = Some ("-b"%string, 5000) /\
  ~ In "-b"%string (ids (stored s)) /\
  In late_active (stored s) /\
  ServiceWorker.is_active late_active = true /\
  ServiceWorker.near 5000 late_active = true /\
  (forall r', In r' (stored s) -> ServiceWorker.is_active r' = true ->
              ServiceWorker.near 5000 r' = true -> r' = late_active) /\
  ServiceWorker.findReminder (stored s) "-b" 5000 = Some early_dismissed /\
  ServiceWorker.findReminder (stored s) "-b" 5000 <> Some late_active /\
  ServiceWorker.onAlarm "reminder-b-5000" s = (Ok tt, s).
Proof.
  cbv zeta. split; [reflexivity|]. split; [simpl; intuition discriminate|].
  split; [right; left; reflexivity|]. split; [reflexivity|]. split; [reflexivity|].
  split.
  - intros r' [<-|[<-|[]]] Ha _; [discriminate Ha|reflexivity].
  - split; [reflexivity|]. split; [discriminate|reflexivity].
Qed.

(** C5 (amended). When the fired name parses, no record has the parsed
    id, and an active record has its scheduledTime less than 1000 ms from
    the encoded time while no record stored before it, whatever its status,
    lies within that tolerance (so in particular when it is the only record
    within the tolerance), the listener matches that record and runs the
    notification display for it (shown under the record's id unless
    permission is denied or the display is rejected); it then marks
    completed the first stored record that carries the matched record's
    id, which is the matched record itself whenever no record stored
    before it shares its id, as in a collection with one record per id.
    Nothing is assumed of the collection beyond what is listed. *)
Theorem onAlarm_fallback_first_neighbour
        (s : state) (name rid : string) (t : Z) (pre post : list reminder) (r : reminder) :
  ServiceWorker.parseAlarmName name = Some (rid, t) ->
  ~ In rid (ids (stored s)) ->
  stored s = pre ++ r :: post ->
  (forall x, In x pre -> ServiceWorker.near t x = false) ->
  ServiceWorker.near t r = true ->
  ServiceWorker.is_active r = true ->
  ServiceWorker.findReminder (stored s) rid t = Some r /\
  exists s1,
    ServiceWorker.showNotification r s = (Ok tt, s1) /\
    storage s1 = storage s /\
    (permission_denied s = false ->
     create_rejects s ("reminder-" ++ id r)%string = false ->
     notifications s1 = notifications s ++ [(("reminder-" ++ id r)%string, text r)]) /\
    ServiceWorker.onAlarm name s
    = ServiceWorker.updateReminderStatus (id r) "completed" s1 /\
    (exists pre' r1 post',
       stored s = pre' ++ r1 :: post' /\
       id r1 = id r /\
       (forall x, In x pre' -> id x <> id r) /\
       ServiceWorker.onAlarm name s
       = (Ok tt, with_storage s1 (Some (pre' ++ set_status r1 "completed" :: post')))) /\
    ((forall x, In x pre -> id x <> id r) ->
     ServiceWorker.onAlarm name s
     = (Ok tt, with_storage s1 (Some (pre ++ set_status r "completed" :: post)))).
Proof.
  intros Hp Hrid Hs Hpre Hnear Hact.
  assert (Hf : ServiceWorker.findReminder (stored s) rid t = Some r).
  { rewrite findReminder_run, (find_id_none _ _ Hrid), Hs.
    now apply find_at_first. }
  split; [exact Hf|].
  exists (snd (ServiceWorker.showNotification r s)).
  assert (Hst : stored (snd (ServiceWorker.showNotification r s)) = stored s).
  { unfold stored. now rewrite showNotification_storage. }
  assert (Hon : ServiceWorker.onAlarm name s
                = ServiceWorker.updateReminderStatus (id r) "completed"
                    (snd (ServiceWorker.showNotification r s))).
  { rewrite (onAlarm_matched s name rid t r Hp Hf), Hact. reflexivity. }
  split; [now rewrite showNotification_run|].
  split; [apply showNotification_storage|]. split.
  { intros Hperm Hrej. rewrite showNotification_run. cbn [snd]. now rewrite Hperm, Hrej. }
  split; [exact Hon|]. split.
  - assert (Hin : In (id r) (ids (stored s))).
    { rewrite Hs. unfold ids. rewrite map_app. apply in_or_app. right. now left. }
    destruct (find_id_in _ _ Hin) as (r1 & F).
    destruct (find_first_split _ _ _ F) as (pre' & post' & Hs' & Hid & Hfirst).
    apply same_id_true in Hid.
    assert (Hfirst' : forall x, In x pre' -> id x <> id r)
      by (intros x Hx; apply same_id_false; auto).
    exists pre', r1, post'. split; [exact Hs'|]. split; [exact Hid|].
    split; [exact Hfirst'|]. rewrite Hon.
    apply worker_update_at; [now rewrite Hst|exact Hid|exact Hfirst'].
  - intros Hids. rewrite Hon.
    apply worker_update_at; [now rewrite Hst|reflexivity|exact Hids].
Qed.

Lemma onAlarm_fallback_first_neighbour_witness :
  ServiceWorker.findReminder (stored (browser 5000 [late_active; early_dismissed])) "-b" 5000
  = Some late_active /\
  exists s1,
    notifications s1 = [("reminder-b"%string, "Stand up"%string)] /\
    ServiceWorker.onAlarm "reminder-b-5000" (browser 5000 [late_active; early_dismissed])
    = (Ok tt, with_storage s1
                (Some ([] ++ set_status late_active "completed" :: [early_dismissed]))).
Proof.
  destruct (onAlarm_fallback_first_neighbour
              (browser 5000 [late_active; early_dismissed]) "reminder-b-5000" "-b" 5000
              [] [early_dismissed] late_active)
    as (Hf & s1 & _ & _ & H3 & _ & _ & H6).
  - reflexivity.
  - simpl. intuition discriminate.
  - reflexivity.
  - intros x [].
  - reflexivity.
  - reflexivity.
  - split; [exact Hf|]. exists s1.
    split; [exact (H3 eq_refl eq_refl)|]. apply H6. intros x [].
Defined.

(* ================================================================== *)
(** ** The dashboard: undo of a dismissal                              *)
(* ================================================================== *)

Lemma options_showNotification_run (m ty : string) (s : state) :
  Options.showNotification m ty s = (Ok tt, with_messages s (messages s ++ [(m, ty)])).
Proof. reflexivity. Qed.

(** C3 (behaviour of the code where it departs from the claim). While a
    dismissed record is remembered for undo, if the stored record of that
    id has a scheduledTime that is no longer in the future, the undo ends in
    the error branch: the stored collection and the alarms are untouched
    (the status stays dismissed, no trigger is registered), the record stays
    remembered, and the only effect is the failure message. *)
Theorem handleUndoDismiss_time_passed (s : state) (r r0 : reminder) (t : Z) :
  lastDismissedReminder s = Some r ->
  id r <> ""%string ->
  find (same_id (id r)) (stored s) = Some r0 ->
  scheduledTime r0 = Some t ->
  t <= clock s ->
  Options.handleUndoDismiss s
  = (Ok tt, with_messages s (messages s ++ [("Unable to restore reminder", "error")%string])).
Proof.
  intros Hl Hne Hf Ht Hle.
  unfold Options.handleUndoDismiss. unfold bind at 1. unfold Options.get_lastDismissed.
  rewrite Hl. unfold try_catch. unfold bind at 1.
  assert (Hu : exists msg, Storage.updateReminderStatus (id r) "active" s = (Throw msg, s)).
  { rewrite update_run.
    assert (Ei : JS.truthy_str (id r) = true) by (destruct (id r); [contradiction|reflexivity]).
    rewrite Ei. simpl. rewrite Hf, save_run.
    destruct (Storage.validation_error (clock s) (set_status r0 "active")) as [msg|] eqn:Ev;
      [now exists msg|].
    exfalso. destruct (validation_passes_inv _ _ Ev) as (_ & _ & (t' & Ht' & _ & Hnow) & _).
    simpl in Ht'. rewrite Ht in Ht'. injection Ht' as <-. lia. }
  destruct Hu as [msg Hu]. rewrite Hu. apply options_showNotification_run.
Qed.

(** The run from the dashboard: dismissed at 998, undone at 1002. *)
Lemma handleUndoDismiss_time_passed_witness :
  stored dismissed_998 = [set_status oven "dismissed"] /\
  alarms dismissed_998 = [] /\
  lastDismissedReminder undo_pressed_1002 = Some oven /\
  Options.handleUndoDismiss undo_pressed_1002
  = (Ok tt, with_messages undo_pressed_1002
              (messages undo_pressed_1002
               ++ [("Unable to restore reminder", "error")%string])) /\
  stored (snd (Options.handleUndoDismiss undo_pressed_1002)) = [set_status oven "dismissed"].
Proof.
  split; [reflexivity|]. split; [reflexivity|]. split; [reflexivity|].
  split; [|reflexivity].
  apply (handleUndoDismiss_time_passed undo_pressed_1002 oven
           (set_status oven "dismissed") 1000).
  - reflexivity.
  - discriminate.
  - reflexivity.
  - reflexivity.
  - simpl. lia.
Defined.

(** The other half of C3, which the code does deliver: pressed while the
    time is still ahead, every read of the clock giving 999, undo restores
    the status and registers the alarm for exactly the original time. *)
Lemma handleUndoDismiss_in_time :
  let s := snd (Options.handleUndoDismiss (with_clock dismissed_998 999)) in
  stored s = [oven] /\ alarms s = [("reminder-a-1000"%string, 1000)] /\
  lastDismissedReminder s = None.
Proof. repeat split. Qed.

(* ================================================================== *)
(** ** Strings: decimal digits, last hyphen, substrings                *)
(* ================================================================== *)

Lemma append_assoc (a b c : string) : ((a ++ b) ++ c)%string = (a ++ (b ++ c))%string.
Proof. induction a as [|x a IH]; simpl; [reflexivity|now rewrite IH]. Qed.

Lemma all_chars_app (p : ascii -> bool) (a b : string) :
  all_chars p (a ++ b)%string = all_chars p a && all_chars p b.
Proof.
  induction a as [|c a IH]; simpl; [reflexivity|]. now rewrite IH, andb_assoc.
Qed.

Lemma is_digit_range (c : ascii) :
  JS.is_digit c = true <-> 48 <= JS.code c <= 57.
Proof.
  unfold JS.is_digit. cbv zeta. rewrite andb_true_iff, !Z.leb_le. tauto.
Qed.

Lemma code_dash : JS.code "-" = 45.
Proof. reflexivity. Qed.

Lemma code_plus : JS.code "+" = 43.
Proof. reflexivity. Qed.

Lemma eqb_code (c d : ascii) : Ascii.eqb c d = true -> JS.code c = JS.code d.
Proof. intros H. apply Ascii.eqb_eq in H. now subst. Qed.

Lemma digit_not_dash (c : ascii) : JS.is_digit c = true -> Ascii.eqb c "-" = false.
Proof.
  intros H. apply is_digit_range in H. destruct (Ascii.eqb c "-") eqn:E; [|reflexivity].
  apply eqb_code in E. rewrite code_dash in E. lia.
Qed.

Lemma digit_not_plus (c : ascii) : JS.is_digit c = true -> Ascii.eqb c "+" = false.
Proof.
  intros H. apply is_digit_range in H. destruct (Ascii.eqb c "+") eqn:E; [|reflexivity].
  apply eqb_code in E. rewrite code_plus in E. lia.
Qed.

Lemma digit_not_whitespace (c : ascii) : JS.is_digit c = true -> JS.is_whitespace c = false.
Proof.
  intros H. apply is_digit_range in H. unfold JS.is_whitespace. cbv zeta.
  rewrite !orb_false_iff, andb_false_iff, !Z.leb_gt, !Z.eqb_neq. lia.
Qed.

Lemma all_digits_no_dash (s : string) : all_digits s = true -> no_dash s = true.
Proof.
  unfold all_digits, no_dash. induction s as [|c s IH]; simpl; [reflexivity|].
  rewrite !andb_true_iff. intros [Hc Hs]. split; [|auto].
  now rewrite (digit_not_dash c Hc).
Qed.

Lemma parse_digits_app (ds rest : string) (acc : Z) :
  all_digits ds = true ->
  JS.parse_digits (ds ++ rest)%string acc = JS.parse_digits rest (JS.parse_digits ds acc).
Proof.
  unfold all_digits. revert acc. induction ds as [|c ds IH]; simpl; intros acc H; [reflexivity|].
  apply andb_true_iff in H. destruct H as [Hc Hds]. rewrite Hc. now apply IH.
Qed.

Lemma parse_digits_stop (rest : string) (acc : Z) :
  stops_digits rest = true -> JS.parse_digits rest acc = acc.
Proof.
  destruct rest as [|c rest]; simpl; [reflexivity|].
  intros H. apply negb_true_iff in H. now rewrite H.
Qed.

(** [parseInt] on a run of digits followed by anything that is not one. *)
Lemma parseInt_digits_then (ds rest : string) :
  ds <> ""%string -> all_digits ds = true -> stops_digits rest = true ->
  JS.parseInt (ds ++ rest)%string = Some (JS.parse_digits ds 0).
Proof.
  intros Hne Hds Hrest. destruct ds as [|c ds]; [contradiction|].
  pose proof Hds as Hall. unfold all_digits in Hds. simpl in Hds.
  apply andb_true_iff in Hds. destruct Hds as [Hc _].
  unfold JS.parseInt. cbn [append JS.trimStart].
  rewrite (digit_not_whitespace c Hc), (digit_not_dash c Hc), (digit_not_plus c Hc), Hc.
  change (String c (ds ++ rest)%string) with (String c ds ++ rest)%string.
  rewrite (parse_digits_app _ _ _ Hall), (parse_digits_stop _ _ Hrest).
  f_equal. lia.
Qed.

Lemma digit_char_facts (d : Z) :
  0 <= d <= 9 ->
  JS.is_digit (JS.digit_char d) = true /\ JS.digit_val (JS.digit_char d) = d.
Proof.
  intros H.
  assert (C : d = 0 \/ d = 1 \/ d = 2 \/ d = 3 \/ d = 4 \/ d = 5 \/ d = 6 \/ d = 7
              \/ d = 8 \/ d = 9) by lia.
  repeat (destruct C as [-> | C]; [split; reflexivity|]). subst. split; reflexivity.
Qed.

(** The digits printed for [n] read back as [n]. *)
Lemma digits_spec (f : nat) :
  forall (n : Z) (acc : string),
    0 <= n < 2 ^ Z.of_nat (S f) ->
    exists ds,
      JS.digits (S f) n acc = (ds ++ acc)%string /\
      ds <> ""%string /\ all_digits ds = true /\ JS.parse_digits ds 0 = n.
Proof.
  induction f as [|f IH]; intros n acc Hn.
  - assert (Hlt : (n <? 10) = true) by (apply Z.ltb_lt; simpl in Hn; lia).
    cbn [JS.digits]. rewrite Hlt.
    assert (Hd : 0 <= n mod 10 <= 9) by (pose proof (Z.mod_pos_bound n 10); lia).
    destruct (digit_char_facts _ Hd) as [H1 H2].
    exists (String (JS.digit_char (n mod 10)) ""). repeat split.
    + discriminate.
    + unfold all_digits. simpl. now rewrite H1.
    + simpl. rewrite H1, H2. apply Z.ltb_lt in Hlt. rewrite Z.mod_small; lia.
  - assert (Hd : 0 <= n mod 10 <= 9) by (pose proof (Z.mod_pos_bound n 10); lia).
    destruct (digit_char_facts _ Hd) as [H1 H2].
    change (JS.digits (S (S f)) n acc)
      with (if n <? 10 then String (JS.digit_char (n mod 10)) acc
            else JS.digits (S f) (n / 10) (String (JS.digit_char (n mod 10)) acc)).
    destruct (n <? 10) eqn:Hlt.
    + exists (String (JS.digit_char (n mod 10)) ""). repeat split.
      * discriminate.
      * unfold all_digits. simpl. now rewrite H1.
      * simpl. rewrite H1, H2. apply Z.ltb_lt in Hlt. rewrite Z.mod_small; lia.
    + apply Z.ltb_ge in Hlt.
      assert (Hq : 0 <= n / 10 < 2 ^ Z.of_nat (S f)).
      { split; [apply Z.div_pos; lia|].
        apply Z.div_lt_upper_bound; [lia|].
        replace (Z.of_nat (S (S f))) with (Z.succ (Z.of_nat (S f))) in Hn by lia.
        rewrite Z.pow_succ_r in Hn by lia. lia. }
      destruct (IH (n / 10) (String (JS.digit_char (n mod 10)) acc) Hq)
        as (ds & Hds & Hne & Hall & Hval).
      exists (ds ++ String (JS.digit_char (n mod 10)) "")%string. repeat split.
      * rewrite Hds. now rewrite append_assoc.
      * destruct ds; [contradiction|discriminate].
      * unfold all_digits in *. rewrite all_chars_app, Hall. simpl. now rewrite H1.
      * rewrite (parse_digits_app _ _ _ Hall), Hval. simpl. rewrite H1, H2.
        pose proof (Z.div_mod n 10). lia.
Qed.

Lemma append_empty_r (s : string) : (s ++ "")%string = s.
Proof. induction s as [|c s IH]; simpl; [reflexivity|now rewrite IH]. Qed.

Lemma string_of_Z_spec (t : Z) :
  0 < t ->
  JS.string_of_Z t <> ""%string /\ all_digits (JS.string_of_Z t) = true /\
  JS.parse_digits (JS.string_of_Z t) 0 = t.
Proof.
  intros Ht. unfold JS.string_of_Z, JS.digits_fuel.
  assert (E : (t <? 0) = false) by (apply Z.ltb_ge; lia). rewrite E.
  destruct (digits_spec (Z.to_nat (Z.log2 t)) t "") as (ds & Hds & Hne & Hall & Hval).
  - split; [lia|]. rewrite Nat2Z.inj_succ, Z2Nat.id by apply Z.log2_nonneg.
    apply Z.log2_spec. lia.
  - rewrite Hds, append_empty_r. auto.
Qed.

Lemma lastIndexOf_no_dash (s : string) :
  no_dash s = true -> JS.lastIndexOf "-" s = -1.
Proof.
  unfold no_dash. induction s as [|c s IH]; simpl; [reflexivity|].
  intros H. apply andb_true_iff in H. destruct H as [Hc Hs].
  rewrite (IH Hs). simpl. apply negb_true_iff in Hc. now rewrite Hc.
Qed.

(** The last hyphen of [a ++ "-" ++ seg], when [seg] has none, is the one
    written between them. *)
Lemma lastIndexOf_separator (a seg : string) :
  no_dash seg = true ->
  JS.lastIndexOf "-" (a ++ String "-" seg)%string = JS.length a.
Proof.
  intros H. unfold JS.length. induction a as [|c a IH].
  - simpl. now rewrite (lastIndexOf_no_dash seg H).
  - cbn [append JS.lastIndexOf String.length]. rewrite IH.
    assert (E : (0 <=? Z.of_nat (String.length a)) = true) by (apply Z.leb_le; lia).
    rewrite E. lia.
Qed.

Lemma length_app (a b : string) :
  String.length (a ++ b)%string = (String.length a + String.length b)%nat.
Proof. induction a as [|c a IH]; simpl; [reflexivity|now rewrite IH]. Qed.

Lemma substring_head (a b : string) :
  String.substring 0 (String.length a) (a ++ b)%string = a.
Proof.
  induction a as [|c a IH]; simpl.
  - now destruct b.
  - now rewrite IH.
Qed.

Lemma substring_skip (a b : string) (m : nat) :
  String.substring (String.length a) m (a ++ b)%string = String.substring 0 m b.
Proof. induction a as [|c a IH]; simpl; [reflexivity|exact IH]. Qed.

(** [s.substring(start, end)] for indices in order and in range. *)
Lemma js_substring_in_range (s : string) (a b : Z) :
  0 <= a <= b -> b <= JS.length s ->
  JS.substring s a b = String.substring (Z.to_nat a) (Z.to_nat (b - a)) s.
Proof.
  intros H1 H2. unfold JS.substring, JS.clamp. cbv zeta.
  replace (Z.min (Z.max a 0) (JS.length s)) with a by lia.
  replace (Z.min (Z.max b 0) (JS.length s)) with b by lia.
  replace (Z.min a b) with a by lia. replace (Z.max a b) with b by lia.
  reflexivity.
Qed.

Lemma js_substring_middle (a m c : string) :
  JS.substring (a ++ m ++ c)%string (JS.length a) (JS.length a + JS.length m) = m.
Proof.
  unfold JS.length. rewrite js_substring_in_range.
  - rewrite Nat2Z.id.
    replace (Z.to_nat (Z.of_nat (String.length a) + Z.of_nat (String.length m)
                       - Z.of_nat (String.length a))) with (String.length m) by lia.
    rewrite substring_skip. apply substring_head.
  - lia.
  - unfold JS.length. rewrite !length_app. lia.
Qed.

Lemma js_substring_tail (a c : string) :
  JS.substring_from (a ++ c)%string (JS.length a) = c.
Proof.
  unfold JS.substring_from.
  replace (JS.length (a ++ c)%string) with (JS.length a + JS.length c)
    by (unfold JS.length; rewrite length_app; lia).
  replace (a ++ c)%string with (a ++ c ++ "")%string by now rewrite append_empty_r.
  apply js_substring_middle.
Qed.

Lemma trim_after_dash (body : string) :
  JS.trim (String "-" body) = String "-" (JS.trimEnd body).
Proof. reflexivity. Qed.

(** [parseAlarmName] on a name with the prefix, a body, a hyphen and a last
    segment free of hyphens: the segment goes to [parseInt], and the id is
    cut from index 8, so it starts with the hyphen that ends the prefix. *)
Lemma parseAlarmName_shape (body seg : string) :
  no_dash seg = true ->
  ServiceWorker.parseAlarmName ("reminder-" ++ body ++ "-" ++ seg)%string =
  match JS.parseInt seg with
  | None => None
  | Some v => if v <=? 0 then None else Some (String "-" (JS.trimEnd body), v)
  end.
Proof.
  intros Hseg.
  set (key := ("reminder-" ++ body ++ "-" ++ seg)%string).
  assert (Hlast : JS.lastIndexOf "-" key = 9 + JS.length body).
  { unfold key.
    replace ("reminder-" ++ body ++ "-" ++ seg)%string
      with (("reminder-" ++ body) ++ String "-" seg)%string
      by (rewrite append_assoc; reflexivity).
    rewrite (lastIndexOf_separator _ _ Hseg). unfold JS.length.
    rewrite length_app. simpl String.length. lia. }
  assert (Htime : JS.substring_from key (9 + JS.length body + 1) = seg).
  { unfold key.
    replace ("reminder-" ++ body ++ "-" ++ seg)%string
      with ((("reminder-" ++ body) ++ "-") ++ seg)%string
      by (rewrite !append_assoc; reflexivity).
    replace (9 + JS.length body + 1) with (JS.length (("reminder-" ++ body) ++ "-")%string)
      by (unfold JS.length; rewrite !length_app; simpl String.length; lia).
    apply js_substring_tail. }
  assert (Hid : JS.substring key 8 (9 + JS.length body) = String "-" body).
  { unfold key.
    change ("reminder-" ++ body ++ "-" ++ seg)%string
      with ("reminder" ++ (String "-" body) ++ ("-" ++ seg))%string.
    replace 8 with (JS.length "reminder") by reflexivity.
    replace (9 + JS.length body) with (JS.length "reminder" + JS.length (String "-" body))
      by (unfold JS.length; simpl String.length; lia).
    apply js_substring_middle. }
  unfold ServiceWorker.parseAlarmName. fold key.
  assert (Hpre : (negb (JS.truthy_str key) || negb (JS.startsWith key "reminder-")) = false)
    by (unfold key, JS.startsWith; simpl; now destruct body).
  rewrite Hpre, Hlast.
  assert (Hidx : ((9 + JS.length body =? -1) || (9 + JS.length body <=? 8)) = false).
  { unfold JS.length. apply orb_false_iff. split; [apply Z.eqb_neq|apply Z.leb_gt]; lia. }
  rewrite Hidx, Htime, Hid, trim_after_dash.
  destruct (JS.parseInt seg) as [v|]; [|reflexivity].
  destruct (v <=? 0); reflexivity.
Qed.

(** No string is itself with a hyphen put in front and trailing blanks
    removed. *)
Lemma dash_trimEnd_no_fixpoint (n : nat) :
  forall i, (String.length i <= n)%nat -> i <> String "-" (JS.trimEnd i).
Proof.
  induction n as [|n IH]; intros i Hlen Hi.
  - destruct i; [discriminate|simpl in Hlen; lia].
  - destruct i as [|c j]; [discriminate|].
    injection Hi as Hc Hj. subst c.
    change (JS.trimEnd (String "-" j)) with (String "-" (JS.trimEnd j)) in Hj.
    apply (IH j); [simpl in Hlen; lia|exact Hj].
Qed.

(** C1 (what the code returns where the claim expects the id back). For
    every id and every positive integer t (within the safe integers, which
    timestamps are), parsing the name built as
    "reminder-" + id + "-" + t returns the time t, and as id the original
    one with the hyphen that ends the prefix still in front of it (and
    trailing blanks removed): the id is cut from index 8, while the prefix
    is nine characters long.  So no id comes back as it was given. *)
Theorem parseAlarmName_createAlarmName (i : string) (t : Z) :
  0 < t <= JS.MAX_SAFE_INTEGER ->
  ServiceWorker.parseAlarmName (Alarms.alarm_name i (Some t))
  = Some (String "-" (JS.trimEnd i), t) /\
  ServiceWorker.parseAlarmName (Alarms.alarm_name i (Some t)) <> Some (i, t).
Proof.
  intros [Ht _]. destruct (string_of_Z_spec t Ht) as (Hne & Hall & Hval).
  assert (H : ServiceWorker.parseAlarmName (Alarms.alarm_name i (Some t))
              = Some (String "-" (JS.trimEnd i), t)).
  { unfold Alarms.alarm_name. cbn [JS.string_of_num].
    rewrite (parseAlarmName_shape i _ (all_digits_no_dash _ Hall)).
    replace (JS.string_of_Z t) with (JS.string_of_Z t ++ "")%string at 1
      by apply append_empty_r.
    rewrite (parseInt_digits_then _ "" Hne Hall eq_refl), Hval.
    assert (E : (t <=? 0) = false) by (apply Z.leb_gt; lia). now rewrite E. }
  split; [exact H|]. rewrite H. intros [= Hi].
  exact (dash_trimEnd_no_fixpoint (String.length i) i (le_n _) (eq_sym Hi)).
Qed.

(** An id as [generateReminderId] makes them, hyphens included. *)
Lemma parseAlarmName_createAlarmName_witness :
  ServiceWorker.parseAlarmName
    (Alarms.alarm_name "reminder-1700000000000-k3x9q" (Some 1700000600000))
  = Some ("-reminder-1700000000000-k3x9q"%string, 1700000600000).
Proof.
  apply (parseAlarmName_createAlarmName "reminder-1700000000000-k3x9q" 1700000600000).
  unfold JS.MAX_SAFE_INTEGER. lia.
Defined.

(** C10. A last segment that is not an integer can still parse: for every
    name made of the prefix, any body, a hyphen and a last segment that
    begins with the digits of a positive (safe) integer and goes on with
    something that is not a digit (and holds no hyphen), [parseAlarmName] returns a
    result, with the value of the leading digits as scheduledTime. *)
Theorem parseAlarmName_accepts_trailing_garbage (body ds rest : string) :
  ds <> ""%string -> all_digits ds = true ->
  0 < JS.parse_digits ds 0 <= JS.MAX_SAFE_INTEGER ->
  rest <> ""%string -> stops_digits rest = true -> no_dash rest = true ->
  ServiceWorker.parseAlarmName ("reminder-" ++ body ++ "-" ++ ds ++ rest)%string
  = Some (String "-" (JS.trimEnd body), JS.parse_digits ds 0).
Proof.
  intros Hne Hall [Hpos _] _ Hstop Hnd.
  rewrite parseAlarmName_shape.
  - rewrite (parseInt_digits_then ds rest Hne Hall Hstop).
    assert (E : (JS.parse_digits ds 0 <=? 0) = false) by (apply Z.leb_gt; lia).
    now rewrite E.
  - unfold no_dash in *. rewrite all_chars_app, Hnd.
    pose proof (all_digits_no_dash ds Hall) as H. unfold no_dash in H. now rewrite H.
Qed.

Lemma parseAlarmName_accepts_trailing_garbage_witness :
  ServiceWorker.parseAlarmName "reminder-abc-123abc" = Some ("-abc"%string, 123).
Proof.
  apply (parseAlarmName_accepts_trailing_garbage "abc" "123" "abc").
  - discriminate.
  - reflexivity.
  - unfold JS.MAX_SAFE_INTEGER. simpl. lia.
  - discriminate.
  - reflexivity.
  - reflexivity.
Defined.

(* ================================================================== *)
(** ** More of the shared store                                        *)
(* ================================================================== *)

Ltac st_simpl :=
  cbn [clock storage alarms notifications permission_denied create_rejects
       reminders lastDismissedReminder messages
       with_storage with_alarms with_notifications with_reminders
       with_lastDismissed with_messages with_clock fst snd].

Lemma truthy_str_true (i : string) : JS.truthy_str i = true <-> i <> ""%string.
Proof.
  destruct i; simpl; split; intros H; try discriminate; try reflexivity.
  now contradiction H.
Qed.

Lemma find_filter_other (i j : string) (l : list reminder) :
  j <> i ->
  find (same_id j) (filter (fun r => negb (same_id i r)) l) = find (same_id j) l.
Proof.
  intros Hji. induction l as [|x l IH]; simpl; [reflexivity|].
  destruct (same_id i x) eqn:Ei; simpl.
  - apply same_id_true in Ei.
    assert (Ej : same_id j x = false) by (apply same_id_false; congruence).
    now rewrite Ej.
  - destruct (same_id j x); [reflexivity|exact IH].
Qed.

Lemma find_filter_same (i : string) (l : list reminder) :
  find (same_id i) (filter (fun r => negb (same_id i r)) l) = None.
Proof.
  induction l as [|x l IH]; simpl; [reflexivity|].
  destruct (same_id i x) eqn:Ei; simpl; [exact IH|]. now rewrite Ei.
Qed.

Lemma find_replace_other (j : string) (pre post : list reminder) (a b : reminder) :
  same_id j a = false -> same_id j b = false ->
  find (same_id j) (pre ++ a :: post) = find (same_id j) (pre ++ b :: post).
Proof.
  intros Ha Hb. induction pre as [|x pre IH]; simpl.
  - now rewrite Ha, Hb.
  - destruct (same_id j x); [reflexivity|exact IH].
Qed.

Lemma find_app_other (j : string) (l : list reminder) (x : reminder) :
  same_id j x = false -> find (same_id j) (l ++ [x]) = find (same_id j) l.
Proof.
  intros Hx. induction l as [|y l IH]; simpl.
  - now rewrite Hx.
  - destruct (same_id j y); [reflexivity|exact IH].
Qed.

Lemma upsert_find_other (j : string) (x : reminder) (l : list reminder) :
  j <> id x -> find (same_id j) (upsert x l) = find (same_id j) l.
Proof.
  intros Hj.
  assert (Hx : same_id j x = false) by (apply same_id_false; intros E; now apply Hj).
  destruct (upsert_cases x l) as [(pre & old & post & -> & Ho & _ & ->)|[_ ->]].
  - apply find_replace_other; [exact Hx|]. apply same_id_false.
    intros E. apply Hj. now rewrite <- E.
  - now apply find_app_other.
Qed.

Lemma upsert_length (x : reminder) (l : list reminder) :
  List.length (upsert x l)
  = (List.length l + match find (same_id (id x)) l with Some _ => 0 | None => 1 end)%nat.
Proof.
  destruct (upsert_cases x l) as [(pre & old & post & -> & Ho & Hpre & ->)|[Hn ->]].
  - rewrite (find_at_first _ pre post old).
    + rewrite !List.length_app. simpl. lia.
    + now apply same_id_true.
    + intros y Hy. apply same_id_false. auto.
  - rewrite (find_id_none _ _ Hn), List.length_app. reflexivity.
Qed.

(** X1. Removing a non-empty id always succeeds; afterwards a lookup of
    that id finds nothing, a lookup of any other id finds what it found
    before, and nothing but the storage area has changed. *)
Theorem deleteReminder_then_getReminder (s : state) (i : string) :
  i <> ""%string ->
  exists s',
    Storage.deleteReminder i s = (Ok tt, s') /\
    Storage.getReminder i s' = (Ok None, s') /\
    (forall j, fst (Storage.getReminder j s') =
               if String.eqb j i then Ok None else fst (Storage.getReminder j s)) /\
    s' = with_storage s (storage s').
Proof.
  intros Hi. apply truthy_str_true in Hi.
  exists (with_storage s (Some (filter (fun r => negb (same_id i r)) (stored s)))).
  split; [rewrite delete_run, Hi; reflexivity|].
  split; [rewrite getReminder_run, Hi; simpl negb; cbv iota;
          rewrite stored_with_storage, find_filter_same; reflexivity|].
  split; [|reflexivity].
  intros j. rewrite !getReminder_run. destruct (String.eqb j i) eqn:E.
  - apply String.eqb_eq in E. subst j. rewrite Hi. simpl negb. cbv iota.
    now rewrite stored_with_storage, find_filter_same.
  - apply String.eqb_neq in E. destruct (negb (JS.truthy_str j)); [reflexivity|].
    cbn [fst]. now rewrite stored_with_storage, find_filter_other.
Qed.

Lemma deleteReminder_then_getReminder_witness :
  exists s',
    Storage.deleteReminder "a" (browser 100 [oven; late_active]) = (Ok tt, s') /\
    Storage.getReminder "a" s' = (Ok None, s').
Proof.
  destruct (deleteReminder_then_getReminder (browser 100 [oven; late_active]) "a")
    as (s' & H1 & H2 & _).
  - discriminate.
  - exists s'. split; [exact H1|exact H2].
Defined.

(** X2. A save that passes validation touches one id only: a lookup of any
    other id finds what it found before, and the collection grows by one
    record exactly when the saved id was not there. *)
Theorem saveReminder_keeps_other_records (s : state) (r : reminder) :
  Storage.validation_error (clock s) r = None ->
  let s' := snd (Storage.saveReminder r s) in
  (forall j, j <> id r ->
             fst (Storage.getReminder j s') = fst (Storage.getReminder j s)) /\
  List.length (stored s')
  = (List.length (stored s)
     + match find (same_id (id r)) (stored s) with Some _ => 0 | None => 1 end)%nat /\
  s' = with_storage s (storage s').
Proof.
  intros Hv. rewrite save_run, Hv. cbn [snd]. split; [|split; [|reflexivity]].
  - intros j Hj. rewrite !getReminder_run.
    destruct (negb (JS.truthy_str j)); [reflexivity|]. cbn [fst].
    rewrite stored_with_storage. now rewrite upsert_find_other.
  - rewrite stored_with_storage. apply (upsert_length (Storage.normalize (clock s) r)).
Qed.

Lemma saveReminder_keeps_other_records_witness :
  fst (Storage.getReminder "a" (snd (Storage.saveReminder bare (browser 100 [oven]))))
  = fst (Storage.getReminder "a" (browser 100 [oven])).
Proof.
  destruct (saveReminder_keeps_other_records (browser 100 [oven]) bare eq_refl)
    as [H _].
  apply H. discriminate.
Defined.

Lemma upsert_twice (x : reminder) (l : list reminder) :
  upsert x (upsert x l) = upsert x l.
Proof.
  destruct (upsert_cases x l) as [(pre & old & post & -> & Ho & Hpre & ->)|[Hn ->]].
  - now apply upsert_present.
  - change (l ++ [x]) with (l ++ x :: []). apply upsert_present; [reflexivity|].
    intros y Hy E. apply Hn. rewrite <- E. unfold ids. now apply in_map.
Qed.

Lemma valid_statuses_inv (st : string) :
  includes validStatuses st = true -> In st validStatuses.
Proof.
  unfold includes, validStatuses. simpl. rewrite !orb_true_iff, !String.eqb_eq.
  intros [H|[H|[H|H]]]; [subst; auto ..|discriminate].
Qed.

Lemma normalize_stored_ok (now : Z) (r : reminder) :
  Storage.validation_error now r = None -> stored_ok (Storage.normalize now r).
Proof.
  intros Hv. destruct (validation_passes_inv _ _ Hv) as (Hid & Htext & (t & Ht & H0 & _) & Hst).
  unfold stored_ok. cbn [Storage.normalize id text scheduledTime createdAt status].
  split; [now apply truthy_str_true|]. split.
  - apply orb_false_iff in Htext. destruct Htext as [_ Hlen].
    intros E. rewrite E in Hlen. discriminate.
  - split.
    { exists t. rewrite Ht. unfold Storage.num_or, JS.truthy_num.
      pose proof H0 as H0'. apply Z.eqb_neq in H0'. rewrite H0'. now split. }
    split; [eexists; reflexivity|].
    eexists. split; [reflexivity|].
    unfold Storage.bad_status in Hst. unfold Storage.str_or.
    destruct (status r) as [st|]; [|left; reflexivity].
    destruct (JS.truthy_str st); [|left; reflexivity].
    simpl in Hst. apply negb_false_iff in Hst. now apply valid_statuses_inv.
Qed.

Lemma set_status_stored_ok (r : reminder) (st : string) :
  stored_ok r -> In st validStatuses -> stored_ok (set_status r st).
Proof.
  intros (H1 & H2 & H3 & H4 & _) Hst. unfold stored_ok. simpl.
  repeat split; auto. now exists st.
Qed.

Lemma upsert_forall (P : reminder -> Prop) (x : reminder) (l : list reminder) :
  P x -> Forall P l -> Forall P (upsert x l).
Proof.
  intros Hx Hl.
  destruct (upsert_cases x l) as [(pre & old & post & -> & _ & _ & ->)|[_ ->]].
  - apply Forall_app in Hl. destruct Hl as [Hpre Hpost].
    apply Forall_app. split; [exact Hpre|]. inversion Hpost; subst. now constructor.
  - apply Forall_app. split; [exact Hl|]. now repeat constructor.
Qed.

Lemma forall_filter (P : reminder -> Prop) (f : reminder -> bool) (l : list reminder) :
  Forall P l -> Forall P (filter f l).
Proof.
  intros H. apply Forall_forall. intros x Hx. apply filter_In in Hx.
  rewrite Forall_forall in H. now apply H.
Qed.

(** The worker's update, whatever the id: nothing, or the first record of
    that id with its status set. *)
Lemma worker_update_cases (i st : string) (s : state) :
  ServiceWorker.updateReminderStatus i st s = (Ok tt, s) /\ ~ In i (ids (stored s))
  \/ exists pre r post,
       stored s = pre ++ r :: post /\ id r = i /\ (forall x, In x pre -> id x <> i) /\
       ServiceWorker.updateReminderStatus i st s
       = (Ok tt, with_storage s (Some (pre ++ set_status r st :: post))).
Proof.
  destruct (find (same_id i) (stored s)) as [r|] eqn:Hf.
  - right. destruct (find_first_split _ _ _ Hf) as (pre & post & Hs & Hr & Hpre).
    apply same_id_true in Hr.
    assert (Hpre' : forall x, In x pre -> id x <> i)
      by (intros x Hx; apply same_id_false; auto).
    exists pre, r, post. repeat split; auto. now apply worker_update_at.
  - left. split; [now rewrite worker_update_run, Hf|].
    intros Hin. destruct (find_id_in _ _ Hin) as [r Hr]. congruence.
Qed.

(** The listener, whatever the name: nothing at all, or the display for
    the matched active record followed by the worker's update of its id. *)
Lemma onAlarm_cases (name : string) (s : state) :
  ServiceWorker.onAlarm name s = (Ok tt, s)
  \/ exists rid t r,
       ServiceWorker.parseAlarmName name = Some (rid, t) /\
       ServiceWorker.findReminder (stored s) rid t = Some r /\
       ServiceWorker.is_active r = true /\
       ServiceWorker.onAlarm name s
       = ServiceWorker.updateReminderStatus (id r) "completed"
           (snd (ServiceWorker.showNotification r s)).
Proof.
  destruct (ServiceWorker.parseAlarmName name) as [[rid t]|] eqn:Hp.
  - destruct (ServiceWorker.findReminder (stored s) rid t) as [r|] eqn:Hf.
    + pose proof (onAlarm_matched s name rid t r Hp Hf) as H.
      destruct (ServiceWorker.is_active r) eqn:Ha.
      * right. exists rid, t, r. repeat split; auto.
      * left. exact H.
    + left. unfold ServiceWorker.onAlarm.
      destruct (negb (JS.truthy_str name) || negb (JS.startsWith name "reminder-"));
        [reflexivity|].
      unfold try_catch, bind. rewrite Hp, worker_getAll.
      destruct (Z.of_nat (List.length (stored s)) =? 0); [reflexivity|].
      now rewrite Hf.
  - left. unfold ServiceWorker.onAlarm.
    destruct (negb (JS.truthy_str name) || negb (JS.startsWith name "reminder-"));
      [reflexivity|].
    unfold try_catch. now rewrite Hp.
Qed.

Lemma findReminder_in (rs : list reminder) (rid : string) (t : Z) (r : reminder) :
  ServiceWorker.findReminder rs rid t = Some r -> In r rs.
Proof.
  rewrite findReminder_run. destruct (find (same_id rid) rs) as [x|] eqn:F.
  - intros [= <-]. now apply find_some in F.
  - intros H. now apply find_some in H.
Qed.

Lemma replace_forall (P : reminder -> Prop) (pre post : list reminder) (a b : reminder) :
  Forall P (pre ++ a :: post) -> P b -> Forall P (pre ++ b :: post).
Proof.
  intros H Hb. apply Forall_app in H. destruct H as [Hpre Hpost].
  apply Forall_app. split; [exact Hpre|]. inversion Hpost; subst. now constructor.
Qed.

(** X4. Every record in the collection has an id, a text that is not
    blank, a time, a creation time and one of the three statuses, and this
    is kept by every operation of the shared store (save, remove,
    setStatus, failed or not) and by every alarm the worker handles.  It
    holds of the empty collection, so of every collection these writers
    produce. *)
Theorem stored_records_stay_well_formed (s : state) :
  Forall stored_ok (stored s) ->
  (forall o, Forall stored_ok (stored (snd (run_op o s)))) /\
  (forall name, Forall stored_ok (stored (snd (ServiceWorker.onAlarm name s)))).
Proof.
  intros Hok.
  assert (Hsave : forall r, Forall stored_ok (stored (snd (Storage.saveReminder r s)))).
  { intros r. rewrite save_run.
    destruct (Storage.validation_error (clock s) r) eqn:Hv; cbn [snd]; [exact Hok|].
    rewrite stored_with_storage. apply upsert_forall; [|exact Hok].
    now apply normalize_stored_ok. }
  split.
  - intros [r|i|i st]; simpl.
    + apply Hsave.
    + rewrite delete_run. destruct (negb (JS.truthy_str i)); cbn [snd]; [exact Hok|].
      rewrite stored_with_storage. now apply forall_filter.
    + rewrite update_run.
      destruct (negb (JS.truthy_str i) || negb (JS.truthy_str st)); [exact Hok|].
      destruct (negb (includes validStatuses st)); [exact Hok|].
      destruct (find (same_id i) (stored s)); [apply Hsave|exact Hok].
  - intros name. destruct (onAlarm_cases name s) as [->|(rid & t & r & _ & Hf & _ & ->)];
      [exact Hok|].
    set (s1 := snd (ServiceWorker.showNotification r s)).
    assert (Hs1 : stored s1 = stored s)
      by (unfold stored, s1; now rewrite showNotification_storage).
    destruct (worker_update_cases (id r) "completed" s1)
      as [[-> _]|(pre & r1 & post & Hs & _ & _ & ->)].
    + cbn [snd]. now rewrite Hs1.
    + cbn [snd]. rewrite stored_with_storage. rewrite Hs1 in Hs. rewrite Hs in Hok.
      apply (replace_forall _ pre post r1); [exact Hok|].
      apply set_status_stored_ok; [|right; left; reflexivity].
      apply Forall_app in Hok. destruct Hok as [_ Hpost]. now inversion Hpost.
Qed.

Lemma stored_records_stay_well_formed_witness :
  Forall stored_ok (stored (snd (run_op (Save bare) (browser 100 [])))).
Proof.
  apply (stored_records_stay_well_formed (browser 100 [])). constructor.
Defined.

Lemma normalize_fixed (now : Z) (r : reminder) (st : string) (c : Z) :
  Storage.validation_error now r = None ->
  createdAt r = Some c -> c <> 0 -> In st validStatuses ->
  Storage.normalize now (set_status r st) = set_status r st.
Proof.
  intros Hv Hc Hc0 Hst.
  destruct (validation_passes_inv _ _ Hv) as (_ & _ & (t & Ht & H0 & _) & _).
  destruct (valid_status_facts st Hst) as [Hts _].
  unfold Storage.normalize, set_status. cbn [id text scheduledTime createdAt status alarmName].
  rewrite Ht, Hc. unfold Storage.num_or, Storage.str_or, JS.truthy_num.
  apply Z.eqb_neq in H0. apply Z.eqb_neq in Hc0. now rewrite H0, Hc0, Hts.
Qed.

(** X5. On a record that still passes validation (its time ahead) and
    carries its creation time, the update of the shared store and the
    worker's own update do the same thing, for each of the three statuses:
    both rewrite the collection with the status of that record changed and
    nothing else. *)
Theorem status_updates_agree_on_future_records
        (s : state) (i st : string) (r : reminder) (c : Z) :
  find (same_id i) (stored s) = Some r ->
  Storage.validation_error (clock s) r = None ->
  createdAt r = Some c -> c <> 0 ->
  In st validStatuses ->
  Storage.updateReminderStatus i st s = ServiceWorker.updateReminderStatus i st s /\
  exists pre post,
    stored s = pre ++ r :: post /\
    Storage.updateReminderStatus i st s
    = (Ok tt, with_storage s (Some (pre ++ set_status r st :: post))).
Proof.
  intros Hf Hv Hc Hc0 Hst.
  destruct (find_first_split _ _ _ Hf) as (pre & post & Hs & Hr & Hpre).
  apply same_id_true in Hr.
  assert (Hpre' : forall x, In x pre -> id x <> i)
    by (intros x Hx; apply same_id_false; auto).
  destruct (valid_status_facts st Hst) as [Hts Hinc].
  destruct (validation_passes_inv _ _ Hv) as (Hid & _).
  assert (Hsh : Storage.updateReminderStatus i st s
                = (Ok tt, with_storage s (Some (pre ++ set_status r st :: post)))).
  { rewrite update_run, <- Hr, Hid, Hts, Hinc, Hr, Hf. simpl orb. cbv iota. simpl negb.
    cbv iota. rewrite save_run, (validation_set_status _ _ _ Hv Hst).
    rewrite (normalize_fixed _ _ _ _ Hv Hc Hc0 Hst), Hs.
    rewrite upsert_present; [reflexivity|reflexivity|].
    intros y Hy. cbn [set_status id]. rewrite Hr. now apply Hpre'. }
  split.
  - rewrite Hsh. symmetry. now apply worker_update_at.
  - exists pre, post. split; [exact Hs|exact Hsh].
Qed.

Lemma status_updates_agree_on_future_records_witness :
  Storage.updateReminderStatus "a" "dismissed" (browser 998 [late_active; oven])
  = ServiceWorker.updateReminderStatus "a" "dismissed" (browser 998 [late_active; oven]).
Proof.
  apply (status_updates_agree_on_future_records
           (browser 998 [late_active; oven]) "a" "dismissed" oven 1).
  - reflexivity.
  - reflexivity.
  - reflexivity.
  - discriminate.
  - right. right. left. reflexivity.
Defined.

(* ================================================================== *)
(** ** Alarms                                                          *)
(* ================================================================== *)

Lemma schedule_run (r : reminder) (s : state) :
  Alarms.scheduleReminder r s =
  if negb (JS.truthy_str (id r)) || negb (JS.truthy_num (scheduledTime r)) then
    (Throw "Invalid reminder object", s)
  else
    match scheduledTime r with
    | Some t =>
        if t <=? clock s then (Throw "Cannot schedule alarm for past time", s)
        else (Ok tt, with_alarms s
                       ((Alarms.createAlarmName r, t)
                          :: alarms_without (Alarms.createAlarmName r) (alarms s)))
    | None => (Throw "Invalid reminder object", s)
    end.
Proof.
  unfold Alarms.scheduleReminder.
  destruct (negb (JS.truthy_str (id r)) || negb (JS.truthy_num (scheduledTime r)));
    [reflexivity|].
  unfold bind, date_now. destruct (scheduledTime r) as [t|]; [|reflexivity].
  destruct (t <=? clock s); reflexivity.
Qed.

Lemma cancel_run (i : string) (t : option Z) (s : state) :
  Alarms.cancelReminderById i t s =
  if negb (JS.truthy_str i) || negb (JS.truthy_num t) then (Ok tt, s)
  else (Ok tt, with_alarms s (alarms_without (Alarms.alarm_name i t) (alarms s))).
Proof.
  unfold Alarms.cancelReminderById.
  destruct (negb (JS.truthy_str i) || negb (JS.truthy_num t)); reflexivity.
Qed.

Lemma alarms_without_names (n : string) (l : list (string * Z)) :
  ~ In n (map fst (alarms_without n l)).
Proof.
  unfold alarms_without. intros H. apply in_map_iff in H.
  destruct H as ([m t] & Hm & Hin). apply filter_In in Hin. destruct Hin as [_ Hf].
  unfold name_is in Hf. simpl in *. subst m. now rewrite String.eqb_refl in Hf.
Qed.

Lemma alarms_without_twice (n : string) (l : list (string * Z)) :
  alarms_without n (alarms_without n l) = alarms_without n l.
Proof.
  unfold alarms_without. induction l as [|a l IH]; simpl; [reflexivity|].
  destruct (negb (name_is n a)) eqn:E; simpl; [|exact IH]. now rewrite E, IH.
Qed.

Lemma alarms_without_cons_same (n : string) (w : Z) (l : list (string * Z)) :
  alarms_without n ((n, w) :: l) = alarms_without n l.
Proof.
  unfold alarms_without. cbn [filter]. unfold name_is at 1. cbn [fst].
  now rewrite String.eqb_refl.
Qed.

(** X7. Scheduling a record and then cancelling by its id and time leaves
    exactly the alarms that were there before, less any that already had
    the record's name: the alarm just registered is gone and no other alarm
    is touched. *)
Theorem schedule_then_cancel (s : state) (r : reminder) (t : Z) :
  id r <> ""%string -> scheduledTime r = Some t -> t <> 0 -> clock s < t ->
  (Alarms.scheduleReminder r ;; Alarms.cancelReminderById (id r) (scheduledTime r))%js s
  = (Ok tt, with_alarms s (alarms_without (Alarms.createAlarmName r) (alarms s))) /\
  ~ In (Alarms.createAlarmName r)
       (map fst (alarms_without (Alarms.createAlarmName r) (alarms s))).
Proof.
  intros Hid Ht H0 Hnow. split; [|apply alarms_without_names].
  apply truthy_str_true in Hid.
  assert (Htn : JS.truthy_num (Some t) = true)
    by (unfold JS.truthy_num; apply Z.eqb_neq in H0; now rewrite H0).
  unfold bind. rewrite schedule_run, Hid, Ht, Htn. simpl orb. cbv iota.
  assert (E : (t <=? clock s) = false) by now apply Z.leb_gt. rewrite E.
  rewrite cancel_run, Hid, Htn. simpl orb. cbv iota. st_simpl.
  unfold Alarms.createAlarmName. rewrite Ht.
  now rewrite alarms_without_cons_same, alarms_without_twice.
Qed.

Lemma schedule_then_cancel_witness :
  (Alarms.scheduleReminder oven ;; Alarms.cancelReminderById "a" (Some 1000))%js
    (browser 998 [oven])
  = (Ok tt, browser 998 [oven]).
Proof.
  apply (schedule_then_cancel (browser 998 [oven]) oven 1000).
  - discriminate.
  - reflexivity.
  - discriminate.
  - simpl. lia.
Defined.

Lemma alarms_without_nodup (n : string) (l : list (string * Z)) :
  NoDup (map fst l) -> NoDup (map fst (alarms_without n l)).
Proof.
  unfold alarms_without. induction l as [|a l IH]; simpl; intros H; [constructor|].
  inversion H as [|? ? Ha Hl]; subst.
  destruct (negb (name_is n a)); simpl; auto.
  constructor; auto. intros Hin. apply Ha.
  apply in_map_iff in Hin. destruct Hin as (b & Hb & Hin).
  apply filter_In in Hin. rewrite <- Hb. apply in_map. tauto.
Qed.

(** X8. No two registered alarms share a name, and this is kept by
    scheduling and by cancelling, whether they succeed or not. *)
Theorem alarm_names_stay_unique (s : state) :
  NoDup (alarm_names s) ->
  (forall r, NoDup (alarm_names (snd (Alarms.scheduleReminder r s)))) /\
  (forall i t, NoDup (alarm_names (snd (Alarms.cancelReminderById i t s)))).
Proof.
  unfold alarm_names. intros H. split.
  - intros r. rewrite schedule_run.
    destruct (negb (JS.truthy_str (id r)) || negb (JS.truthy_num (scheduledTime r)));
      [exact H|].
    destruct (scheduledTime r) as [t|]; [|exact H].
    destruct (t <=? clock s); [exact H|]. st_simpl. cbn [map fst].
    constructor; [apply alarms_without_names|now apply alarms_without_nodup].
  - intros i t. rewrite cancel_run.
    destruct (negb (JS.truthy_str i) || negb (JS.truthy_num t)); [exact H|].
    st_simpl. now apply alarms_without_nodup.
Qed.

Lemma alarm_names_stay_unique_witness :
  NoDup (alarm_names (snd (Alarms.scheduleReminder oven dashboard_998))).
Proof.
  apply (alarm_names_stay_unique dashboard_998).
  unfold alarm_names. simpl. repeat constructor. intros [].
Defined.

Lemma append_inj_length (a b x y : string) :
  String.length a = String.length b ->
  (a ++ x)%string = (b ++ y)%string -> a = b /\ x = y.
Proof.
  revert b. induction a as [|c a IH]; intros [|d b] Hlen H; simpl in *;
    try discriminate.
  - now split.
  - injection H as Hc Hrest. injection Hlen as Hlen.
    destruct (IH b Hlen Hrest) as [-> ->]. now subst.
Qed.

(** X9. Alarm names tell reminders apart: two names built from ids and
    positive times are equal only when the ids are equal and the times are
    equal, hyphens inside the ids notwithstanding.  So cancelling one
    reminder's alarm never clears another's. *)
Theorem alarm_name_injective (i j : string) (t u : Z) :
  0 < t -> 0 < u ->
  Alarms.alarm_name i (Some t) = Alarms.alarm_name j (Some u) ->
  i = j /\ t = u.
Proof.
  intros Ht Hu H.
  destruct (string_of_Z_spec t Ht) as (_ & Hta & Htv).
  destruct (string_of_Z_spec u Hu) as (_ & Hua & Huv).
  unfold Alarms.alarm_name in H. cbn [JS.string_of_num] in H.
  assert (H' : (i ++ String "-" (JS.string_of_Z t))%string
               = (j ++ String "-" (JS.string_of_Z u))%string).
  { simpl in H. now injection H. }
  assert (Hlen : String.length i = String.length j).
  { pose proof (lastIndexOf_separator i _ (all_digits_no_dash _ Hta)) as Li.
    pose proof (lastIndexOf_separator j _ (all_digits_no_dash _ Hua)) as Lj.
    rewrite H' in Li. rewrite Li in Lj. unfold JS.length in Lj. lia. }
  destruct (append_inj_length _ _ _ _ Hlen H') as [Hij Hds].
  split; [exact Hij|]. injection Hds as Hds. rewrite <- Htv, <- Huv. now rewrite Hds.
Qed.

Lemma alarm_name_injective_witness :
  "a-1"%string = "a-1"%string /\ 25 = 25.
Proof.
  apply (alarm_name_injective "a-1" "a-1" 25 25); [lia|lia|reflexivity].
Defined.

(* ================================================================== *)
(** ** More of the service worker                                      *)
(* ================================================================== *)

Lemma prefix_split (p s : string) :
  String.prefix p s = true -> exists rest, s = (p ++ rest)%string.
Proof.
  revert s. induction p as [|a p IH]; intros s H.
  - now exists s.
  - destruct s as [|b s]; [discriminate|]. simpl in H.
    destruct (ascii_dec a b) as [<-|]; [|discriminate].
    destruct (IH s H) as [rest ->]. now exists rest.
Qed.

Lemma lastIndexOf_lt_length (c : ascii) (s : string) :
  JS.lastIndexOf c s < JS.length s \/ (JS.lastIndexOf c s = -1 /\ s = ""%string).
Proof.
  unfold JS.length. induction s as [|a s IH]; [right; now split|left].
  cbn [JS.lastIndexOf String.length].
  destruct (0 <=? JS.lastIndexOf c s) eqn:E.
  - destruct IH as [IH|[IH _]]; [lia|]. rewrite IH in E. discriminate.
  - destruct (Ascii.eqb a c); lia.
Qed.

(** What a successful parse returns: a positive time and an id that begins
    with the hyphen of the prefix. *)
Lemma parse_some_facts (name rid : string) (t : Z) :
  ServiceWorker.parseAlarmName name = Some (rid, t) ->
  0 < t /\ starts_with_dash rid = true /\ JS.startsWith name "reminder-" = true.
Proof.
  unfold ServiceWorker.parseAlarmName.
  destruct (JS.startsWith name "reminder-") eqn:Hpre;
    [|rewrite orb_true_r; discriminate].
  destruct (negb (JS.truthy_str name)); [discriminate|]. simpl orb. cbv iota.
  destruct ((JS.lastIndexOf "-" name =? -1) || (JS.lastIndexOf "-" name <=? 8)) eqn:Hidx;
    [discriminate|].
  apply orb_false_iff in Hidx. destruct Hidx as [_ Hgt]. apply Z.leb_gt in Hgt.
  destruct (JS.parseInt _) as [v|]; [|discriminate].
  destruct (v <=? 0) eqn:Hv; [discriminate|]. apply Z.leb_gt in Hv.
  destruct (negb (JS.truthy_str _) || _); [discriminate|].
  intros [= <- <-]. split; [exact Hv|]. split; [|reflexivity].
  destruct (prefix_split _ _ Hpre) as [rest Hname].
  destruct (lastIndexOf_lt_length "-" name) as [Hlt|[Hm _]]; [|lia].
  rewrite js_substring_in_range by lia.
  destruct (Z.to_nat (JS.lastIndexOf "-" name - 8)) as [|m] eqn:Em; [lia|].
  rewrite Hname. reflexivity.
Qed.

Lemma find_same_id_dash (rid : string) (rs : list reminder) :
  starts_with_dash rid = true ->
  (forall r, In r rs -> starts_with_dash (id r) = false) ->
  find (same_id rid) rs = None.
Proof.
  intros Hd Hrs. apply find_id_none. intros Hin. unfold ids in Hin.
  apply in_map_iff in Hin. destruct Hin as (r & Hr & Hin).
  pose proof (Hrs r Hin) as H. rewrite Hr in H. congruence.
Qed.

(** X10. Whatever name it is given, [parseAlarmName] never returns an id
    that does not begin with a hyphen, nor a time that is not positive.
    So on a collection whose ids do not begin with a hyphen (those of
    [generateReminderId] begin with "reminder-") the lookup by exact id
    finds nothing, and [findReminder] after a parse is the first record
    within a second of the encoded time. *)
Theorem parsed_id_never_matches (name rid : string) (t : Z) (rs : list reminder) :
  ServiceWorker.parseAlarmName name = Some (rid, t) ->
  0 < t /\ starts_with_dash rid = true /\
  ((forall r, In r rs -> starts_with_dash (id r) = false) ->
   ServiceWorker.findReminder rs rid t = find (ServiceWorker.near t) rs).
Proof.
  intros Hp. destruct (parse_some_facts _ _ _ Hp) as (Ht & Hd & _).
  split; [exact Ht|]. split; [exact Hd|].
  intros Hrs. rewrite findReminder_run. now rewrite (find_same_id_dash rid rs Hd Hrs).
Qed.

Lemma parsed_id_never_matches_witness :
  ServiceWorker.findReminder [oven; late_active] "-a" 1000
  = find (ServiceWorker.near 1000) [oven; late_active].
Proof.
  destruct (parsed_id_never_matches "reminder-a-1000" "-a" 1000 [oven; late_active] eq_refl)
    as (_ & _ & H).
  apply H. intros r [<-|[<-|[]]]; reflexivity.
Defined.

(** X11. The listener never raises, whatever the name and the state.  It
    never adds or removes a record or reorders the collection (the ids
    stay as they were), never touches the alarms or the page, and shows at
    most one notification. *)
Theorem onAlarm_frame (name : string) (s : state) :
  exists s',
    ServiceWorker.onAlarm name s = (Ok tt, s') /\
    ids (stored s') = ids (stored s) /\
    alarms s' = alarms s /\
    (notifications s' = notifications s
     \/ exists n, notifications s' = notifications s ++ [n]) /\
    s' = with_notifications (with_storage s (storage s')) (notifications s').
Proof.
  destruct (onAlarm_cases name s) as [H|(rid & t & r & _ & _ & _ & H)].
  - exists s. rewrite H. repeat split; auto. now destruct s.
  - rewrite H. set (s1 := snd (ServiceWorker.showNotification r s)).
    assert (Hs1 : s1 = s
                  \/ exists n, s1 = with_notifications s (notifications s ++ [n])).
    { unfold s1. rewrite showNotification_run. cbn [snd].
      destruct (permission_denied s); [now left|].
      destruct (create_rejects s _); [|right; eexists; reflexivity].
      destruct (create_rejects s _); [now left|right; eexists; reflexivity]. }
    assert (Hfr : stored s1 = stored s /\ alarms s1 = alarms s /\
                  (notifications s1 = notifications s
                   \/ exists n, notifications s1 = notifications s ++ [n]) /\
                  forall v, with_storage s1 v
                            = with_notifications (with_storage s v) (notifications s1)).
    { destruct Hs1 as [->|[n ->]].
      - repeat split; auto.
      - repeat split; auto. right. now exists n. }
    destruct Hfr as (Hst & Hal & Hno & Hw).
    destruct (worker_update_cases (id r) "completed" s1)
      as [[-> _]|(pre & r1 & post & Hs & _ & _ & ->)].
    + exists s1. repeat split; auto.
      * now rewrite Hst.
      * destruct Hs1 as [->|[n ->]]; now destruct s.
    + eexists. split; [reflexivity|]. st_simpl. rewrite stored_with_storage.
      repeat split; auto.
      rewrite <- Hst, Hs. now apply ids_replace.
Qed.

(** X12. The listener acts only on a name that parses and resolves to an
    active record: for a name of another alarm, a malformed name, an empty
    collection, a time that matches nothing, or a matched record that is
    not active, the state after the event is the state before. *)
Theorem onAlarm_acts_only_on_active_match (name : string) (s : state) :
  (forall rid t r,
      ServiceWorker.parseAlarmName name = Some (rid, t) ->
      ServiceWorker.findReminder (stored s) rid t = Some r ->
      ServiceWorker.is_active r = false) ->
  ServiceWorker.onAlarm name s = (Ok tt, s).
Proof.
  intros H. destruct (onAlarm_cases name s) as [E|(rid & t & r & Hp & Hf & Ha & _)];
    [exact E|].
  rewrite (H rid t r Hp Hf) in Ha. discriminate.
Qed.

Lemma onAlarm_acts_only_on_active_match_witness :
  ServiceWorker.onAlarm "reminder-123" (browser 1000 [oven]) = (Ok tt, browser 1000 [oven]).
Proof.
  apply (onAlarm_acts_only_on_active_match "reminder-123" (browser 1000 [oven])).
  intros rid t r Hp. discriminate Hp.
Defined.

Lemma nodup_ids_same (l : list reminder) (a b : reminder) :
  NoDup (ids l) -> In a l -> In b l -> id a = id b -> a = b.
Proof.
  unfold ids. induction l as [|x l IH]; simpl; intros Hnd Ha Hb E; [contradiction|].
  inversion Hnd as [|? ? Hx Hl]; subst.
  destruct Ha as [<-|Ha], Hb as [<-|Hb]; auto.
  - exfalso. apply Hx. rewrite E. now apply in_map.
  - exfalso. apply Hx. rewrite <- E. now apply in_map.
Qed.

Lemma find_replace_found (p : reminder -> bool) (f : reminder -> reminder)
      (pre post : list reminder) (r : reminder) :
  (forall x, p (f x) = p x) -> ~ In r pre ->
  find p (pre ++ r :: post) = Some r ->
  find p (pre ++ f r :: post) = Some (f r).
Proof.
  intros Hp. induction pre as [|x pre IH]; simpl; intros Hn H.
  - rewrite Hp. destruct (p r) eqn:E; [reflexivity|].
    apply find_some in H. destruct H as [_ Hr]. congruence.
  - destruct (p x).
    + injection H as ->. tauto.
    + apply IH; tauto.
Qed.

Lemma find_replace_none (p : reminder -> bool) (f : reminder -> reminder)
      (pre post : list reminder) (r : reminder) :
  (forall x, p (f x) = p x) ->
  find p (pre ++ r :: post) = None -> find p (pre ++ f r :: post) = None.
Proof.
  intros Hp. induction pre as [|x pre IH]; simpl.
  - rewrite Hp. now destruct (p r).
  - now destruct (p x).
Qed.

Lemma onAlarm_acts_only_on_active_aux (name : string) (s : state)
      (rid : string) (t : Z) (r : reminder) :
  ServiceWorker.parseAlarmName name = Some (rid, t) ->
  ServiceWorker.findReminder (stored s) rid t = Some r ->
  ServiceWorker.is_active r = false ->
  ServiceWorker.onAlarm name s = (Ok tt, s).
Proof.
  intros Hp Hf Ha. rewrite (onAlarm_matched s name rid t r Hp Hf). now rewrite Ha.
Qed.

(** X13. A duplicate fire is harmless: in a collection with one record per
    id, handling the same alarm a second time leaves the state the first
    handling produced: no second notification, no further change. *)
Theorem onAlarm_duplicate_fire (name : string) (s : state) :
  NoDup (ids (stored s)) ->
  ServiceWorker.onAlarm name (snd (ServiceWorker.onAlarm name s))
  = (Ok tt, snd (ServiceWorker.onAlarm name s)).
Proof.
  intros Hnd.
  destruct (onAlarm_cases name s) as [E|(rid & t & r & Hp & Hf & Ha & E)].
  - rewrite E. cbn [snd]. exact E.
  - rewrite E. set (s1 := snd (ServiceWorker.showNotification r s)).
    assert (Hst : stored s1 = stored s)
      by (unfold stored, s1; now rewrite showNotification_storage).
    pose proof (findReminder_in _ _ _ _ Hf) as Hin.
    destruct (worker_update_cases (id r) "completed" s1)
      as [[_ Hno]|(pre & r1 & post & Hs & Hr1 & Hpre & ->)].
    + exfalso. apply Hno. rewrite Hst. unfold ids. now apply in_map.
    + cbn [snd]. rewrite Hst in Hs.
      assert (Hr : r1 = r).
      { apply (nodup_ids_same (stored s)); auto. rewrite Hs. apply in_or_app.
        right. now left. }
      subst r1.
      assert (Hnpre : ~ In r pre).
      { intros Hi. now apply (Hpre r Hi). }
      apply (onAlarm_acts_only_on_active_aux name _ rid t (set_status r "completed") Hp);
        [|reflexivity].
      rewrite stored_with_storage. rewrite Hs, findReminder_run in Hf.
      rewrite findReminder_run.
      destruct (find (same_id rid) (pre ++ r :: post)) as [x|] eqn:F.
      * injection Hf as ->.
        now rewrite (find_replace_found (same_id rid) (fun y => set_status y "completed")
                       pre post r (fun y => eq_refl) Hnpre F).
      * rewrite (find_replace_none (same_id rid) (fun y => set_status y "completed")
                   pre post r (fun y => eq_refl) F).
        now apply (find_replace_found (ServiceWorker.near t)
                     (fun y => set_status y "completed")
                     pre post r (fun y => eq_refl) Hnpre).
Qed.

Lemma onAlarm_duplicate_fire_witness :
  ServiceWorker.onAlarm "reminder-b-5000"
    (snd (ServiceWorker.onAlarm "reminder-b-5000" (browser 5000 [oven_done; late_active])))
  = (Ok tt, snd (ServiceWorker.onAlarm "reminder-b-5000"
                   (browser 5000 [oven_done; late_active]))).
Proof.
  apply (onAlarm_duplicate_fire "reminder-b-5000" (browser 5000 [oven_done; late_active])).
  simpl. repeat constructor; simpl; intuition discriminate.
Defined.

(* ================================================================== *)
(** ** The dashboard and the popup                                     *)
(* ================================================================== *)

Lemma trimEnd_idempotent (s : string) : JS.trimEnd (JS.trimEnd s) = JS.trimEnd s.
Proof.
  induction s as [|c s IH]; [reflexivity|].
  cbn [JS.trimEnd].
  destruct (JS.is_whitespace c && JS.is_empty (JS.trimEnd s)) eqn:E; [reflexivity|].
  cbn [JS.trimEnd]. rewrite IH. now rewrite E.
Qed.

Lemma trimStart_head (s : string) :
  match JS.trimStart s with
  | EmptyString => True
  | String c _ => JS.is_whitespace c = false
  end.
Proof.
  induction s as [|c s IH]; simpl; [exact I|].
  destruct (JS.is_whitespace c) eqn:E; [exact IH|exact E].
Qed.

Lemma trim_head (s : string) :
  match JS.trim s with
  | EmptyString => True
  | String c _ => JS.is_whitespace c = false
  end.
Proof.
  unfold JS.trim. pose proof (trimStart_head s) as H.
  destruct (JS.trimStart s) as [|c r]; [exact I|].
  cbn [JS.trimEnd]. now rewrite H.
Qed.

(** [trim] is idempotent. *)
Lemma trim_idempotent (s : string) : JS.trim (JS.trim s) = JS.trim s.
Proof.
  pose proof (trim_head s) as H. unfold JS.trim at 1.
  assert (Hs : JS.trimStart (JS.trim s) = JS.trim s).
  { destruct (JS.trim s) as [|c r]; [reflexivity|]. simpl. now rewrite H. }
  rewrite Hs. unfold JS.trim. apply trimEnd_idempotent.
Qed.

Lemma cancel_ok (i : string) (t : option Z) (s : state) :
  Alarms.cancelReminderById i t s = (Ok tt, snd (Alarms.cancelReminderById i t s)).
Proof.
  rewrite cancel_run. now destruct (negb (JS.truthy_str i) || negb (JS.truthy_num t)).
Qed.

(** A failed update of the shared store leaves the state as it was. *)
Lemma update_throw_unchanged (i st : string) (s s' : state) (msg : string) :
  Storage.updateReminderStatus i st s = (Throw msg, s') -> s' = s.
Proof.
  rewrite update_run.
  destruct (negb (JS.truthy_str i) || negb (JS.truthy_str st)); [congruence|].
  destruct (negb (includes validStatuses st)); [congruence|].
  destruct (find (same_id i) (stored s)); [|congruence].
  apply saveReminder_throw_unchanged.
Qed.

Lemma handleDismiss_run (i : string) (s : state) (r : reminder) :
  find (same_id i) (reminders s) = Some r ->
  Options.handleDismiss i s =
  match Storage.updateReminderStatus i "dismissed"
          (snd (Alarms.cancelReminderById (id r) (scheduledTime r)
                  (with_lastDismissed s (Some r)))) with
  | (Ok _, s3) => (Ok tt, page_done s3 "Reminder dismissed" "undo")
  | (Throw _, s3) => (Ok tt, page_failed s3 "Unable to dismiss reminder")
  end.
Proof.
  intros Hf. unfold Options.handleDismiss. unfold bind at 1.
  unfold Options.get_reminders. rewrite Hf.
  unfold try_catch, bind, Options.set_lastDismissed.
  rewrite cancel_ok.
  destruct (Storage.updateReminderStatus i "dismissed" _) as [[[]|msg] s3]; reflexivity.
Qed.

Lemma handleUndoDismiss_run (s : state) (r : reminder) :
  lastDismissedReminder s = Some r ->
  Options.handleUndoDismiss s =
  match Storage.updateReminderStatus (id r) "active" s with
  | (Throw _, s1) => (Ok tt, page_failed s1 "Unable to restore reminder")
  | (Ok _, s1) =>
      if Options.num_gtb (scheduledTime r) (clock s1) then
        let r' := set_alarmName r (Alarms.createAlarmName r) in
        match Alarms.scheduleReminder r' (with_lastDismissed s1 (Some r')) with
        | (Ok _, s2) =>
            (Ok tt, page_done (with_lastDismissed s2 None) "Reminder restored" "success")
        | (Throw _, s2) => (Ok tt, page_failed s2 "Unable to restore reminder")
        end
      else (Ok tt, page_done (with_lastDismissed s1 None) "Reminder restored" "success")
  end.
Proof.
  intros Hl. unfold Options.handleUndoDismiss. unfold bind at 1.
  unfold Options.get_lastDismissed. rewrite Hl.
  unfold try_catch. unfold bind at 1.
  destruct (Storage.updateReminderStatus (id r) "active" s) as [[[]|msg] s1];
    [|reflexivity].
  unfold bind at 1. unfold date_now at 1.
  destruct (Options.num_gtb (scheduledTime r) (clock s1)).
  - unfold bind, Options.set_lastDismissed. cbv zeta.
    destruct (Alarms.scheduleReminder _ _) as [[[]|msg] s2]; reflexivity.
  - reflexivity.
Qed.

Lemma find_same_id_eq (i : string) (l : list reminder) (r : reminder) :
  find (same_id i) l = Some r -> id r = i.
Proof.
  intros H. apply find_some in H. now apply same_id_true.
Qed.

(** The update of the shared store on a record that passes validation. *)
Lemma update_valid_run (i st : string) (s : state) (r : reminder) :
  find (same_id i) (stored s) = Some r ->
  Storage.validation_error (clock s) r = None ->
  In st validStatuses ->
  Storage.updateReminderStatus i st s
  = (Ok tt, with_storage s
              (Some (upsert (Storage.normalize (clock s) (set_status r st)) (stored s)))).
Proof.
  intros Hf Hv Hst. destruct (valid_status_facts st Hst) as [Hts Hinc].
  destruct (validation_passes_inv _ _ Hv) as (Hid & _).
  rewrite (find_same_id_eq _ _ _ Hf) in Hid.
  rewrite update_run, Hid, Hts, Hinc, Hf. simpl orb. cbv iota. simpl negb. cbv iota.
  now rewrite save_run, (validation_set_status _ _ _ Hv Hst).
Qed.

Lemma in_dismissed : In "dismissed"%string validStatuses.
Proof. right. right. left. reflexivity. Qed.

Lemma in_active : In "active"%string validStatuses.
Proof. left. reflexivity. Qed.

Lemma handleDismiss_future_aux (s : state) (i : string) (r : reminder) :
  find (same_id i) (reminders s) = Some r ->
  find (same_id i) (stored s) = Some r ->
  Storage.validation_error (clock s) r = None ->
  Options.handleDismiss i s
  = (Ok tt,
     page_done
       (with_storage
          (with_alarms (with_lastDismissed s (Some r))
                       (alarms_without (Alarms.createAlarmName r) (alarms s)))
          (Some (upsert (Storage.normalize (clock s) (set_status r "dismissed"))
                        (stored s))))
       "Reminder dismissed" "undo").
Proof.
  intros Hp Hf Hv.
  destruct (validation_passes_inv _ _ Hv) as (Hid & _ & (t & Ht & H0 & _) & _).
  rewrite (handleDismiss_run i s r Hp).
  rewrite cancel_run, Hid, Ht.
  assert (Htn : JS.truthy_num (Some t) = true)
    by (unfold JS.truthy_num; apply Z.eqb_neq in H0; now rewrite H0).
  rewrite Htn. simpl orb. cbv iota. cbn [snd].
  set (s2 := with_alarms (with_lastDismissed s (Some r))
                         (alarms_without (Alarms.alarm_name (id r) (Some t))
                                         (alarms (with_lastDismissed s (Some r))))).
  rewrite (update_valid_run i "dismissed" s2 r Hf Hv in_dismissed).
  unfold s2, Alarms.createAlarmName. now rewrite Ht.
Qed.

(** X14. Dismissing a reminder that the page lists and the store holds,
    its time still ahead: the handler succeeds, the stored record of that
    id gets status dismissed (its other fields as normalization leaves
    them), the alarm under the record's name is cleared, the record as it
    was is remembered for undo, and the page's list is read again. *)
Theorem handleDismiss_future_record (s : state) (i : string) (r : reminder) :
  find (same_id i) (reminders s) = Some r ->
  find (same_id i) (stored s) = Some r ->
  Storage.validation_error (clock s) r = None ->
  exists s',
    Options.handleDismiss i s = (Ok tt, s') /\
    stored s' = upsert (Storage.normalize (clock s) (set_status r "dismissed")) (stored s) /\
    Storage.getReminder i s'
    = (Ok (Some (Storage.normalize (clock s) (set_status r "dismissed"))), s') /\
    alarms s' = alarms_without (Alarms.createAlarmName r) (alarms s) /\
    lastDismissedReminder s' = Some r /\
    reminders s' = stored s' /\
    messages s' = messages s ++ [("Reminder dismissed"%string, "undo"%string)].
Proof.
  intros Hp Hf Hv. eexists. split; [exact (handleDismiss_future_aux s i r Hp Hf Hv)|].
  unfold page_done. st_simpl. split; [reflexivity|]. split; [|repeat split].
  destruct (validation_passes_inv _ _ Hv) as (Hid & _).
  pose proof (find_same_id_eq _ _ _ Hf) as Hi.
  rewrite getReminder_run, <- Hi, Hid. simpl negb. cbv iota.
  unfold stored at 1. st_simpl.
  change (id r) with (id (Storage.normalize (clock s) (set_status r "dismissed"))) at 1.
  now rewrite upsert_find.
Qed.

Lemma handleDismiss_future_record_witness :
  exists s',
    Options.handleDismiss "a" dashboard_998 = (Ok tt, s') /\
    stored s' = [set_status oven "dismissed"] /\
    alarms s' = [] /\
    lastDismissedReminder s' = Some oven.
Proof.
  destruct (handleDismiss_future_record dashboard_998 "a" oven eq_refl eq_refl eq_refl)
    as (s' & H1 & H2 & _ & H4 & H5 & _).
  exists s'. split; [exact H1|]. split; [exact H2|]. split; [exact H4|exact H5].
Defined.

(** X15. Dismissing an overdue reminder fails half-way: the alarm of the
    listed record is cleared and the record is remembered for undo before
    the status update raises, so the handler ends with the failure message
    while the stored collection, status included, is what it was. *)
Theorem handleDismiss_overdue_record (s : state) (i : string) (r r0 : reminder) (t : Z) :
  i <> ""%string ->
  find (same_id i) (reminders s) = Some r ->
  find (same_id i) (stored s) = Some r0 ->
  scheduledTime r0 = Some t -> t <= clock s ->
  exists s',
    Options.handleDismiss i s = (Ok tt, s') /\
    storage s' = storage s /\
    lastDismissedReminder s' = Some r /\
    alarms s' = (if JS.truthy_num (scheduledTime r)
                 then alarms_without (Alarms.createAlarmName r) (alarms s)
                 else alarms s) /\
    reminders s' = reminders s /\
    messages s' = messages s ++ [("Unable to dismiss reminder"%string, "error"%string)].
Proof.
  intros Hi Hp Hf Ht Hle.
  rewrite (handleDismiss_run i s r Hp).
  set (s2 := snd (Alarms.cancelReminderById (id r) (scheduledTime r)
                    (with_lastDismissed s (Some r)))).
  assert (Hs2 : storage s2 = storage s /\ lastDismissedReminder s2 = Some r /\
                reminders s2 = reminders s /\ messages s2 = messages s /\
                clock s2 = clock s /\
                alarms s2 = (if JS.truthy_num (scheduledTime r)
                             then alarms_without (Alarms.createAlarmName r) (alarms s)
                             else alarms s)).
  { unfold s2. rewrite cancel_run.
    pose proof (find_same_id_eq _ _ _ Hp) as Hr. apply truthy_str_true in Hi.
    rewrite Hr, Hi. simpl orb.
    destruct (JS.truthy_num (scheduledTime r)); simpl negb; cbv iota; cbn [snd];
      repeat split; try reflexivity.
    unfold Alarms.createAlarmName. now rewrite Hr. }
  destruct Hs2 as (H1 & H2 & H3 & H4 & H5 & H6).
  assert (Hu : exists msg, Storage.updateReminderStatus i "dismissed" s2 = (Throw msg, s2)).
  { rewrite update_run. apply truthy_str_true in Hi. rewrite Hi. simpl.
    assert (Hst : stored s2 = stored s) by (unfold stored; now rewrite H1).
    rewrite Hst, Hf, save_run.
    destruct (Storage.validation_error (clock s2) (set_status r0 "dismissed"))
      as [msg|] eqn:Ev; [now exists msg|].
    exfalso. destruct (validation_passes_inv _ _ Ev) as (_ & _ & (t' & Ht' & _ & Hnow) & _).
    simpl in Ht'. rewrite Ht in Ht'. injection Ht' as <-. lia. }
  destruct Hu as [msg ->].
  eexists. split; [reflexivity|]. unfold page_failed. st_simpl.
  repeat split; auto. now rewrite H4.
Qed.

Lemma handleDismiss_overdue_record_witness :
  exists s',
    Options.handleDismiss "a"
      (with_alarms (browser 2000 [oven]) [("reminder-a-1000"%string, 1000)]) = (Ok tt, s') /\
    stored s' = [oven] /\ alarms s' = [] /\ lastDismissedReminder s' = Some oven.
Proof.
  destruct (handleDismiss_overdue_record
              (with_alarms (browser 2000 [oven]) [("reminder-a-1000"%string, 1000)])
              "a" oven oven 1000)
    as (s' & H1 & H2 & H3 & H4 & _).
  - discriminate.
  - reflexivity.
  - reflexivity.
  - reflexivity.
  - simpl. lia.
  - exists s'. split; [exact H1|]. split; [unfold stored; now rewrite H2|].
    split; [exact H4|exact H3].
Defined.



Lemma delete_ok (i : string) (s : state) :
  Storage.deleteReminder i s = (Ok tt, snd (Storage.deleteReminder i s)).
Proof. rewrite delete_run. now destruct (negb (JS.truthy_str i)). Qed.

Lemma handleDelete_run (i : string) (t : option Z) (s : state) :
  Dashboard.handleDelete i t true s
  = (Ok tt, page_done (snd (Storage.deleteReminder i
                              (snd (Alarms.cancelReminderById i t s))))
                      "Reminder deleted" "success").
Proof.
  unfold Dashboard.handleDelete. change (negb true) with false. cbv iota.
  unfold try_catch, bind.
  pose proof (cancel_ok i t s) as Hc.
  destruct (Alarms.cancelReminderById i t s) as [rc s1]. cbn [snd] in *.
  injection Hc as ->.
  pose proof (delete_ok i s1) as Hd.
  destruct (Storage.deleteReminder i s1) as [rd s2]. cbn [snd] in *.
  injection Hd as ->. reflexivity.
Qed.

(** X18. Deleting from the dashboard, once confirmed: for a non-empty id
    the handler succeeds whether or not the id is stored; afterwards no
    record has that id, the other records are as before, the alarm named
    after the id and the time of the button is cleared, and the page's list
    is read again.  Declined, it does nothing. *)
Theorem handleDelete_removes_record_and_alarm (s : state) (i : string) (t : option Z) :
  Dashboard.handleDelete i t false s = (Ok tt, s) /\
  (i <> ""%string ->
   exists s',
     Dashboard.handleDelete i t true s = (Ok tt, s') /\
     stored s' = filter (fun r => negb (same_id i r)) (stored s) /\
     ~ In i (ids (stored s')) /\
     alarms s' = (if JS.truthy_num t
                  then alarms_without (Alarms.alarm_name i t) (alarms s)
                  else alarms s) /\
     (JS.truthy_num t = true -> ~ In (Alarms.alarm_name i t) (alarm_names s')) /\
     reminders s' = stored s' /\
     messages s' = messages s ++ [("Reminder deleted"%string, "success"%string)]).
Proof.
  split; [reflexivity|]. intros Hi. apply truthy_str_true in Hi.
  rewrite handleDelete_run, delete_run, cancel_run, Hi. simpl orb.
  eexists. split; [reflexivity|]. unfold page_done.
  destruct (JS.truthy_num t) eqn:Et; simpl negb; cbv iota; st_simpl;
    rewrite ?stored_with_storage.
  - split; [reflexivity|]. split.
    + unfold ids. intros Hin. apply in_map_iff in Hin. destruct Hin as (y & Hy & Hin).
      apply filter_In in Hin. destruct Hin as [_ Hf].
      apply negb_true_iff, same_id_false in Hf. contradiction.
    + split; [reflexivity|]. split; [|split; reflexivity].
      intros _. unfold alarm_names. st_simpl. apply alarms_without_names.
  - split; [reflexivity|]. split.
    + unfold ids. intros Hin. apply in_map_iff in Hin. destruct Hin as (y & Hy & Hin).
      apply filter_In in Hin. destruct Hin as [_ Hf].
      apply negb_true_iff, same_id_false in Hf. contradiction.
    + split; [reflexivity|]. split; [discriminate|split; reflexivity].
Qed.

Lemma handleDelete_removes_record_and_alarm_witness :
  exists s',
    Dashboard.handleDelete "a" (Some 1000) true dashboard_998 = (Ok tt, s') /\
    stored s' = [] /\ alarms s' = [].
Proof.
  destruct (handleDelete_removes_record_and_alarm dashboard_998 "a" (Some 1000)) as [_ H].
  destruct H as (s' & H1 & H2 & _ & H4 & _); [discriminate|].
  exists s'. split; [exact H1|]. split; [exact H2|exact H4].
Defined.

Lemma validate_future_run (dt : string) (sel : option Z) (s : state) :
  exists v,
    Utils.validateFutureDateTime dt sel s = (Ok v, s) /\
    (v = None <->
     dt <> ""%string /\ forall t, sel = Some t -> clock s < t).
Proof.
  unfold Utils.validateFutureDateTime. destruct dt as [|c dt].
  - eexists. split; [reflexivity|]. split; [discriminate|]. intros [H _]. now contradiction H.
  - cbn [JS.truthy_str JS.is_empty negb]. unfold bind, date_now.
    destruct sel as [t|].
    + destruct (t <=? clock s) eqn:E.
      * eexists. split; [reflexivity|]. split; [discriminate|].
        intros [_ H]. apply Z.leb_le in E. specialize (H t eq_refl). lia.
      * eexists. split; [reflexivity|]. split; [|reflexivity].
        intros _. split; [discriminate|]. intros t' [= <-]. now apply Z.leb_gt.
    + eexists. split; [reflexivity|]. split; [|reflexivity].
      intros _. split; [discriminate|]. discriminate.
Qed.

Lemma handleAddReminder_run (tv dt suffix : string) (sel : option Z) (s : state) :
  JS.trim tv <> ""%string ->
  Utils.validateFutureDateTime dt sel s = (Ok None, s) ->
  Dashboard.handleAddReminder (Some (tv, dt)) sel suffix s =
  match Storage.saveReminder (added (clock s) tv suffix sel) s with
  | (Throw e, s1) => (Ok tt, page_failed s1 e)
  | (Ok _, s1) =>
      match Alarms.scheduleReminder (added (clock s) tv suffix sel) s1 with
      | (Throw e, s2) => (Ok tt, page_failed s2 e)
      | (Ok _, s2) => (Ok tt, page_done s2 "Reminder created successfully!" "success")
      end
  end.
Proof.
  intros Htext Hval. apply truthy_str_true in Htext.
  unfold Dashboard.handleAddReminder. cbv zeta. rewrite Htext.
  change (negb true) with false. cbv iota. unfold bind at 1. cbv beta.
  rewrite Hval.
  unfold try_catch, bind, Utils.generateReminderId, bind, date_now, ret.
  fold (added (clock s) tv suffix sel).
  assert (Hmsg : forall e s', Storage.saveReminder (added (clock s) tv suffix sel) s
                              = (Throw e, s') -> Dashboard.message_or e
                                "Unable to create reminder. Please try again." = e).
  { intros e s'. rewrite save_run.
    destruct (Storage.validation_error _ _) as [m|] eqn:Ev; [|discriminate].
    intros [= <- _]. unfold Storage.validation_error in Ev.
    repeat match type of Ev with
           | (if ?c then _ else _) = _ => destruct c
           end; try discriminate; injection Ev as <-; reflexivity. }
  destruct (Storage.saveReminder _ s) as [[[]|e] s1] eqn:Es.
  - destruct (Alarms.scheduleReminder _ s1) as [[[]|e] s2] eqn:Ec; [reflexivity|].
    rewrite schedule_run in Ec.
    repeat match type of Ec with
           | (if ?c then _ else _) = _ => destruct c
           | match ?c with _ => _ end = _ => destruct c
           end; try discriminate; injection Ec as <- <-; reflexivity.
  - now rewrite (Hmsg e s1 eq_refl).
Qed.

Lemma nonblank_facts (tv : string) :
  JS.trim tv <> ""%string ->
  (negb (JS.truthy_str (JS.trim tv)) || (JS.length (JS.trim (JS.trim tv)) =? 0)) = false.
Proof.
  intros H. rewrite trim_idempotent. destruct (JS.trim tv); [contradiction|reflexivity].
Qed.

Lemma validation_added_nan (now : Z) (tv suffix : string) :
  JS.trim tv <> ""%string ->
  Storage.validation_error now (added now tv suffix None)
  = Some "Reminder must be scheduled for a future time"%string.
Proof.
  intros Htext. unfold Storage.validation_error, added, Dashboard.new_reminder.
  cbn [id text scheduledTime append JS.truthy_str JS.is_empty negb].
  now rewrite (nonblank_facts tv Htext).
Qed.

Lemma validate_future_ok (dt : string) (sel : option Z) (s : state) :
  dt <> ""%string -> (forall t, sel = Some t -> clock s < t) ->
  Utils.validateFutureDateTime dt sel s = (Ok None, s).
Proof.
  intros Hdt Hsel. destruct (validate_future_run dt sel s) as (v & Hv & Hiff).
  rewrite Hv. f_equal. f_equal. apply Hiff. now split.
Qed.

Lemma validate_future_error (dt : string) (sel : option Z) (s : state) :
  dt = ""%string \/ (exists t, sel = Some t /\ t <= clock s) ->
  exists e, Utils.validateFutureDateTime dt sel s = (Ok (Some e), s).
Proof.
  intros H. destruct (validate_future_run dt sel s) as (v & Hv & Hiff).
  destruct v as [e|]; [now exists e|]. exfalso.
  destruct (proj1 Hiff eq_refl) as [Hdt Hsel].
  destruct H as [H|(t & Ht & Hle)]; [contradiction|].
  specialize (Hsel t Ht). lia.
Qed.

(** X20. What the add form refuses it refuses without a trace: with a
    blank text, an empty date field, a time that is not ahead, or a date
    string that is no date at all, the handler ends normally and the only
    change to the state is one error message.  The last case passes the
    date check of the form (NaN is not at or before now) and is stopped by
    the validation of the store. *)
Theorem handleAddReminder_refuses (s : state) (tv dt suffix : string) (sel : option Z) :
  JS.trim tv = ""%string \/ dt = ""%string \/ sel = None
  \/ (exists t, sel = Some t /\ t <= clock s) ->
  exists msg,
    Dashboard.handleAddReminder (Some (tv, dt)) sel suffix s = (Ok tt, page_failed s msg).
Proof.
  intros H. destruct (JS.trim tv) eqn:Etext.
  - eexists. unfold Dashboard.handleAddReminder. cbv zeta. rewrite Etext. reflexivity.
  - assert (Htext : JS.trim tv <> ""%string) by (rewrite Etext; discriminate).
    destruct (validate_future_run dt sel s) as (v & Hv & Hiff).
    destruct v as [e|].
    + exists e. unfold Dashboard.handleAddReminder. cbv zeta. rewrite Etext.
      change (negb (JS.truthy_str (String a s0))) with false. cbv iota.
      unfold bind. now rewrite Hv.
    + destruct (proj1 Hiff eq_refl) as [Hdt Hsel].
      destruct H as [H|[H|[H|(t & Ht & Hle)]]]; try congruence.
      * subst sel. rewrite (handleAddReminder_run tv dt suffix None s Htext Hv).
        rewrite save_run, (validation_added_nan _ _ _ Htext). now eexists.
      * specialize (Hsel t Ht). lia.
Qed.

Lemma handleAddReminder_refuses_witness :
  exists msg,
    Dashboard.handleAddReminder (Some ("Tea"%string, "soon"%string)) None "k3x9q"
                                (browser 1000 [oven])
    = (Ok tt, page_failed (browser 1000 [oven]) msg).
Proof.
  apply (handleAddReminder_refuses (browser 1000 [oven]) "Tea" "soon" "k3x9q" None).
  right. right. left. reflexivity.
Defined.

Lemma saveEdit_run (i tv dt : string) (sel : option Z) (s : state) (r : reminder) :
  JS.trim tv <> ""%string ->
  Utils.validateFutureDateTime dt sel s = (Ok None, s) ->
  find (same_id i) (reminders s) = Some r ->
  Dashboard.saveEdit i (Some (tv, dt)) sel s =
  match Storage.saveReminder (Dashboard.edited r (JS.trim tv) sel)
          (with_reminders
             (snd (Alarms.cancelReminderById (id r) (scheduledTime r) s))
             (mutate_first (same_id i)
                           (fun x => Dashboard.edited x (JS.trim tv) sel) (reminders s)))
  with
  | (Throw e, s1) => (Ok tt, page_failed s1 e)
  | (Ok _, s1) =>
      match Alarms.scheduleReminder (Dashboard.edited r (JS.trim tv) sel) s1 with
      | (Throw e, s2) => (Ok tt, page_failed s2 e)
      | (Ok _, s2) => (Ok tt, page_done s2 "Reminder updated successfully!" "success")
      end
  end.
Proof.
  intros Htext Hval Hf. apply truthy_str_true in Htext.
  unfold Dashboard.saveEdit. cbv zeta. rewrite Htext.
  change (negb true) with false. cbv iota. unfold bind at 1. cbv beta.
  rewrite Hval. unfold bind at 1. unfold Options.get_reminders. rewrite Hf.
  unfold try_catch. unfold bind at 1.
  pose proof (cancel_ok (id r) (scheduledTime r) s) as Hc.
  destruct (Alarms.cancelReminderById (id r) (scheduledTime r) s) as [rc s0].
  cbn [snd] in *. injection Hc as ->.
  unfold bind at 1. unfold Dashboard.set_reminders at 1.
  unfold bind at 1.
  destruct (Storage.saveReminder _ _) as [[[]|e] s1] eqn:Es.
  - unfold bind at 1.
    destruct (Alarms.scheduleReminder _ s1) as [[[]|e] s2] eqn:Ec; [reflexivity|].
    rewrite schedule_run in Ec.
    repeat match type of Ec with
           | (if ?c then _ else _) = _ => destruct c
           | match ?c with _ => _ end = _ => destruct c
           end; try discriminate; injection Ec as <- <-; reflexivity.
  - rewrite save_run in Es.
    destruct (Storage.validation_error _ _) as [m|] eqn:Ev; [|discriminate].
    injection Es as <- <-. unfold Storage.validation_error in Ev.
    repeat match type of Ev with
           | (if ?c then _ else _) = _ => destruct c
           end; try discriminate; injection Ev as <-; reflexivity.
Qed.

(** X22. An edit whose date string is no date loses the alarm: the date
    check of the form lets it through, the old alarm is cleared and the
    page's copy of the record is changed before the store refuses the
    record, so the handler ends with the store's error message, the stored
    record as it was, and no alarm left for it. *)
Theorem saveEdit_unparsable_date_clears_alarm
        (s : state) (i tv dt : string) (r : reminder) :
  i <> ""%string -> JS.trim tv <> ""%string -> dt <> ""%string ->
  find (same_id i) (reminders s) = Some r ->
  exists s',
    Dashboard.saveEdit i (Some (tv, dt)) None s = (Ok tt, s') /\
    storage s' = storage s /\
    alarms s' = (if JS.truthy_num (scheduledTime r)
                 then alarms_without (Alarms.createAlarmName r) (alarms s)
                 else alarms s) /\
    reminders s' = mutate_first (same_id i)
                     (fun x => Dashboard.edited x (JS.trim tv) None) (reminders s) /\
    messages s' = messages s
                  ++ [("Reminder must be scheduled for a future time"%string,
                       "error"%string)].
Proof.
  intros Hi Htext Hdt Hf.
  pose proof (find_same_id_eq _ _ _ Hf) as Hr.
  assert (Hval : Utils.validateFutureDateTime dt None s = (Ok None, s))
    by (apply validate_future_ok; [exact Hdt|discriminate]).
  rewrite (saveEdit_run i tv dt None s r Htext Hval Hf).
  rewrite save_run.
  assert (Hv : forall now, Storage.validation_error now (Dashboard.edited r (JS.trim tv) None)
                           = Some "Reminder must be scheduled for a future time"%string).
  { intros now. unfold Storage.validation_error, Dashboard.edited.
    cbn [id text scheduledTime]. rewrite Hr.
    apply truthy_str_true in Hi. rewrite Hi. simpl negb. cbv iota.
    now rewrite (nonblank_facts tv Htext). }
  rewrite Hv. eexists. split; [reflexivity|].
  unfold page_failed. st_simpl. rewrite cancel_run, Hr.
  apply truthy_str_true in Hi. rewrite Hi. simpl orb.
  unfold Alarms.createAlarmName. rewrite Hr.
  destruct (JS.truthy_num (scheduledTime r)); simpl negb; cbv iota; st_simpl;
    repeat split.
Qed.

Lemma saveEdit_unparsable_date_clears_alarm_witness :
  exists s',
    Dashboard.saveEdit "a" (Some ("Check stove"%string, "soon"%string)) None dashboard_998
    = (Ok tt, s') /\
    stored s' = [oven] /\ alarms s' = [].
Proof.
  destruct (saveEdit_unparsable_date_clears_alarm dashboard_998 "a" "Check stove" "soon" oven)
    as (s' & H1 & H2 & H3 & _).
  - discriminate.
  - discriminate.
  - discriminate.
  - reflexivity.
  - exists s'. split; [exact H1|]. split; [unfold stored; now rewrite H2|exact H3].
Defined.



(* ================================================================== *)
(** ** Statistics and sorting of the dashboard                         *)
(* ================================================================== *)

From Stdlib Require Import Permutation Sorted.

Lemma has_status_exclusive (r : reminder) :
  stored_ok r ->
  (if Dashboard.has_status "active" r then 1 else 0)
  + (if Dashboard.has_status "completed" r then 1 else 0)
  + (if Dashboard.has_status "dismissed" r then 1 else 0) = 1.
Proof.
  intros (_ & _ & _ & _ & (st & Hst & Hin)). unfold Dashboard.has_status. rewrite Hst.
  simpl in Hin. destruct Hin as [<-|[<-|[<-|[]]]]; reflexivity.
Qed.

Lemma filter_length_cons (f : reminder -> bool) (x : reminder) (l : list reminder) :
  Z.of_nat (List.length (filter f (x :: l)))
  = (if f x then 1 else 0) + Z.of_nat (List.length (filter f l)).
Proof. simpl. destruct (f x); simpl List.length; lia. Qed.

(** X24. The three counters of the dashboard account for every record:
    on a collection of well-formed records the numbers of active, completed
    and dismissed reminders add up to the size of the collection. *)
Theorem updateStats_counts_every_record (rs : list reminder) :
  Forall stored_ok rs ->
  let '(a, c, d) := Dashboard.updateStats rs in
  a + c + d = Z.of_nat (List.length rs).
Proof.
  unfold Dashboard.updateStats. induction rs as [|x rs IH]; intros H; [reflexivity|].
  inversion H as [|? ? Hx Hrs]; subst. specialize (IH Hrs).
  rewrite !filter_length_cons. pose proof (has_status_exclusive x Hx).
  simpl List.length. lia.
Qed.

Lemma updateStats_counts_every_record_witness :
  let '(a, c, d) := Dashboard.updateStats [oven; oven_done; early_dismissed; late_active] in
  a + c + d = 4.
Proof.
  apply (updateStats_counts_every_record [oven; oven_done; early_dismissed; late_active]).
  repeat constructor; try discriminate;
    try (eexists; split; [reflexivity|discriminate]);
    try (eexists; reflexivity);
    try (eexists; split; [reflexivity|simpl; tauto]).
Defined.

Lemma insert_by_perm (cmp : reminder -> reminder -> Z) (x : reminder) (l : list reminder) :
  Permutation (Dashboard.insert_by cmp x l) (x :: l).
Proof.
  induction l as [|y l IH]; simpl; [reflexivity|].
  destruct (cmp y x <? 0); [|reflexivity].
  rewrite IH. apply perm_swap.
Qed.

Lemma sort_by_perm (cmp : reminder -> reminder -> Z) (l : list reminder) :
  Permutation (Dashboard.sort_by cmp l) l.
Proof.
  induction l as [|x l IH]; simpl; [reflexivity|].
  rewrite insert_by_perm. now constructor.
Qed.

(** X25. Sorting never loses, adds or duplicates a reminder: whatever the
    sort option, the sorted list is a permutation of the list given. *)
Theorem sortReminders_permutation (rs : list reminder) (sortOption : string) :
  Permutation (Dashboard.sortReminders rs sortOption) rs.
Proof.
  unfold Dashboard.sortReminders.
  destruct (Dashboard.split_dash sortOption) as [|field [|direction rest]];
    [reflexivity|apply sort_by_perm|apply sort_by_perm].
Qed.

Lemma sort_by_zero (cmp : reminder -> reminder -> Z) (l : list reminder) :
  (forall a b, cmp a b = 0) -> Dashboard.sort_by cmp l = l.
Proof.
  intros H. induction l as [|x l IH]; simpl; [reflexivity|].
  rewrite IH. destruct l as [|y l]; simpl; [reflexivity|]. now rewrite H.
Qed.

(** X26. A sort option naming no known field leaves the order alone: when
    the piece before the first hyphen is none of scheduledTime, createdAt,
    text and status, the list comes back as it was given. *)
Theorem sortReminders_unknown_field (rs : list reminder) (sortOption : string) :
  (forall r, Dashboard.sort_value_of (hd ""%string (Dashboard.split_dash sortOption)) r
             = None) ->
  Dashboard.sortReminders rs sortOption = rs.
Proof.
  intros H. unfold Dashboard.sortReminders.
  destruct (Dashboard.split_dash sortOption) as [|field [|direction rest]];
    [reflexivity| |]; simpl in H; apply sort_by_zero; intros a b;
    unfold Dashboard.comparator; now rewrite H.
Qed.

Lemma sortReminders_unknown_field_witness :
  Dashboard.sortReminders [late_active; oven] "priority-asc" = [late_active; oven].
Proof.
  apply (sortReminders_unknown_field [late_active; oven] "priority-asc").
  intros r. reflexivity.
Defined.

Lemma time_cmp (asc : bool) (a b : reminder) (x y : Z) :
  scheduledTime a = Some x -> scheduledTime b = Some y ->
  Dashboard.comparator "scheduledTime" (Some (if asc then "asc" else "desc")%string) a b
  = if x <? y then (if asc then -1 else 1)
    else if y <? x then (if asc then 1 else -1) else 0.
Proof.
  intros Ha Hb. unfold Dashboard.comparator, Dashboard.sort_value_of.
  cbn [String.eqb]. simpl. rewrite Ha, Hb. cbn [Dashboard.value_ltb].
  now destruct asc.
Qed.

Lemma insert_by_time_sorted (asc : bool) (x : reminder) (l : list reminder) :
  (exists t, scheduledTime x = Some t) ->
  Forall (fun r => exists t, scheduledTime r = Some t) l ->
  Sorted (time_ordered asc) l ->
  Sorted (time_ordered asc)
         (Dashboard.insert_by
            (Dashboard.comparator "scheduledTime"
                                  (Some (if asc then "asc" else "desc")%string)) x l).
Proof.
  intros [tx Hx] Hl Hs. induction l as [|y l IH]; [repeat constructor|].
  inversion Hl as [|? ? [ty Hy] Hl']; subst. inversion Hs as [|? ? Hs' Hhd]; subst.
  cbn [Dashboard.insert_by]. rewrite (time_cmp asc y x ty tx Hy Hx).
  assert (Hyx : (if asc then ty <= tx else tx <= ty) -> time_ordered asc y x).
  { intros H. unfold time_ordered, time_le. destruct asc; now rewrite Hx, Hy. }
  assert (Hxy : (if asc then tx <= ty else ty <= tx) -> time_ordered asc x y).
  { intros H. unfold time_ordered, time_le. destruct asc; now rewrite Hx, Hy. }
  destruct (ty <? tx) eqn:E1; [|destruct (tx <? ty) eqn:E2].
  - apply Z.ltb_lt in E1. destruct asc.
    + (* ascending, y before x *)
      change (-1 <? 0) with true. cbv iota. constructor; [now apply IH|].
      destruct l as [|z l]; cbn [Dashboard.insert_by].
      * constructor. apply Hyx. lia.
      * destruct (_ <? 0); constructor; [now inversion Hhd|apply Hyx; lia].
    + change (1 <? 0) with false. cbv iota. constructor; [now constructor|].
      constructor. apply Hxy. lia.
  - apply Z.ltb_lt in E2. destruct asc.
    + change (1 <? 0) with false. cbv iota. constructor; [now constructor|].
      constructor. apply Hxy. lia.
    + change (-1 <? 0) with true. cbv iota. constructor; [now apply IH|].
      destruct l as [|z l]; cbn [Dashboard.insert_by].
      * constructor. apply Hyx. lia.
      * destruct (_ <? 0); constructor; [now inversion Hhd|apply Hyx; lia].
  - apply Z.ltb_ge in E1. apply Z.ltb_ge in E2.
    change (0 <? 0) with false. cbv iota. constructor; [now constructor|].
    constructor. apply Hxy. destruct asc; lia.
Qed.

Lemma insert_by_forall (P : reminder -> Prop) (cmp : reminder -> reminder -> Z)
      (x : reminder) (l : list reminder) :
  P x -> Forall P l -> Forall P (Dashboard.insert_by cmp x l).
Proof.
  intros Hx Hl. induction l as [|y l IH]; simpl; [now repeat constructor|].
  inversion Hl; subst. destruct (cmp y x <? 0); constructor; auto.
Qed.

Lemma sort_by_forall (P : reminder -> Prop) (cmp : reminder -> reminder -> Z)
      (l : list reminder) :
  Forall P l -> Forall P (Dashboard.sort_by cmp l).
Proof.
  induction l as [|x l IH]; simpl; intros H; [constructor|].
  inversion H; subst. apply insert_by_forall; auto.
Qed.

(** X27. Sorting by time orders by time: when every record has its time,
    the option "scheduledTime-asc" gives a list in which each reminder is
    due no later than the next, and "scheduledTime-desc" one in which each
    is due no earlier than the next. *)
Theorem sortReminders_by_time (rs : list reminder) :
  Forall (fun r => exists t, scheduledTime r = Some t) rs ->
  Sorted time_le (Dashboard.sortReminders rs "scheduledTime-asc") /\
  Sorted (fun a b => time_le b a) (Dashboard.sortReminders rs "scheduledTime-desc").
Proof.
  intros H.
  assert (G : forall asc,
             Sorted (time_ordered asc)
                    (Dashboard.sort_by
                       (Dashboard.comparator "scheduledTime"
                          (Some (if asc then "asc" else "desc")%string)) rs)).
  { intros asc. induction rs as [|x rs IH]; [constructor|].
    inversion H; subst. cbn [Dashboard.sort_by].
    apply insert_by_time_sorted; auto. now apply sort_by_forall. }
  split; [exact (G true)|exact (G false)].
Qed.

Lemma sortReminders_by_time_witness :
  Sorted time_le (Dashboard.sortReminders [late_active; oven] "scheduledTime-asc").
Proof.
  apply (sortReminders_by_time [late_active; oven]).
  repeat constructor; eexists; reflexivity.
Defined.

(* ================================================================== *)
(** ** Relative time, and a reminder from creation to notification     *)
(* ================================================================== *)

(** X28. The relative time shown is the distance rounded down to whole
    units of the largest unit that fits: days from one day on, hours from
    one hour on, minutes below (so "0 minute" within a minute), after "in"
    for a time at or after now and before "ago" for a time before now. *)
Theorem getRelativeTime_rounds_down (timestamp : Z) (s : state) :
  let d := Z.abs (timestamp - clock s) in
  exists n unit u,
    In (unit, u) [("day"%string, 86400000); ("hour"%string, 3600000);
                  ("minute"%string, 60000)] /\
    Utils.getRelativeTime timestamp s
    = (Ok (if timestamp - clock s <? 0
           then (Utils.count_of n unit ++ " ago")%string
           else ("in " ++ Utils.count_of n unit)%string), s) /\
    n * u <= d < (n + 1) * u /\
    (u = 60000 \/ 1 <= n) /\
    (u = 3600000 -> d < 86400000) /\ (u = 60000 -> d < 3600000).
Proof.
  cbv zeta. set (d := Z.abs (timestamp - clock s)).
  assert (Hd : 0 <= d) by apply Z.abs_nonneg.
  assert (Hh : d / (1000 * 60) / 60 = d / 3600000)
    by (rewrite Z.div_div by lia; reflexivity).
  assert (Hdd : d / (1000 * 60) / 60 / 24 = d / 86400000)
    by (rewrite !Z.div_div by lia; reflexivity).
  assert (Hfl : forall u, 0 < u -> (d / u) * u <= d < (d / u + 1) * u).
  { intros u Hu. pose proof (Z.div_mod d u). pose proof (Z.mod_pos_bound d u Hu). nia. }
  unfold Utils.getRelativeTime, bind, date_now, ret. fold d. rewrite Hdd, Hh.
  destruct (0 <? d / 86400000) eqn:E1.
  - exists (d / 86400000), "day"%string, 86400000.
    split; [left; reflexivity|]. split; [now destruct (timestamp - clock s <? 0)|].
    apply Z.ltb_lt in E1. repeat split; try apply Hfl; try lia; intros; lia.
  - apply Z.ltb_ge in E1.
    assert (Hlt : d < 86400000).
    { destruct (Z.lt_ge_cases d 86400000) as [H|H]; [exact H|].
      pose proof (Z.div_le_mono 86400000 d 86400000 ltac:(lia) H) as Hm.
      rewrite Z.div_same in Hm by lia. lia. }
    destruct (0 <? d / 3600000) eqn:E2.
    + exists (d / 3600000), "hour"%string, 3600000.
      split; [right; left; reflexivity|].
      split; [now destruct (timestamp - clock s <? 0)|].
      apply Z.ltb_lt in E2. repeat split; try apply Hfl; try lia; intros; lia.
    + apply Z.ltb_ge in E2.
      assert (Hlt' : d < 3600000).
      { destruct (Z.lt_ge_cases d 3600000) as [H|H]; [exact H|].
        pose proof (Z.div_le_mono 3600000 d 3600000 ltac:(lia) H) as Hm.
        rewrite Z.div_same in Hm by lia. lia. }
      exists (d / (1000 * 60)), "minute"%string, 60000.
      split; [right; right; left; reflexivity|].
      split; [now destruct (timestamp - clock s <? 0)|].
      repeat split; try apply (Hfl 60000); try lia; try (left; reflexivity); intros; lia.
Qed.

Lemma parse_built_name (i : string) (t : Z) :
  0 < t ->
  ServiceWorker.parseAlarmName (Alarms.alarm_name i (Some t))
  = Some (String "-" (JS.trimEnd i), t).
Proof.
  intros Ht. destruct (string_of_Z_spec t Ht) as (Hne & Hall & Hval).
  unfold Alarms.alarm_name. cbn [JS.string_of_num].
  rewrite (parseAlarmName_shape i _ (all_digits_no_dash _ Hall)).
  replace (JS.string_of_Z t) with (JS.string_of_Z t ++ "")%string at 1
    by apply append_empty_r.
  rewrite (parseInt_digits_then _ "" Hne Hall eq_refl), Hval.
  assert (E : (t <=? 0) = false) by (apply Z.leb_gt; lia). now rewrite E.
Qed.

(* ================================================================== *)
(** ** The handlers under a moving clock                               *)
(* ================================================================== *)

Lemma truthy_num_some (t : Z) : t <> 0 -> JS.truthy_num (Some t) = true.
Proof. intros H. unfold JS.truthy_num. apply Z.eqb_neq in H. now rewrite H. Qed.

(** A record with a time, a creation time and a status as the store writes
    them is left as it is by normalization, whatever the clock. *)
Lemma normalize_id (now t c : Z) (st : string) (r : reminder) :
  scheduledTime r = Some t -> t <> 0 ->
  createdAt r = Some c -> c <> 0 ->
  status r = Some st -> In st validStatuses ->
  Storage.normalize now r = r.
Proof.
  intros Ht H0 Hc Hc0 Hst Hin. destruct (valid_status_facts st Hin) as [Hts _].
  unfold Storage.normalize. rewrite Ht, Hc, Hst.
  unfold Storage.num_or, Storage.str_or.
  rewrite (truthy_num_some t H0), (truthy_num_some c Hc0), Hts.
  destruct r. simpl in *. now subst.
Qed.

Lemma normalize_any_clock (a b c : Z) (r : reminder) :
  createdAt r = Some c -> c <> 0 -> Storage.normalize a r = Storage.normalize b r.
Proof.
  intros Hc Hc0. unfold Storage.normalize. rewrite Hc. unfold Storage.num_or.
  now rewrite (truthy_num_some c Hc0).
Qed.

(** Validation looks at the clock only to compare it with the time. *)
Lemma validation_at (now now' t : Z) (r : reminder) :
  Storage.validation_error now r = None -> scheduledTime r = Some t ->
  Storage.validation_error now' r
  = if t <=? now' then Some "Reminder must be scheduled for a future time"%string
    else None.
Proof.
  intros Hv Ht.
  destruct (validation_passes_inv _ _ Hv) as (Hid & Htext & (t' & Ht' & H0 & _) & Hst).
  rewrite Ht in Ht'. injection Ht' as <-.
  unfold Storage.validation_error. rewrite Hid, Htext, Ht, Hst.
  rewrite (truthy_num_some t H0). simpl negb. cbv iota. cbn [orb Storage.num_leb].
  now destruct (t <=? now').
Qed.

Lemma schedule_at (r : reminder) (s : state) (t : Z) :
  JS.truthy_str (id r) = true -> scheduledTime r = Some t -> t <> 0 ->
  Alarms.scheduleReminder r s
  = if t <=? clock s then (Throw "Cannot schedule alarm for past time", s)
    else (Ok tt, with_alarms s
                   ((Alarms.createAlarmName r, t)
                      :: alarms_without (Alarms.createAlarmName r) (alarms s))).
Proof.
  intros Hid Ht H0. rewrite schedule_run, Hid, Ht, (truthy_num_some t H0). reflexivity.
Qed.

(** X3. Saving the same record again later: after a save that passed
    validation, a second save of the same record at a later reading of the
    clock raises and leaves the state alone once the scheduled time has been
    reached, and otherwise, for a record that carries its creation time,
    succeeds and leaves the state as the first save left it. *)
Theorem saveReminder_again_later (s : state) (r : reminder) (t c_again : Z) :
  Storage.validation_error (clock s) r = None ->
  scheduledTime r = Some t ->
  let s1 := with_clock (snd (Storage.saveReminder r s)) c_again in
  (t <= c_again ->
   Storage.saveReminder r s1
   = (Throw "Reminder must be scheduled for a future time", s1)) /\
  (c_again < t ->
   forall c, createdAt r = Some c -> c <> 0 ->
             Storage.saveReminder r s1 = (Ok tt, s1)).
Proof.
  intros Hv Ht. cbv zeta. rewrite (save_run r s), Hv. cbn [snd].
  set (s1 := with_clock _ c_again).
  rewrite (save_run r s1). change (clock s1) with c_again.
  rewrite (validation_at _ c_again t r Hv Ht). split.
  - intros Hle. assert (E : (t <=? c_again) = true) by (apply Z.leb_le; lia).
    now rewrite E.
  - intros Hlt c Hc Hc0. assert (E : (t <=? c_again) = false) by (apply Z.leb_gt; lia).
    rewrite E. f_equal.
    rewrite (normalize_any_clock c_again (clock s) c r Hc Hc0).
    change (stored s1) with (upsert (Storage.normalize (clock s) r) (stored s)).
    rewrite upsert_twice. reflexivity.
Qed.

Lemma saveReminder_again_later_witness :
  Storage.saveReminder oven (with_clock (snd (Storage.saveReminder oven (browser 100 []))) 1000)
  = (Throw "Reminder must be scheduled for a future time",
     with_clock (snd (Storage.saveReminder oven (browser 100 []))) 1000)
  /\
  Storage.saveReminder oven (with_clock (snd (Storage.saveReminder oven (browser 100 []))) 101)
  = (Ok tt, with_clock (snd (Storage.saveReminder oven (browser 100 []))) 101).
Proof.
  split.
  - apply (saveReminder_again_later (browser 100 []) oven 1000 1000 eq_refl eq_refl).
    lia.
  - apply (proj2 (saveReminder_again_later (browser 100 []) oven 1000 101 eq_refl eq_refl))
      with (c := 1); [lia|reflexivity|discriminate].
Defined.

(** X6. The create sequence, save then schedule, is not all or nothing.  A
    record the validation refuses leaves the state untouched.  A record
    that passes is stored; it then gets one alarm under its name at its
    time if the time is still ahead when [scheduleReminder] reads the
    clock, and otherwise the sequence raises with the record stored and no
    alarm registered for it. *)
Theorem create_stores_before_scheduling (s : state) (r : reminder) (t c_schedule : Z) :
  scheduledTime r = Some t ->
  match Storage.validation_error (clock s) r with
  | Some msg => Timed.create r c_schedule s = (Throw msg, s)
  | None =>
      let s1 := with_clock
                  (with_storage s (Some (upsert (Storage.normalize (clock s) r) (stored s))))
                  c_schedule in
      Timed.create r c_schedule s
      = if t <=? c_schedule
        then (Throw "Cannot schedule alarm for past time", s1)
        else (Ok tt, with_alarms s1
                       ((Alarms.createAlarmName r, t)
                          :: alarms_without (Alarms.createAlarmName r) (alarms s)))
  end.
Proof.
  intros Ht. unfold Timed.create.
  destruct (Storage.validation_error (clock s) r) as [msg|] eqn:Hv.
  - unfold bind. now rewrite save_run, Hv.
  - destruct (validation_passes_inv _ _ Hv) as (Hid & _ & (t' & Ht' & H0 & _) & _).
    rewrite Ht in Ht'. injection Ht' as <-.
    cbv zeta. unfold bind, clock_reaches. rewrite save_run, Hv.
    now rewrite (schedule_at r _ t Hid Ht H0).
Qed.

Lemma create_stores_before_scheduling_witness :
  Timed.create oven 1000 (browser 999 [])
  = (Throw "Cannot schedule alarm for past time",
     with_storage (browser 1000 []) (Some [oven])).
Proof.
  exact (create_stores_before_scheduling (browser 999 []) oven 1000 1000 eq_refl).
Defined.

Lemma timed_undo_run (s : state) (r : reminder) (c_guard c_schedule : Z) :
  lastDismissedReminder s = Some r ->
  Timed.handleUndoDismiss c_guard c_schedule s =
  match Storage.updateReminderStatus (id r) "active" s with
  | (Throw _, s1) => (Ok tt, page_failed s1 "Unable to restore reminder")
  | (Ok _, s1) =>
      if Options.num_gtb (scheduledTime r) c_guard then
        let r' := set_alarmName r (Alarms.createAlarmName r) in
        match Alarms.scheduleReminder r'
                (with_clock (with_lastDismissed (with_clock s1 c_guard) (Some r'))
                            c_schedule) with
        | (Ok _, s2) =>
            (Ok tt, page_done (with_lastDismissed s2 None) "Reminder restored" "success")
        | (Throw _, s2) => (Ok tt, page_failed s2 "Unable to restore reminder")
        end
      else (Ok tt, page_done (with_lastDismissed (with_clock s1 c_guard) None)
                             "Reminder restored" "success")
  end.
Proof.
  intros Hl. unfold Timed.handleUndoDismiss. unfold bind at 1.
  unfold Options.get_lastDismissed. rewrite Hl.
  unfold try_catch. unfold bind at 1.
  destruct (Storage.updateReminderStatus (id r) "active" s) as [[[]|msg] s1];
    [|reflexivity].
  unfold bind at 1. unfold clock_reaches at 1.
  unfold bind at 1. unfold date_now at 1. st_simpl.
  destruct (Options.num_gtb (scheduledTime r) c_guard).
  - unfold bind, Options.set_lastDismissed, clock_reaches. cbv zeta.
    destruct (Alarms.scheduleReminder _ _) as [[[]|msg] s2]; reflexivity.
  - reflexivity.
Qed.

(** The undo of a dismissal, by the three readings of the clock. *)
Lemma timed_undo_outcome (s : state) (r r0 : reminder) (t c c_guard c_schedule : Z) :
  lastDismissedReminder s = Some r ->
  find (same_id (id r)) (stored s) = Some r0 ->
  Storage.validation_error (clock s) r0 = None ->
  createdAt r0 = Some c -> c <> 0 ->
  scheduledTime r = Some t -> t <> 0 ->
  let s1 := with_storage s (Some (upsert (set_status r0 "active") (stored s))) in
  let r' := set_alarmName r (Alarms.createAlarmName r) in
  Timed.handleUndoDismiss c_guard c_schedule s
  = (Ok tt,
     if c_guard <? t then
       if t <=? c_schedule then
         page_failed (with_clock (with_lastDismissed s1 (Some r')) c_schedule)
                     "Unable to restore reminder"
       else
         page_done
           (with_lastDismissed
              (with_alarms (with_clock s1 c_schedule)
                 ((Alarms.createAlarmName r, t)
                    :: alarms_without (Alarms.createAlarmName r) (alarms s)))
              None)
           "Reminder restored" "success"
     else
       page_done (with_lastDismissed (with_clock s1 c_guard) None)
                 "Reminder restored" "success").
Proof.
  intros Hl Hf Hv Hc Hc0 Ht H0. cbv zeta.
  rewrite (timed_undo_run s r c_guard c_schedule Hl).
  rewrite (update_valid_run (id r) "active" s r0 Hf Hv in_active).
  rewrite (normalize_fixed _ _ _ _ Hv Hc Hc0 in_active).
  unfold Options.num_gtb. rewrite Ht.
  destruct (c_guard <? t); [|reflexivity]. cbv zeta.
  destruct (validation_passes_inv _ _ Hv) as (Hid & _).
  rewrite (find_same_id_eq _ _ _ Hf) in Hid.
  rewrite (schedule_at (set_alarmName r (Alarms.createAlarmName r)) _ t Hid Ht H0).
  st_simpl. destruct (t <=? c_schedule); reflexivity.
Qed.

(** X16. Undo of a dismissal, by the readings of the clock.  With a record
    remembered and the stored record of its id passing validation when the
    status update reads the clock, the handler ends normally and the stored
    record gets status active, whatever happens next.  If the remembered
    time is still ahead at the guard and at [scheduleReminder], one alarm
    is registered under the record's name for that time, nothing stays
    remembered and the page's list is read again.  If the time has been
    reached at the guard, the undo reports success with no alarm
    registered.  If it is reached between the guard and
    [scheduleReminder], the undo reports failure although the status has
    been restored: no alarm is registered and the record stays
    remembered. *)
Theorem handleUndoDismiss_by_clock_readings
        (s : state) (r r0 : reminder) (t c c_guard c_schedule : Z) :
  lastDismissedReminder s = Some r ->
  find (same_id (id r)) (stored s) = Some r0 ->
  Storage.validation_error (clock s) r0 = None ->
  createdAt r0 = Some c -> c <> 0 ->
  scheduledTime r = Some t -> t <> 0 ->
  exists s',
    Timed.handleUndoDismiss c_guard c_schedule s = (Ok tt, s') /\
    stored s' = upsert (set_status r0 "active") (stored s) /\
    (c_guard < t -> c_schedule < t ->
     alarms s' = (Alarms.createAlarmName r, t)
                   :: alarms_without (Alarms.createAlarmName r) (alarms s) /\
     lastDismissedReminder s' = None /\
     reminders s' = stored s' /\
     messages s' = messages s ++ [("Reminder restored"%string, "success"%string)]) /\
    (t <= c_guard ->
     alarms s' = alarms s /\
     lastDismissedReminder s' = None /\
     reminders s' = stored s' /\
     messages s' = messages s ++ [("Reminder restored"%string, "success"%string)]) /\
    (c_guard < t -> t <= c_schedule ->
     alarms s' = alarms s /\
     lastDismissedReminder s' = Some (set_alarmName r (Alarms.createAlarmName r)) /\
     reminders s' = reminders s /\
     messages s' = messages s ++ [("Unable to restore reminder"%string, "error"%string)]).
Proof.
  intros Hl Hf Hv Hc Hc0 Ht H0. eexists.
  split; [exact (timed_undo_outcome s r r0 t c c_guard c_schedule Hl Hf Hv Hc Hc0 Ht H0)|].
  split.
  { destruct (c_guard <? t); [destruct (t <=? c_schedule)|]; reflexivity. }
  split; [|split].
  - intros Hg Hs.
    assert (E1 : (c_guard <? t) = true) by (apply Z.ltb_lt; lia).
    assert (E2 : (t <=? c_schedule) = false) by (apply Z.leb_gt; lia).
    rewrite E1, E2. unfold page_done. st_simpl. repeat split.
  - intros Hg.
    assert (E1 : (c_guard <? t) = false) by (apply Z.ltb_ge; lia).
    rewrite E1. unfold page_done. st_simpl. repeat split.
  - intros Hg Hs.
    assert (E1 : (c_guard <? t) = true) by (apply Z.ltb_lt; lia).
    assert (E2 : (t <=? c_schedule) = true) by (apply Z.leb_le; lia).
    rewrite E1, E2. unfold page_failed. st_simpl. repeat split.
Qed.

Lemma handleUndoDismiss_by_clock_readings_witness :
  exists s',
    Timed.handleUndoDismiss 999 1000 (with_clock dismissed_998 999) = (Ok tt, s') /\
    stored s' = [oven] /\
    alarms s' = [] /\
    lastDismissedReminder s' = Some (set_alarmName oven "reminder-a-1000") /\
    messages s'
    = [("Reminder dismissed"%string, "undo"%string);
       ("Unable to restore reminder"%string, "error"%string)].
Proof.
  destruct (handleUndoDismiss_by_clock_readings (with_clock dismissed_998 999)
              oven (set_status oven "dismissed") 1000 1 999 1000)
    as (s' & H1 & H2 & _ & _ & H5).
  - reflexivity.
  - reflexivity.
  - reflexivity.
  - reflexivity.
  - discriminate.
  - reflexivity.
  - discriminate.
  - destruct H5 as (Ha & Hl & _ & Hm); [lia|lia|].
    exists s'. split; [exact H1|]. split; [exact H2|]. split; [exact Ha|].
    split; [exact Hl|exact Hm].
Defined.






(** The errors of the store and of the scheduler carry a message, so the
    handlers show it rather than their fallback text. *)
Lemma save_throw_message (r : reminder) (s s' : state) (e fallback : string) :
  Storage.saveReminder r s = (Throw e, s') -> Dashboard.message_or e fallback = e.
Proof.
  rewrite save_run.
  destruct (Storage.validation_error _ _) as [m|] eqn:Ev; [|discriminate].
  intros [= <- _]. unfold Storage.validation_error in Ev.
  repeat match type of Ev with
         | (if ?c then _ else _) = _ => destruct c
         end; try discriminate; injection Ev as <-; reflexivity.
Qed.

Lemma schedule_throw_message (r : reminder) (s s' : state) (e fallback : string) :
  Alarms.scheduleReminder r s = (Throw e, s') -> Dashboard.message_or e fallback = e.
Proof.
  rewrite schedule_run. intros Ec.
  repeat match type of Ec with
         | (if ?c then _ else _) = _ => destruct c
         | match ?c with _ => _ end = _ => destruct c
         end; try discriminate; injection Ec as <- <-; reflexivity.
Qed.

Lemma timed_add_run (tv dt suffix : string) (sel : option Z) (s : state)
      (c_id c_created c_save c_schedule : Z) :
  JS.trim tv <> ""%string ->
  Utils.validateFutureDateTime dt sel s = (Ok None, s) ->
  Timed.handleAddReminder (Some (tv, dt)) sel suffix c_id c_created c_save c_schedule s =
  match Storage.saveReminder (added_at c_id c_created tv suffix sel) (with_clock s c_save) with
  | (Throw e, s1) => (Ok tt, page_failed s1 e)
  | (Ok _, s1) =>
      match Alarms.scheduleReminder (added_at c_id c_created tv suffix sel)
              (with_clock s1 c_schedule) with
      | (Throw e, s2) => (Ok tt, page_failed s2 e)
      | (Ok _, s2) => (Ok tt, page_done s2 "Reminder created successfully!" "success")
      end
  end.
Proof.
  intros Htext Hval. apply truthy_str_true in Htext.
  unfold Timed.handleAddReminder. cbv zeta. rewrite Htext.
  change (negb true) with false. cbv iota. unfold bind at 1. cbv beta.
  rewrite Hval.
  unfold try_catch, bind, clock_reaches, Utils.generateReminderId, bind, date_now, ret.
  st_simpl. fold (added_at c_id c_created tv suffix sel).
  change (with_clock (with_clock (with_clock s c_id) c_created) c_save)
    with (with_clock s c_save).
  destruct (Storage.saveReminder _ (with_clock s c_save)) as [[[]|e] s1] eqn:Es.
  - destruct (Alarms.scheduleReminder _ (with_clock s1 c_schedule)) as [[[]|e] s2] eqn:Ec;
      [reflexivity|].
    now rewrite (schedule_throw_message _ _ _ _ _ Ec).
  - now rewrite (save_throw_message _ _ _ _ _ Es).
Qed.

Lemma validation_added_at (now c_id c_created t : Z) (tv suffix : string) :
  JS.trim tv <> ""%string -> t <> 0 ->
  Storage.validation_error now (added_at c_id c_created tv suffix (Some t))
  = if t <=? now then Some "Reminder must be scheduled for a future time"%string
    else None.
Proof.
  intros Htext H0.
  apply (validation_at (t - 1) now t); [|reflexivity].
  apply (validation_passes_intro (t - 1) _ t); auto; try reflexivity; try lia.
  now apply nonblank_facts.
Qed.

(** X19. Adding a reminder from the dashboard, by the readings of the
    clock.  With a text that is not blank and a time ahead when the form is
    checked, the handler ends normally, and the record built is the one
    with id "reminder-" + (reading of the id) + "-" + suffix, the trimmed
    text, the time, the reading of createdAt and status active.  If the
    time is still ahead when [saveReminder] and [scheduleReminder] read the
    clock, the record is stored as it is (appended when its id is new), a
    lookup of its id finds it, one alarm is registered under its name for
    its time and the page's list is read again.  If the time is reached
    before [saveReminder] reads the clock, nothing is stored or registered
    and the store's error is shown.  If it is reached between the two, the
    record is stored without an alarm and the scheduler's error is
    shown. *)
Theorem handleAddReminder_by_clock_readings
        (s : state) (tv dt suffix : string) (t c_id c_created c_save c_schedule : Z) :
  JS.trim tv <> ""%string -> dt <> ""%string -> t <> 0 -> clock s < t ->
  c_created <> 0 ->
  let r := added_at c_id c_created tv suffix (Some t) in
  exists s',
    Timed.handleAddReminder (Some (tv, dt)) (Some t) suffix
                            c_id c_created c_save c_schedule s = (Ok tt, s') /\
    (c_save < t -> c_schedule < t ->
     stored s' = upsert r (stored s) /\
     (~ In (id r) (ids (stored s)) -> stored s' = stored s ++ [r]) /\
     Storage.getReminder (id r) s' = (Ok (Some r), s') /\
     alarms s' = (Alarms.createAlarmName r, t)
                   :: alarms_without (Alarms.createAlarmName r) (alarms s) /\
     reminders s' = stored s' /\
     messages s' = messages s
                   ++ [("Reminder created successfully!"%string, "success"%string)]) /\
    (t <= c_save ->
     storage s' = storage s /\ alarms s' = alarms s /\ reminders s' = reminders s /\
     messages s' = messages s
                   ++ [("Reminder must be scheduled for a future time"%string,
                        "error"%string)]) /\
    (c_save < t -> t <= c_schedule ->
     stored s' = upsert r (stored s) /\ alarms s' = alarms s /\
     reminders s' = reminders s /\
     messages s' = messages s
                   ++ [("Cannot schedule alarm for past time"%string, "error"%string)]).
Proof.
  intros Htext Hdt H0 Hnow Hc0 r.
  assert (Hval : Utils.validateFutureDateTime dt (Some t) s = (Ok None, s)).
  { apply validate_future_ok; [exact Hdt|]. now intros t' [= <-]. }
  rewrite (timed_add_run tv dt suffix (Some t) s c_id c_created c_save c_schedule
             Htext Hval).
  fold r. rewrite save_run. change (clock (with_clock s c_save)) with c_save.
  unfold r at 1. rewrite (validation_added_at c_save c_id c_created t tv suffix Htext H0).
  fold r.
  assert (Hn : Storage.normalize c_save r = r).
  { apply (normalize_id c_save t c_created "active" r); auto; try reflexivity.
    left. reflexivity. }
  destruct (t <=? c_save) eqn:Esave.
  - apply Z.leb_le in Esave. eexists. split; [reflexivity|].
    unfold page_failed. st_simpl.
    split; [intros; lia|]. split; [|intros; lia]. intros _. repeat split.
  - apply Z.leb_gt in Esave. rewrite Hn.
    rewrite (schedule_at r _ t eq_refl eq_refl H0). st_simpl.
    destruct (t <=? c_schedule) eqn:Esch.
    + apply Z.leb_le in Esch. eexists. split; [reflexivity|].
      unfold page_failed. st_simpl.
      split; [intros; lia|]. split; [intros; lia|]. intros _ _. repeat split.
    + apply Z.leb_gt in Esch.
      match goal with |- exists s', (_, ?x) = (_, s') /\ _ => set (sf := x) end.
      assert (Hst : stored sf = upsert r (stored s)) by reflexivity.
      exists sf. split; [reflexivity|].
      split; [|split; intros; lia]. intros _ _.
      split; [exact Hst|].
      split; [intros Hnew; rewrite Hst; now apply upsert_absent|]. split.
      * rewrite getReminder_run, Hst, upsert_find. reflexivity.
      * repeat split.
Qed.

Lemma handleAddReminder_by_clock_readings_witness :
  exists s',
    Timed.handleAddReminder (Some ("  Tea "%string, "2030-01-01T10:00"%string))
      (Some 1893492000000) "k3x9q"
      1893491999000 1893491999000 1893491999001 1893491999004
      (browser 1893491999000 []) = (Ok tt, s') /\
    stored s' = [added_at 1893491999000 1893491999000 "  Tea " "k3x9q" (Some 1893492000000)] /\
    alarms s'
    = [("reminder-reminder-1893491999000-k3x9q-1893492000000"%string, 1893492000000)].
Proof.
  destruct (handleAddReminder_by_clock_readings (browser 1893491999000 [])
              "  Tea " "2030-01-01T10:00" "k3x9q" 1893492000000
              1893491999000 1893491999000 1893491999001 1893491999004)
    as (s' & H1 & H2 & _).
  - discriminate.
  - discriminate.
  - discriminate.
  - simpl. lia.
  - discriminate.
  - destruct H2 as (_ & Hs & _ & Ha & _); [lia|lia|].
    exists s'. split; [exact H1|]. split; [|exact Ha].
    apply Hs. simpl. tauto.
Defined.

Lemma timed_saveEdit_run (i tv dt : string) (sel : option Z) (s : state) (r : reminder)
      (c_save c_schedule : Z) :
  JS.trim tv <> ""%string ->
  Utils.validateFutureDateTime dt sel s = (Ok None, s) ->
  find (same_id i) (reminders s) = Some r ->
  Timed.saveEdit i (Some (tv, dt)) sel c_save c_schedule s =
  match Storage.saveReminder (Dashboard.edited r (JS.trim tv) sel)
          (with_clock
             (with_reminders
                (snd (Alarms.cancelReminderById (id r) (scheduledTime r) s))
                (mutate_first (same_id i)
                              (fun x => Dashboard.edited x (JS.trim tv) sel) (reminders s)))
             c_save)
  with
  | (Throw e, s1) => (Ok tt, page_failed s1 e)
  | (Ok _, s1) =>
      match Alarms.scheduleReminder (Dashboard.edited r (JS.trim tv) sel)
              (with_clock s1 c_schedule) with
      | (Throw e, s2) => (Ok tt, page_failed s2 e)
      | (Ok _, s2) => (Ok tt, page_done s2 "Reminder updated successfully!" "success")
      end
  end.
Proof.
  intros Htext Hval Hf. apply truthy_str_true in Htext.
  unfold Timed.saveEdit. cbv zeta. rewrite Htext.
  change (negb true) with false. cbv iota. unfold bind at 1. cbv beta.
  rewrite Hval. unfold bind at 1. unfold Options.get_reminders. rewrite Hf.
  unfold try_catch. unfold bind at 1.
  pose proof (cancel_ok (id r) (scheduledTime r) s) as Hc.
  destruct (Alarms.cancelReminderById (id r) (scheduledTime r) s) as [rc s0].
  cbn [snd] in *. injection Hc as ->.
  unfold bind at 1. unfold Dashboard.set_reminders at 1.
  unfold bind at 1. unfold clock_reaches at 1.
  unfold bind at 1.
  destruct (Storage.saveReminder _ _) as [[[]|e] s1] eqn:Es.
  - unfold bind at 1. unfold clock_reaches at 1. unfold bind at 1.
    destruct (Alarms.scheduleReminder _ _) as [[[]|e] s2] eqn:Ec; [reflexivity|].
    now rewrite (schedule_throw_message _ _ _ _ _ Ec).
  - now rewrite (save_throw_message _ _ _ _ _ Es).
Qed.

(** X21. Saving an edit, by the readings of the clock.  With a text that
    is not blank and a time ahead when the fields are checked, for a
    well-formed record the page lists, the handler ends normally, having
    cleared the alarm under the old name and changed the page's copy of the
    record.  If the new time is still ahead when [saveReminder] and
    [scheduleReminder] read the clock, the stored record of that id carries
    the trimmed text and the new time, its creation time and status kept,
    one alarm is registered under the new name for the new time and the
    page's list is read again.  If the time is reached before
    [saveReminder] reads the clock, the store refuses: the stored
    collection is as before, and the reminder is left without an alarm.  If
    it is reached between the two, the edited record is stored and no
    alarm is registered. *)
Theorem saveEdit_by_clock_readings
        (s : state) (i tv dt : string) (t c_save c_schedule : Z) (r : reminder) :
  JS.trim tv <> ""%string -> dt <> ""%string -> t <> 0 -> clock s < t ->
  find (same_id i) (reminders s) = Some r ->
  stored_ok r -> createdAt r <> Some 0 ->
  let n := Dashboard.edited r (JS.trim tv) (Some t) in
  let cleared := alarms_without (Alarms.createAlarmName r) (alarms s) in
  let listed := mutate_first (same_id i)
                  (fun x => Dashboard.edited x (JS.trim tv) (Some t)) (reminders s) in
  exists s',
    Timed.saveEdit i (Some (tv, dt)) (Some t) c_save c_schedule s = (Ok tt, s') /\
    id n = i /\ text n = JS.trim tv /\ scheduledTime n = Some t /\
    createdAt n = createdAt r /\ status n = status r /\
    (c_save < t -> c_schedule < t ->
     stored s' = upsert n (stored s) /\
     Storage.getReminder i s' = (Ok (Some n), s') /\
     alarms s' = (Alarms.alarm_name i (Some t), t)
                   :: alarms_without (Alarms.alarm_name i (Some t)) cleared /\
     reminders s' = stored s' /\
     messages s' = messages s
                   ++ [("Reminder updated successfully!"%string, "success"%string)]) /\
    (t <= c_save ->
     storage s' = storage s /\ alarms s' = cleared /\ reminders s' = listed /\
     messages s' = messages s
                   ++ [("Reminder must be scheduled for a future time"%string,
                        "error"%string)]) /\
    (c_save < t -> t <= c_schedule ->
     stored s' = upsert n (stored s) /\ alarms s' = cleared /\ reminders s' = listed /\
     messages s' = messages s
                   ++ [("Cannot schedule alarm for past time"%string, "error"%string)]).
Proof.
  intros Htext Hdt H0 Hnow Hf (Hid & _ & (t0 & Ht0 & Ht00) & (c & Hc) & (st & Hst & Hin))
         Hc0 n cleared listed.
  pose proof (find_same_id_eq _ _ _ Hf) as Hi.
  assert (Hval : Utils.validateFutureDateTime dt (Some t) s = (Ok None, s)).
  { apply validate_future_ok; [exact Hdt|]. now intros t' [= <-]. }
  assert (Hidr : JS.truthy_str (id r) = true) by now apply truthy_str_true.
  assert (Hidn : JS.truthy_str (id n) = true) by exact Hidr.
  assert (Hv : forall now, Storage.validation_error now n
                           = if t <=? now
                             then Some "Reminder must be scheduled for a future time"%string
                             else None).
  { intros now. apply (validation_at (t - 1) now t); [|reflexivity].
    apply (validation_passes_intro (t - 1) n t); auto; try reflexivity; try lia.
    - now apply nonblank_facts.
    - unfold n, Dashboard.edited. cbn [status]. rewrite Hst.
      destruct (valid_status_facts st Hin) as [_ Hinc].
      unfold Storage.bad_status. rewrite Hinc. apply andb_false_r. }
  assert (Hc0' : c <> 0) by (intros ->; now apply Hc0).
  assert (Hn : forall now, Storage.normalize now n = n).
  { intros now. apply (normalize_id now t c st n); auto. }
  rewrite (timed_saveEdit_run i tv dt (Some t) s r c_save c_schedule Htext Hval Hf).
  fold n. rewrite cancel_run. rewrite Hidr, Ht0, (truthy_num_some t0 Ht00).
  simpl orb. cbv iota. cbn [snd].
  rewrite save_run. st_simpl. rewrite Hv, Hn.
  assert (Hcl : alarms_without (Alarms.alarm_name (id r) (Some t0)) (alarms s) = cleared).
  { unfold cleared, Alarms.createAlarmName. now rewrite Ht0. }
  assert (Hname : Alarms.createAlarmName n = Alarms.alarm_name i (Some t)).
  { unfold Alarms.createAlarmName, n, Dashboard.edited. cbn [id scheduledTime].
    now rewrite Hi. }
  destruct (t <=? c_save) eqn:Esave.
  - apply Z.leb_le in Esave. eexists. split; [reflexivity|].
    unfold page_failed. st_simpl. rewrite Hcl.
    do 5 (split; [first [exact Hi | reflexivity]|]).
    split; [intros; lia|]. split; [|intros; lia]. intros _. repeat split.
  - apply Z.leb_gt in Esave.
    rewrite (schedule_at n _ t Hidn eq_refl H0). st_simpl. rewrite Hcl, Hname.
    destruct (t <=? c_schedule) eqn:Esch.
    + apply Z.leb_le in Esch. eexists. split; [reflexivity|].
      unfold page_failed. st_simpl.
      do 5 (split; [first [exact Hi | reflexivity]|]).
      split; [intros; lia|]. split; [intros; lia|]. intros _ _. repeat split.
    + apply Z.leb_gt in Esch.
      match goal with |- exists s', (_, ?x) = (_, s') /\ _ => set (sf := x) end.
      assert (Hsf : stored sf = upsert n (stored s)) by reflexivity.
      exists sf. split; [reflexivity|].
      do 5 (split; [first [exact Hi | reflexivity]|]).
      split; [|split; intros; lia]. intros _ _.
      split; [exact Hsf|]. split.
      * rewrite getReminder_run, <- Hi. change (id r) with (id n) at 1.
        rewrite Hidn, Hsf. simpl negb. cbv iota.
        change (id r) with (id n). now rewrite upsert_find.
      * repeat split.
Qed.

Lemma saveEdit_by_clock_readings_witness :
  exists s',
    Timed.saveEdit "a" (Some (" Check stove "%string, "1970-01-01T00:00:07"%string))
                   (Some 7000) 999 1001 dashboard_998 = (Ok tt, s') /\
    stored s' = [Dashboard.edited oven "Check stove" (Some 7000)] /\
    alarms s' = [("reminder-a-7000"%string, 7000)].
Proof.
  destruct (saveEdit_by_clock_readings dashboard_998 "a" " Check stove "
              "1970-01-01T00:00:07" 7000 999 1001 oven)
    as (s' & H1 & _ & _ & _ & _ & _ & H7 & _).
  - discriminate.
  - discriminate.
  - discriminate.
  - simpl. lia.
  - reflexivity.
  - unfold stored_ok, oven. simpl. repeat split; try discriminate.
    + now exists 1000.
    + now exists 1.
    + exists "active"%string. split; [reflexivity|left; reflexivity].
  - discriminate.
  - destruct H7 as (Hs & _ & Ha & _); [lia|lia|].
    exists s'. split; [exact H1|]. split; [exact Hs|exact Ha].
Defined.

(** X29. From registration to notification: take a stored active reminder
    with a positive time, in a collection whose ids are the generated kind
    (none begins with a hyphen), with no record stored before it within a
    second of its time or carrying its id.  When the alarm registered
    under the name built for it fires, at whatever time, the worker finds
    no record by the parsed id, finds the reminder by its time, runs the
    display for it (shown under "reminder-" + id with its text, when
    permitted and not rejected) and marks it, and it alone, completed; the
    alarms are not touched. *)
Theorem registered_alarm_fires
        (s : state) (pre post : list reminder) (r : reminder) (t : Z) :
  stored s = pre ++ r :: post ->
  scheduledTime r = Some t -> 0 < t ->
  ServiceWorker.is_active r = true ->
  (forall x, In x (stored s) -> starts_with_dash (id x) = false) ->
  (forall x, In x pre -> ServiceWorker.near t x = false) ->
  (forall x, In x pre -> id x <> id r) ->
  exists rid s2,
    ServiceWorker.parseAlarmName (Alarms.createAlarmName r) = Some (rid, t) /\
    find (same_id rid) (stored s) = None /\
    ServiceWorker.findReminder (stored s) rid t = Some r /\
    ServiceWorker.onAlarm (Alarms.createAlarmName r) s = (Ok tt, s2) /\
    stored s2 = pre ++ set_status r "completed" :: post /\
    alarms s2 = alarms s /\
    (permission_denied s = false ->
     create_rejects s ("reminder-" ++ id r)%string = false ->
     notifications s2 = notifications s ++ [(("reminder-" ++ id r)%string, text r)]).
Proof.
  intros Hs Ht Hpos Hact Hdash Hnear Hids.
  assert (Hp : ServiceWorker.parseAlarmName (Alarms.createAlarmName r)
               = Some (String "-" (JS.trimEnd (id r)), t)).
  { unfold Alarms.createAlarmName. rewrite Ht. apply (parse_built_name (id r) t Hpos). }
  assert (Hnone : find (same_id (String "-" (JS.trimEnd (id r)))) (stored s) = None)
    by (apply find_same_id_dash; [reflexivity|exact Hdash]).
  assert (Hn : ServiceWorker.near t r = true).
  { unfold ServiceWorker.near. rewrite Ht, Z.sub_diag. reflexivity. }
  assert (Hf : ServiceWorker.findReminder (stored s) (String "-" (JS.trimEnd (id r))) t
               = Some r).
  { rewrite findReminder_run, Hnone, Hs. now apply find_at_first. }
  set (sn := snd (ServiceWorker.showNotification r s)).
  assert (Hsn : stored sn = pre ++ r :: post)
    by (unfold stored, sn; rewrite showNotification_storage; exact Hs).
  exists (String "-" (JS.trimEnd (id r))),
         (with_storage sn (Some (pre ++ set_status r "completed" :: post))).
  split; [exact Hp|]. split; [exact Hnone|]. split; [exact Hf|]. split.
  { rewrite (onAlarm_matched s _ _ t r Hp Hf), Hact. simpl negb. cbv iota zeta.
    fold sn. now apply worker_update_at. }
  split; [reflexivity|]. st_simpl. unfold sn. rewrite showNotification_run. cbn [snd].
  split.
  - destruct (permission_denied s); [reflexivity|].
    destruct (create_rejects s _); [|reflexivity].
    now destruct (create_rejects s _).
  - intros Hperm Hrej. now rewrite Hperm, Hrej.
Qed.

Lemma registered_alarm_fires_witness :
  exists rid s2,
    ServiceWorker.parseAlarmName "reminder-b-5000" = Some (rid, 5000) /\
    ServiceWorker.onAlarm "reminder-b-5000" (browser 5003 [oven; late_active]) = (Ok tt, s2) /\
    stored s2 = [oven; set_status late_active "completed"] /\
    notifications s2 = [("reminder-b"%string, "Stand up"%string)].
Proof.
  destruct (registered_alarm_fires (browser 5003 [oven; late_active])
              [oven] [] late_active 5000)
    as (rid & s2 & H1 & _ & _ & H4 & H5 & _ & H7).
  - reflexivity.
  - reflexivity.
  - lia.
  - reflexivity.
  - intros x [<-|[<-|[]]]; reflexivity.
  - intros x [<-|[]]. reflexivity.
  - intros x [<-|[]]. discriminate.
  - exists rid, s2. split; [exact H1|]. split; [exact H4|]. split; [exact H5|].
    exact (H7 eq_refl eq_refl).
Defined.

(** *** The handlers at one reading

    With every reading equal to the clock of the state, the handlers under
    a moving clock are the handlers defined first. *)

Lemma with_clock_eq (s : state) (c : Z) : clock s = c -> with_clock s c = s.
Proof. intros <-. now destruct s. Qed.

Lemma save_clock (r : reminder) (s : state) :
  clock (snd (Storage.saveReminder r s)) = clock s.
Proof. rewrite save_run. now destruct (Storage.validation_error _ _). Qed.

Lemma update_clock (i st : string) (s : state) :
  clock (snd (Storage.updateReminderStatus i st s)) = clock s.
Proof.
  rewrite update_run.
  destruct (negb (JS.truthy_str i) || negb (JS.truthy_str st)); [reflexivity|].
  destruct (negb (includes validStatuses st)); [reflexivity|].
  destruct (find (same_id i) (stored s)); [apply save_clock|reflexivity].
Qed.

Lemma timed_undo_one_reading (s : state) :
  Timed.handleUndoDismiss (clock s) (clock s) s = Options.handleUndoDismiss s.
Proof.
  destruct (lastDismissedReminder s) as [r|] eqn:Hl.
  - rewrite (timed_undo_run s r _ _ Hl), (handleUndoDismiss_run s r Hl).
    pose proof (update_clock (id r) "active" s) as Hc.
    destruct (Storage.updateReminderStatus (id r) "active" s) as [[[]|msg] s1];
      [|reflexivity].
    cbn [snd] in Hc. rewrite <- Hc. cbv zeta.
    rewrite (with_clock_eq s1 (clock s1) eq_refl).
    now rewrite (with_clock_eq (with_lastDismissed s1 _) (clock s1) eq_refl).
  - unfold Timed.handleUndoDismiss, Options.handleUndoDismiss, bind,
      Options.get_lastDismissed. now rewrite Hl.
Qed.

Lemma timed_add_one_reading (form : option (string * string)) (sel : option Z)
      (suffix : string) (s : state) :
  Timed.handleAddReminder form sel suffix (clock s) (clock s) (clock s) (clock s) s
  = Dashboard.handleAddReminder form sel suffix s.
Proof.
  destruct form as [[tv dt]|]; [|reflexivity].
  destruct (JS.trim tv) eqn:Etext.
  { unfold Timed.handleAddReminder, Dashboard.handleAddReminder. cbv zeta.
    now rewrite Etext. }
  assert (Htext : JS.trim tv <> ""%string) by (rewrite Etext; discriminate).
  destruct (validate_future_run dt sel s) as (v & Hv & _).
  destruct v as [e|].
  { unfold Timed.handleAddReminder, Dashboard.handleAddReminder. cbv zeta.
    rewrite Etext. change (negb (JS.truthy_str (String a s0))) with false. cbv iota.
    unfold bind. now rewrite Hv. }
  rewrite (timed_add_run tv dt suffix sel s _ _ _ _ Htext Hv).
  rewrite (handleAddReminder_run tv dt suffix sel s Htext Hv).
  fold (added_at (clock s) (clock s) tv suffix sel).
  rewrite (with_clock_eq s (clock s) eq_refl).
  pose proof (save_clock (added_at (clock s) (clock s) tv suffix sel) s) as Hc.
  destruct (Storage.saveReminder _ s) as [[[]|e] s1]; [|reflexivity].
  cbn [snd] in Hc. now rewrite (with_clock_eq s1 (clock s) Hc).
Qed.

Lemma timed_saveEdit_one_reading (i : string) (fields : option (string * string))
      (sel : option Z) (s : state) :
  Timed.saveEdit i fields sel (clock s) (clock s) s = Dashboard.saveEdit i fields sel s.
Proof.
  destruct fields as [[tv dt]|]; [|reflexivity].
  destruct (JS.trim tv) eqn:Etext.
  { unfold Timed.saveEdit, Dashboard.saveEdit. cbv zeta. now rewrite Etext. }
  assert (Htext : JS.trim tv <> ""%string) by (rewrite Etext; discriminate).
  destruct (validate_future_run dt sel s) as (v & Hv & _).
  destruct v as [e|].
  { unfold Timed.saveEdit, Dashboard.saveEdit. cbv zeta.
    rewrite Etext. change (negb (JS.truthy_str (String a s0))) with false. cbv iota.
    unfold bind. now rewrite Hv. }
  destruct (find (same_id i) (reminders s)) as [r|] eqn:Hf.
  - rewrite (timed_saveEdit_run i tv dt sel s r _ _ Htext Hv Hf).
    rewrite (saveEdit_run i tv dt sel s r Htext Hv Hf).
    match goal with
    | |- context [Storage.saveReminder ?x (with_clock ?y (clock s))] =>
        assert (Hy : clock y = clock s)
          by (rewrite cancel_run;
              now destruct (negb (JS.truthy_str (id r))
                            || negb (JS.truthy_num (scheduledTime r))));
        rewrite (with_clock_eq y (clock s) Hy);
        pose proof (save_clock x y) as Hc;
        destruct (Storage.saveReminder x y) as [[[]|e] s1]; [|reflexivity]
    end.
    cbn [snd] in Hc. rewrite Hy in Hc. now rewrite (with_clock_eq s1 (clock s) Hc).
  - unfold Timed.saveEdit, Dashboard.saveEdit. cbv zeta.
    rewrite Etext. change (negb (JS.truthy_str (String a s0))) with false. cbv iota.
    unfold bind. rewrite Hv. unfold Options.get_reminders. now rewrite Hf.
Qed.
